(** * The Gemini sentiment client: transport retry loop and response decoder

    A shallow embedding of [src/gemini_client.py] (class [GeminiClient]) and
    the properties of its retry loop ([_make_api_request]) and of its
    response-recovery pipeline ([_parse_api_response] and its helpers).

    Conventions of the model.
    - A Python [str] is a [list ascii].  The characters below 128 are the
      ASCII characters; the characters from 128 on stand for the bytes of the
      UTF-8 form of any other character, which are neither white space nor
      cased here (the white space and the case mappings of Python outside
      ASCII are not modelled).
    - A Python [float] is the exact value of the decimal it was read from
      (a reduced [Q]) or one of the three special values; the rounding to
      binary64 and the overflow of huge literals are not modelled.  Rounding
      is monotone and keeps 0.0 and 1.0, so the comparisons stated below
      carry over.
    - Exceptions are values of [exn]; a computation that may raise returns a
      [result]. Logging is left out: it has no effect on the results. *)

From Stdlib Require Import List Ascii String ZArith QArith Qreduction Bool Lia Arith.
From Stdlib Require Import DecimalString.
Import ListNotations.

Local Open Scope Z_scope.

#[local] Set Warnings "-register-all".

(** ** Python values shared by both halves of the client *)

Abbreviation text := (list ascii).

(** A string literal of the source, as a [text]. *)
Definition str (s : string) : text := list_ascii_of_string s.

(** The double quote, and a literal in which every single quote stands for
    a double quote: [txt "{'a': 1}"] is the text [{"a": 1}]. *)
Definition dquote : ascii := "034"%char.

Definition txt (s : string) : text :=
  map (fun c => if Ascii.eqb c "'" then dquote else c) (str s).

Inductive pyfloat : Type :=
| Fin (q : Q)
| NaN
| PosInf
| NegInf.

(** The float written [m * 10^e]. *)
Definition dec (m e : Z) : pyfloat :=
  Fin (Qred (if 0 <=? e then inject_Z (m * 10 ^ e) else Qmake m (Z.to_pos (10 ^ (- e))))).

(** [a <= b] on floats, as Python compares them ([nan] compares false). *)
Definition fle (a b : pyfloat) : bool :=
  match a, b with
  | NaN, _ | _, NaN => false
  | NegInf, _ => true
  | _, PosInf => true
  | Fin x, Fin y => Qle_bool x y
  | _, _ => false
  end.

Inductive json : Type :=
| JNull
| JBool (b : bool)
| JInt (z : Z)
| JFloat (f : pyfloat)
| JString (s : text)
| JArray (l : list json)
| JObject (kvs : list (text * json)).

Inductive exn : Type :=
| GeminiAPIError (msg : text)
| Timeout (msg : text)
| ConnectionError (msg : text)
| JSONDecodeError
| TypeError
| ValueError
| OverflowError
| KeyError
| IndexError
| AttributeError
| RecursionError.

Inductive result (A : Type) : Type :=
| Ok (a : A)
| Raise (e : exn).
Arguments Ok {A} a.
Arguments Raise {A} e.

Definition bind {A B} (r : result A) (k : A -> result B) : result B :=
  match r with
  | Ok a => k a
  | Raise e => Raise e
  end.

Notation "x <- c ;; k" := (bind c (fun x => k))
  (at level 61, c at next level, right associativity).

(** ** Operations of [str] *)

Module Str.

Definition eqb (a b : text) : bool :=
  if list_eq_dec Ascii.ascii_dec a b then true else false.

Definition code (c : ascii) : Z := Z.of_N (N_of_ascii c).

(** White space of [str.strip] and of the class [\s] of [re] on ASCII:
    tab, line feed, vertical tab, form feed, carriage return, the four
    separators 28 to 31 and the space. *)
Definition isspace (c : ascii) : bool :=
  let n := code c in
  ((9 <=? n) && (n <=? 13)) || ((28 <=? n) && (n <=? 32)).

Fixpoint lstrip (s : text) : text :=
  match s with
  | c :: s' => if isspace c then lstrip s' else s
  | [] => []
  end.

Definition rstrip (s : text) : text := rev (lstrip (rev s)).

Definition strip (s : text) : text := rstrip (lstrip s).

Fixpoint startswith (s p : text) : bool :=
  match p, s with
  | [], _ => true
  | a :: p', b :: s' => Ascii.eqb a b && startswith s' p'
  | _ :: _, [] => false
  end.

Definition endswith (s p : text) : bool := startswith (rev s) (rev p).

(** [p in s] *)
Fixpoint contains (s p : text) : bool :=
  startswith s p ||
  match s with
  | [] => false
  | _ :: s' => contains s' p
  end.

Definition lower_char (c : ascii) : ascii :=
  let n := code c in
  if (65 <=? n) && (n <=? 90) then ascii_of_N (Z.to_N (n + 32)) else c.

Definition lower (s : text) : text := map lower_char s.

(** [str(n)] of an integer. *)
Definition of_Z (n : Z) : text := str (NilZero.string_of_int (Z.to_int n)).

End Str.

(** ** The fragment of [re] the client uses

    The three patterns of the source are sequences of literal characters,
    greedy stars of a character class and the anchor [$]. [match_here]
    is the backtracking matcher on that fragment: it gives the length of the
    match that Python finds at the head of the input. *)

Module Re.

Inductive atom : Type :=
| Lit (c : ascii)
| Star (cls : ascii -> bool)
| Eos.

Definition lits (s : string) : list atom := map Lit (str s).

Fixpoint star (cls : ascii -> bool) (k : text -> option nat) (s : text) : option nat :=
  match s with
  | c :: s' =>
      if cls c then
        match star cls k s' with
        | Some n => Some (S n)
        | None => k s
        end
      else k s
  | [] => k []
  end.

(** [$] without [re.MULTILINE]: the end of the text, or just before a line
    feed that ends the text. *)
Definition at_end (s : text) : bool :=
  match s with
  | [] => true
  | [c] => Ascii.eqb c "010"
  | _ => false
  end.

Fixpoint match_here (re : list atom) : text -> option nat :=
  match re with
  | [] => fun _ => Some O
  | Lit c :: re' => fun s =>
      match s with
      | x :: s' => if Ascii.eqb x c then option_map S (match_here re' s') else None
      | [] => None
      end
  | Star cls :: re' => star cls (match_here re')
  | Eos :: re' => fun s => if at_end s then match_here re' s else None
  end.

(** [re.search(re, s)]: the text of the leftmost match. *)
Fixpoint search (re : list atom) (s : text) : option text :=
  match match_here re s with
  | Some n => Some (firstn n s)
  | None =>
      match s with
      | [] => None
      | _ :: s' => search re s'
      end
  end.

(** [re.sub(re, '', s)] for a pattern that matches no empty text: [skip]
    counts the characters of the current match still to be dropped. *)
Fixpoint sub_from (re : list atom) (skip : nat) (s : text) : text :=
  match s with
  | [] => []
  | c :: s' =>
      match skip with
      | S k => sub_from re k s'
      | O =>
          match match_here re s with
          | Some (S n) => sub_from re n s'
          | _ => c :: sub_from re O s'
          end
      end
  end.

Definition sub (re : list atom) (s : text) : text := sub_from re O s.

Definition not_brace (c : ascii) : bool :=
  negb (Ascii.eqb c "{" || Ascii.eqb c "}").

End Re.

(** ** [json.loads]

    The decoder of Python's standard library, as its scanner reads a text:
    white space is space, tab, line feed and carriage return; strings are
    strict (no control character); the literals [NaN], [Infinity] and
    [-Infinity] are read; a repeated key keeps its first place and its last
    value.  The limits of the interpreter (the depth of the recursion, the
    number of digits of an integer) are not modelled. *)

Module Json.

Definition is_ws (c : ascii) : bool :=
  Ascii.eqb c " " || Ascii.eqb c "009" || Ascii.eqb c "010" || Ascii.eqb c "013".

Fixpoint skip_ws (s : text) : text :=
  match s with
  | c :: s' => if is_ws c then skip_ws s' else s
  | [] => []
  end.

Definition is_digit (c : ascii) : bool :=
  (48 <=? Str.code c) && (Str.code c <=? 57).

Definition digit_val (c : ascii) : Z := Str.code c - 48.

Fixpoint span_digits (s : text) : text * text :=
  match s with
  | c :: s' =>
      if is_digit c then let (d, r) := span_digits s' in (c :: d, r) else ([], s)
  | [] => ([], [])
  end.

Definition Z_of_digits (d : text) : Z :=
  fold_left (fun acc c => 10 * acc + digit_val c) d 0.

Definition hex_val (c : ascii) : option Z :=
  let n := Str.code c in
  if (48 <=? n) && (n <=? 57) then Some (n - 48)
  else if (65 <=? n) && (n <=? 70) then Some (n - 55)
  else if (97 <=? n) && (n <=? 102) then Some (n - 87)
  else None.

Definition hex4 (a b c d : ascii) : option Z :=
  match hex_val a, hex_val b, hex_val c, hex_val d with
  | Some x, Some y, Some z, Some w => Some (((x * 16 + y) * 16 + z) * 16 + w)
  | _, _, _, _ => None
  end.

(** A piece of a string literal: a character written as it is, or the code
    unit of a [\uXXXX] escape. *)
Inductive piece : Type :=
| Raw (c : ascii)
| Esc (u : Z).

Definition simple_escape (c : ascii) : option ascii :=
  if Ascii.eqb c dquote then Some dquote
  else if Ascii.eqb c "\" then Some "\"%char
  else if Ascii.eqb c "/" then Some "/"%char
  else if Ascii.eqb c "b" then Some "008"%char
  else if Ascii.eqb c "f" then Some "012"%char
  else if Ascii.eqb c "n" then Some "010"%char
  else if Ascii.eqb c "r" then Some "013"%char
  else if Ascii.eqb c "t" then Some "009"%char
  else None.

(** The pieces of a string literal, from just after its opening quote, and
    the text after its closing quote. *)
Fixpoint scan_pieces (s : text) : option (list piece * text) :=
  match s with
  | [] => None
  | c :: s' =>
      if Ascii.eqb c dquote then Some ([], s')
      else if Ascii.eqb c "\" then
        match s' with
        | e :: s'' =>
            if Ascii.eqb e "u" then
              match s'' with
              | h1 :: h2 :: h3 :: h4 :: r =>
                  match hex4 h1 h2 h3 h4, scan_pieces r with
                  | Some u, Some (ps, rest) => Some (Esc u :: ps, rest)
                  | _, _ => None
                  end
              | _ => None
              end
            else
              match simple_escape e, scan_pieces s'' with
              | Some x, Some (ps, rest) => Some (Raw x :: ps, rest)
              | _, _ => None
              end
        | [] => None
        end
      else if Str.code c <? 32 then None
      else
        match scan_pieces s' with
        | Some (ps, rest) => Some (Raw c :: ps, rest)
        | None => None
        end
  end.

Definition byte (n : Z) : ascii := ascii_of_N (Z.to_N n).

(** The UTF-8 form of a code point (of a lone surrogate too). *)
Definition utf8 (n : Z) : text :=
  if n <? 128 then [byte n]
  else if n <? 2048 then [byte (192 + n / 64); byte (128 + n mod 64)]
  else if n <? 65536 then
    [byte (224 + n / 4096); byte (128 + (n / 64) mod 64); byte (128 + n mod 64)]
  else
    [byte (240 + n / 262144); byte (128 + (n / 4096) mod 64);
     byte (128 + (n / 64) mod 64); byte (128 + n mod 64)].

Definition is_high (u : Z) : bool := (55296 <=? u) && (u <=? 56319).
Definition is_low (u : Z) : bool := (56320 <=? u) && (u <=? 57343).

(** The text of a list of pieces: an escaped high surrogate followed by an
    escaped low surrogate is one character. *)
Fixpoint assemble (ps : list piece) : text :=
  match ps with
  | [] => []
  | Raw c :: ps' => c :: assemble ps'
  | Esc u :: ps' =>
      match ps' with
      | Esc v :: ps'' =>
          if is_high u && is_low v
          then utf8 (65536 + (u - 55296) * 1024 + (v - 56320)) ++ assemble ps''
          else utf8 u ++ assemble ps'
      | _ => utf8 u ++ assemble ps'
      end
  end.

Definition scan_string (s : text) : option (text * text) :=
  match scan_pieces s with
  | Some (ps, rest) => Some (assemble ps, rest)
  | None => None
  end.

(** A number, as the scanner matches it: an optional minus sign, then [0] or
    a digit from 1 to 9 followed by digits; then, if a digit follows it, a
    dot and digits; then, if digits follow it, [e] or [E] with an optional
    sign and digits.  It is an [int] when there is neither fraction nor
    exponent, a [float] otherwise. *)
Definition scan_int_part (s : text) : option (text * text) :=
  match s with
  | c :: s' =>
      if Ascii.eqb c "0" then Some ([c], s')
      else if is_digit c then let (d, r) := span_digits s' in Some (c :: d, r)
      else None
  | [] => None
  end.

Definition scan_frac (s : text) : text * text :=
  match s with
  | c :: s' =>
      if Ascii.eqb c "." then
        match span_digits s' with
        | ([], _) => ([], s)
        | (d, r) => (d, r)
        end
      else ([], s)
  | [] => ([], s)
  end.

(** The exponent: whether one is there, its value, and the text after it. *)
Definition scan_exp (s : text) : bool * Z * text :=
  match s with
  | c :: s' =>
      if Ascii.eqb c "e" || Ascii.eqb c "E" then
        let (neg, s'') :=
          match s' with
          | g :: t =>
              if Ascii.eqb g "-" then (true, t)
              else if Ascii.eqb g "+" then (false, t)
              else (false, s')
          | [] => (false, s')
          end in
        match span_digits s'' with
        | ([], _) => (false, 0, s)
        | (d, r) => (true, if neg then - Z_of_digits d else Z_of_digits d, r)
        end
      else (false, 0, s)
  | [] => (false, 0, s)
  end.

Definition scan_number (s : text) : option (json * text) :=
  let (neg, s1) :=
    match s with
    | c :: s' => if Ascii.eqb c "-" then (true, s') else (false, s)
    | [] => (false, s)
    end in
  match scan_int_part s1 with
  | None => None
  | Some (ip, s2) =>
      let (fp, s3) := scan_frac s2 in
      let '(has_exp, ex, s4) := scan_exp s3 in
      let sign := if neg then -1 else 1 in
      match fp, has_exp with
      | [], false => Some (JInt (sign * Z_of_digits ip), s4)
      | _, _ =>
          Some (JFloat (dec (sign * Z_of_digits (ip ++ fp)) (ex - Z.of_nat (List.length fp))), s4)
      end
  end.

(** [dict(pairs)]: a key that comes again keeps its place and takes the new
    value. *)
Fixpoint dict_set (d : list (text * json)) (k : text) (v : json) : list (text * json) :=
  match d with
  | [] => [(k, v)]
  | (k', v') :: d' =>
      if Str.eqb k' k then (k, v) :: d' else (k', v') :: dict_set d' k v
  end.

Definition strip_prefix (p : string) (s : text) : option text :=
  if Str.startswith s (str p) then Some (skipn (List.length (str p)) s) else None.

(** The text after the character [c], when the text starts with it. *)
Definition expect (c : ascii) (s : text) : option text :=
  match s with
  | h :: r => if Ascii.eqb h c then Some r else None
  | [] => None
  end.

(** One value at the head of the text, and the text after it.  Every
    recursive call comes after a character has been read, so a fuel of twice
    the length of the text is never used up. *)
Fixpoint scan_once (fuel : nat) (s : text) : option (json * text) :=
  match fuel with
  | O => None
  | S fuel' =>
      match s with
      | [] => None
      | c :: s' =>
          if Ascii.eqb c dquote then
            match scan_string s' with
            | Some (x, r) => Some (JString x, r)
            | None => None
            end
          else if Ascii.eqb c "{" then
            match expect "}" (skip_ws s') with
            | Some r => Some (JObject [], r)
            | None => scan_members fuel' [] (skip_ws s')
            end
          else if Ascii.eqb c "[" then
            match expect "]" (skip_ws s') with
            | Some r => Some (JArray [], r)
            | None => scan_elements fuel' [] (skip_ws s')
            end
          else
            match strip_prefix "null" s, strip_prefix "true" s, strip_prefix "false" s with
            | Some r, _, _ => Some (JNull, r)
            | _, Some r, _ => Some (JBool true, r)
            | _, _, Some r => Some (JBool false, r)
            | _, _, _ =>
                match scan_number s with
                | Some res => Some res
                | None =>
                    match strip_prefix "NaN" s, strip_prefix "Infinity" s,
                          strip_prefix "-Infinity" s with
                    | Some r, _, _ => Some (JFloat NaN, r)
                    | _, Some r, _ => Some (JFloat PosInf, r)
                    | _, _, Some r => Some (JFloat NegInf, r)
                    | _, _, _ => None
                    end
                end
            end
      end
  end

(** The members of an object, from its first key: [acc] holds the members
    read so far. *)
with scan_members (fuel : nat) (acc : list (text * json)) (s : text)
  : option (json * text) :=
  match fuel with
  | O => None
  | S fuel' =>
      match expect dquote s with
      | Some s1 =>
          match scan_string s1 with
          | Some (k, s2) =>
              match expect ":" (skip_ws s2) with
              | Some s3 =>
                  match scan_once fuel' (skip_ws s3) with
                  | Some (v, s4) =>
                      let acc' := dict_set acc k v in
                      match expect "}" (skip_ws s4) with
                      | Some r => Some (JObject acc', r)
                      | None =>
                          match expect "," (skip_ws s4) with
                          | Some s5 => scan_members fuel' acc' (skip_ws s5)
                          | None => None
                          end
                      end
                  | None => None
                  end
              | None => None
              end
          | None => None
          end
      | None => None
      end
  end

(** The elements of an array, from its first element. *)
with scan_elements (fuel : nat) (acc : list json) (s : text) : option (json * text) :=
  match fuel with
  | O => None
  | S fuel' =>
      match scan_once fuel' s with
      | Some (v, s1) =>
          match expect "]" (skip_ws s1) with
          | Some r => Some (JArray (acc ++ [v]), r)
          | None =>
              match expect "," (skip_ws s1) with
              | Some s2 => scan_elements fuel' (acc ++ [v]) (skip_ws s2)
              | None => None
              end
          end
      | None => None
      end
  end.

(** [json.loads(s)]: [None] stands for [json.JSONDecodeError]. *)
Definition loads (s : text) : option json :=
  match scan_once (2 * List.length s + 2) (skip_ws s) with
  | Some (v, rest) =>
      match skip_ws rest with
      | [] => Some v
      | _ => None
      end
  | None => None
  end.

(** [d[k]] and [k in d] of a dict with string keys. *)
Fixpoint lookup (d : list (text * json)) (k : text) : option json :=
  match d with
  | [] => None
  | (k', v) :: d' => if Str.eqb k' k then Some v else lookup d' k
  end.

End Json.

(** ** Built-in conversions and the dynamic operations on parsed values *)

Module Py.

(** A group of digits in which single underscores may separate digits, as
    [int] and [float] read them from a [str]. *)
Fixpoint span_digits_us (s : text) : text * text :=
  match s with
  | c :: s' =>
      if Json.is_digit c then
        match s' with
        | u :: s'' =>
            if Ascii.eqb u "_" then
              match s'' with
              | d :: _ =>
                  if Json.is_digit d
                  then let (ds, r) := span_digits_us s'' in (c :: ds, r)
                  else ([c], s')
              | [] => ([c], s')
              end
            else let (ds, r) := span_digits_us s' in (c :: ds, r)
        | [] => ([c], [])
        end
      else ([], s)
  | [] => ([], [])
  end.

Definition split_sign (s : text) : bool * text :=
  match s with
  | c :: s' =>
      if Ascii.eqb c "-" then (true, s')
      else if Ascii.eqb c "+" then (false, s')
      else (false, s)
  | [] => (false, s)
  end.

(** [int(s)] of a [str], in base ten.  A text of more than 4300 digits is
    refused with a [ValueError], as a text that is no integer is: 4300 is
    the bound of the interpreter on the conversions between [int] and [str]
    ([sys.get_int_max_str_digits()]) as long as nobody sets another. *)
Definition int_of_text (s : text) : result Z :=
  let (neg, body) := split_sign (Str.strip s) in
  match span_digits_us body with
  | ((_ :: _) as ds, []) =>
      if 4300 <? Z.of_nat (List.length ds) then Raise ValueError
      else Ok (if neg then - Json.Z_of_digits ds else Json.Z_of_digits ds)
  | _ => Raise ValueError
  end.

Definition fneg (neg : bool) (f : pyfloat) : pyfloat :=
  match f with
  | PosInf => if neg then NegInf else PosInf
  | other => other
  end.

(** [float(s)] of a [str]. *)
Definition float_of_text (s : text) : result pyfloat :=
  let (neg, body) := split_sign (Str.strip s) in
  let low := Str.lower body in
  if Str.eqb low (str "inf") || Str.eqb low (str "infinity") then Ok (fneg neg PosInf)
  else if Str.eqb low (str "nan") then Ok NaN
  else
    let (ip, r1) := span_digits_us body in
    let (fp, r2) :=
      match r1 with
      | c :: r => if Ascii.eqb c "." then span_digits_us r else ([], r1)
      | [] => ([], r1)
      end in
    let sign := if neg then -1 else 1 in
    let mant := sign * Json.Z_of_digits (ip ++ fp) in
    let shift := Z.of_nat (List.length fp) in
    match ip ++ fp with
    | [] => Raise ValueError
    | _ :: _ =>
        match r2 with
        | [] => Ok (dec mant (- shift))
        | c :: r =>
            if Ascii.eqb c "e" || Ascii.eqb c "E" then
              let (eneg, r3) := split_sign r in
              match span_digits_us r3 with
              | ((_ :: _) as ds, []) =>
                  Ok (dec mant ((if eneg then - Json.Z_of_digits ds else Json.Z_of_digits ds) - shift))
              | _ => Raise ValueError
              end
            else Raise ValueError
        end
    end.

(** [int(x)] *)
Definition int (x : json) : result Z :=
  match x with
  | JInt z => Ok z
  | JBool b => Ok (if b then 1 else 0)
  | JFloat (Fin q) => Ok (Z.quot (Qnum q) (Zpos (Qden q)))
  | JFloat NaN => Raise ValueError
  | JFloat _ => Raise OverflowError
  | JString s => int_of_text s
  | _ => Raise TypeError
  end.

(** [float(x)] *)
Definition float (x : json) : result pyfloat :=
  match x with
  | JInt z => Ok (dec z 0)
  | JBool b => Ok (dec (if b then 1 else 0) 0)
  | JFloat f => Ok f
  | JString s => float_of_text s
  | _ => Raise TypeError
  end.

Definition is_zero (f : pyfloat) : bool :=
  match f with
  | Fin q => Qeq_bool q 0
  | _ => false
  end.

(** The truth value of [x], as [not x] and [if x] test it. *)
Definition truthy (x : json) : bool :=
  match x with
  | JNull => false
  | JBool b => b
  | JInt z => negb (z =? 0)
  | JFloat f => negb (is_zero f)
  | JString s => negb (Str.eqb s [])
  | JArray l => match l with [] => false | _ => true end
  | JObject d => match d with [] => false | _ => true end
  end.

(** [k in x] for a [str] [k]: a key of a dict, an element of a list, a part
    of a [str]; a [TypeError] on anything else. *)
Definition contains (k : text) (x : json) : result bool :=
  match x with
  | JObject d => Ok (match Json.lookup d k with Some _ => true | None => false end)
  | JArray l =>
      Ok (existsb (fun e => match e with JString s => Str.eqb s k | _ => false end) l)
  | JString s => Ok (Str.contains s k)
  | _ => Raise TypeError
  end.

(** [x[k]] for a [str] [k]. *)
Definition getitem (x : json) (k : text) : result json :=
  match x with
  | JObject d =>
      match Json.lookup d k with
      | Some v => Ok v
      | None => Raise KeyError
      end
  | _ => Raise TypeError
  end.

(** [x[0]] *)
Definition first (x : json) : result json :=
  match x with
  | JArray (v :: _) => Ok v
  | JArray [] => Raise IndexError
  | JString (c :: _) => Ok (JString [c])
  | JString [] => Raise IndexError
  | JObject _ => Raise KeyError
  | _ => Raise TypeError
  end.

(** [x.get(k, default)] *)
Definition get (x : json) (k : text) (default : json) : result json :=
  match x with
  | JObject d =>
      Ok (match Json.lookup d k with Some v => v | None => default end)
  | _ => Raise AttributeError
  end.

End Py.

(** ** The client *)

Record SentimentResponse : Type := {
  sentiment_score : Z;
  sentiment_label : json;
  confidence : pyfloat;
  explanation : json;
  language_detected : json;
  processing_time : pyfloat
}.

Module GeminiClient.

(** The table [score_to_label] of both builders; a key outside it is a
    [KeyError]. *)
Definition score_to_label (score : Z) : result json :=
  if score =? 1 then Ok (JString (str "Very Negative"))
  else if score =? 2 then Ok (JString (str "Negative"))
  else if score =? 3 then Ok (JString (str "Neutral"))
  else if score =? 4 then Ok (JString (str "Positive"))
  else if score =? 5 then Ok (JString (str "Very Positive"))
  else Raise KeyError.

(** *** The response decoder *)

Definition fence_json : list Re.atom := Re.lits "```json" ++ [Re.Star Str.isspace].

Definition fence_end : list Re.atom := Re.lits "```" ++ [Re.Star Str.isspace; Re.Eos].

Definition score_object : list Re.atom :=
  [Re.Lit "{"; Re.Star Re.not_brace] ++ map Re.Lit (txt "'sentiment_score'")
  ++ [Re.Star Re.not_brace; Re.Lit "}"].

Definition _clean_response_text (t : text) : text :=
  let t := Re.sub fence_json t in
  let t := Re.sub fence_end t in
  Str.strip t.

Definition _is_truncated_json (t : text) : bool :=
  let t := Str.strip t in
  Str.startswith t (str "{") && negb (Str.endswith t (str "}"))
  && Str.contains t (txt "'sentiment_score'").

Definition _fix_truncated_json (t : text) : text :=
  let t := Str.strip t in
  let t :=
    if Str.endswith t (txt "':") then t ++ str " 0.95"
    else if Str.endswith t (str ": ") then t ++ str "0.95"
    else if Str.endswith t (str ",") then removelast t
    else t in
  if negb (Str.endswith t (str "}")) then t ++ str "}" else t.

Definition _create_sentiment_response (data : json) : result SentimentResponse :=
  present <- Py.contains (str "sentiment_score") data ;;
  if negb present then Raise (GeminiAPIError (str "Missing sentiment_score in response"))
  else
    raw <- Py.getitem data (str "sentiment_score") ;;
    score <- Py.int raw ;;
    if (score <? 1) || (score >? 5)
    then Raise (GeminiAPIError (str "Invalid sentiment_score: " ++ Str.of_Z score))
    else
      default_label <- score_to_label score ;;
      label <- Py.get data (str "sentiment_label") default_label ;;
      conf <- Py.get data (str "confidence") (JFloat (dec 95 (-2))) ;;
      conf <- Py.float conf ;;
      expl <- Py.get data (str "explanation") (JString (str "Sentiment analysis completed")) ;;
      lang <- Py.get data (str "language_detected") (JString (str "en")) ;;
      Ok {| sentiment_score := score;
            sentiment_label := label;
            confidence := conf;
            explanation := expl;
            language_detected := lang;
            processing_time := dec 0 0 |}.

Definition any_in (words : list string) (t : text) : bool :=
  existsb (fun w => Str.contains t (str w)) words.

Definition _infer_sentiment_from_text (t expected_language : text)
  : result SentimentResponse :=
  let text_lower := Str.lower t in
  let score :=
    if any_in ["very positive"; "excellent"; "amazing"; "fantastic"]%string text_lower then 5
    else if any_in ["positive"; "good"; "great"; "happy"]%string text_lower then 4
    else if any_in ["neutral"; "factual"; "informational"]%string text_lower then 3
    else if any_in ["negative"; "bad"; "poor"; "disappointing"]%string text_lower then 2
    else if any_in ["very negative"; "terrible"; "awful"; "hate"]%string text_lower then 1
    else 3 in
  label <- score_to_label score ;;
  Ok {| sentiment_score := score;
        sentiment_label := label;
        confidence := dec 7 (-1);
        explanation := JString (str "Sentiment inferred from response text");
        language_detected :=
          JString (if negb (Str.eqb expected_language (str "auto"))
                   then expected_language else str "en");
        processing_time := dec 0 0 |}.

Definition _parse_api_response (response_text expected_language : text)
  : result SentimentResponse :=
  let cleaned_text := _clean_response_text response_text in
  match Json.loads cleaned_text with
  | Some response_data => _create_sentiment_response response_data
  | None =>
      match
        match Re.search score_object cleaned_text with
        | Some json_match => Json.loads json_match
        | None => None
        end
      with
      | Some response_data => _create_sentiment_response response_data
      | None =>
          match
            if _is_truncated_json cleaned_text
            then Json.loads (_fix_truncated_json cleaned_text)
            else None
          with
          | Some response_data => _create_sentiment_response response_data
          | None => _infer_sentiment_from_text cleaned_text expected_language
          end
      end
  end.

End GeminiClient.

Import GeminiClient.

(** *** The transport loop

    What [_make_api_request] does to the outside is one [Post] per call of
    [session.post] and one [Sleep] per call of [time.sleep]; the log of the
    world keeps them in order.  The payload is the same at every attempt, so
    the outcome of a call is given by its rank: [server k] is what the
    [k]-th call of [session.post] returns or raises. *)

Record Response : Type := {
  status_code : Z;
  headers : list (text * text);
  body : text
}.

Inductive event : Type :=
| Post
| Sleep (seconds : Z).

Record world : Type := {
  posts : nat;
  log : list event
}.

Definition start : world := {| posts := 0; log := [] |}.

(** A computation on the world that may raise; the world it leaves is kept
    in both cases. *)
Definition io (A : Type) : Type := world -> result A * world.

Definition ret {A} (a : A) : io A := fun w => (Ok a, w).

Definition raise {A} (e : exn) : io A := fun w => (Raise e, w).

Definition lift {A} (r : result A) : io A := fun w => (r, w).

Definition bind_io {A B} (c : io A) (k : A -> io B) : io B :=
  fun w =>
    match c w with
    | (Ok a, w') => k a w'
    | (Raise e, w') => (Raise e, w')
    end.

Notation "x <~ c ;; k" := (bind_io c (fun x => k))
  (at level 61, c at next level, right associativity).

(** [try: c except ...: h] *)
Definition try_except {A} (c : io A) (h : exn -> io A) : io A :=
  fun w =>
    match c w with
    | (Ok a, w') => (Ok a, w')
    | (Raise e, w') => h e w'
    end.

(** [time.sleep(n)] of an [int].  The length is first turned into a count
    of nanoseconds on 64 bits, which fails with an [OverflowError] beyond
    9223372036 seconds, on either side; then a negative length is refused
    with a [ValueError]. *)
Definition sleep (n : Z) : io unit :=
  fun w =>
    if (n <? -9223372036) || (9223372036 <? n) then (Raise OverflowError, w)
    else if n <? 0 then (Raise ValueError, w)
    else (Ok tt, {| posts := posts w; log := log w ++ [Sleep n] |}).

Definition session_post (server : nat -> result Response) : io Response :=
  fun w => (server (posts w), {| posts := S (posts w); log := log w ++ [Post] |}).

(** [response.headers.get(name, default)]: the names of headers are compared
    without case. *)
Fixpoint header_get (hs : list (text * text)) (name default : text) : text :=
  match hs with
  | [] => default
  | (k, v) :: hs' =>
      if Str.eqb (Str.lower k) (Str.lower name) then v else header_get hs' name default
  end.

(** [response.json()] *)
Definition response_json (r : Response) : result json :=
  match Json.loads (body r) with
  | Some v => Ok v
  | None => Raise JSONDecodeError
  end.

Definition json_eqb_text (x : json) (s : text) : bool :=
  match x with
  | JString t => Str.eqb t s
  | _ => false
  end.

Inductive step : Type :=
| Continue
| Return (response_text : json).

Module Transport.

(** The checks of the envelope of a 200 response, from the parsed body to
    the text of its first part. *)
Definition extract_text (response_data : json) : result json :=
  has_candidates <- Py.contains (str "candidates") response_data ;;
  candidates <-
    (if has_candidates then Py.getitem response_data (str "candidates") else Ok JNull) ;;
  if negb has_candidates || negb (Py.truthy candidates)
  then Raise (GeminiAPIError (str "No candidates in response"))
  else
    candidate <- Py.first candidates ;;
    has_content <- Py.contains (str "content") candidate ;;
    if negb has_content
    then Raise (GeminiAPIError (str "No content in response candidate"))
    else
      content <- Py.getitem candidate (str "content") ;;
      has_parts <- Py.contains (str "parts") content ;;
      if negb has_parts then
        finish <- Py.get candidate (str "finishReason") JNull ;;
        if json_eqb_text finish (str "MAX_TOKENS")
        then Raise (GeminiAPIError
               (str "Response truncated due to token limit - increase maxOutputTokens"))
        else Raise (GeminiAPIError (str "No parts in response content"))
      else
        content <- Py.getitem candidate (str "content") ;;
        parts <- Py.getitem content (str "parts") ;;
        if negb (Py.truthy parts)
        then Raise (GeminiAPIError (str "Empty parts array in response"))
        else
          content <- Py.getitem candidate (str "content") ;;
          parts <- Py.getitem content (str "parts") ;;
          part <- Py.first parts ;;
          response_text <- Py.get part (str "text") (JString []) ;;
          if negb (Py.truthy response_text)
          then Raise (GeminiAPIError (str "Empty response text"))
          else Ok response_text.

(** The body of the [try] of one attempt. *)
Definition attempt_try (server : nat -> result Response) (max_retries attempt : Z)
  : io step :=
  _ <~ (if attempt >? 0 then sleep (Z.min (2 ^ attempt) 60) else ret tt) ;;
  response <~ session_post server ;;
  if status_code response =? 429 then
    retry_after <~ lift (Py.int_of_text (header_get (headers response) (str "Retry-After") (str "60"))) ;;
    if attempt <? max_retries - 1 then
      _ <~ sleep retry_after ;;
      ret Continue
    else raise (GeminiAPIError (str "Rate limit exceeded"))
  else if negb (status_code response =? 200) then
    raise (GeminiAPIError
             (str "API returned status " ++ Str.of_Z (status_code response) ++ str ": "
              ++ body response))
  else
    response_data <~ lift (response_json response) ;;
    response_text <~ lift (extract_text response_data) ;;
    ret (Return response_text).

(** The two [except] clauses of one attempt; any other exception goes on. *)
Definition attempt_except (max_retries attempt : Z) (e : exn) : io step :=
  match e with
  | Timeout msg | ConnectionError msg | GeminiAPIError msg =>
      if attempt =? max_retries - 1
      then raise (GeminiAPIError
                    (str "API request failed after " ++ Str.of_Z max_retries
                     ++ str " attempts: " ++ msg))
      else ret Continue
  | other => raise other
  end.

Definition attempt_body (server : nat -> result Response) (max_retries attempt : Z)
  : io step :=
  try_except (attempt_try server max_retries attempt) (attempt_except max_retries attempt).

(** [range(n)] *)
Definition range (n : Z) : list Z := map Z.of_nat (seq 0 (Z.to_nat n)).

Fixpoint for_attempts (server : nat -> result Response) (max_retries : Z)
  (attempts : list Z) : io json :=
  match attempts with
  | [] => raise (GeminiAPIError (str "Max retries exceeded"))
  | attempt :: rest =>
      fun w =>
        match attempt_body server max_retries attempt w with
        | (Ok (Return response_text), w') => (Ok response_text, w')
        | (Ok Continue, w') => for_attempts server max_retries rest w'
        | (Raise e, w') => (Raise e, w')
        end
  end.

Definition _make_api_request (server : nat -> result Response) (max_retries : Z)
  : io json :=
  for_attempts server max_retries (range max_retries).

End Transport.

Import Transport.

(** ** Sample servers and envelopes *)

Definition ok_body : text :=
  txt "{'candidates': [{'content': {'parts': [{'text': 'fine'}]}, 'finishReason': 'STOP'}]}".

Definition truncated_body : text :=
  txt "{'candidates': [{'content': {'role': 'model'}, 'finishReason': 'MAX_TOKENS'}]}".

Definition reply (status : Z) (hs : list (text * text)) (b : text) : result Response :=
  Ok {| status_code := status; headers := hs; body := b |}.

Definition always_timeout : nat -> result Response :=
  fun _ => Raise (Timeout (str "Read timed out."))%string.

Definition limited_then_ok : nat -> result Response :=
  fun k =>
    match k with
    | O => reply 429 [(str "Retry-After", str "5")] []
    | _ => reply 200 [] ok_body
    end.

Definition truncated_then_ok : nat -> result Response :=
  fun k =>
    match k with
    | O => reply 200 [] truncated_body
    | _ => reply 200 [] ok_body
    end.

(** The world after the pause and the call of one attempt. *)
Definition after_post (attempt : Z) (w : world) : world :=
  let w1 :=
    if attempt >? 0
    then {| posts := posts w; log := log w ++ [Sleep (Z.min (2 ^ attempt) 60)] |}
    else w in
  {| posts := S (posts w1); log := log w1 ++ [Post] |}.

(** What one attempt does once its response is there. *)
Definition on_response (max_retries attempt : Z) (response : Response) : io step :=
  if status_code response =? 429 then
    retry_after <~ lift (Py.int_of_text (header_get (headers response) (str "Retry-After") (str "60"))) ;;
    if attempt <? max_retries - 1 then
      _ <~ sleep retry_after ;;
      ret Continue
    else raise (GeminiAPIError (str "Rate limit exceeded"))
  else if negb (status_code response =? 200) then
    raise (GeminiAPIError
             (str "API returned status " ++ Str.of_Z (status_code response) ++ str ": "
              ++ body response))
  else
    response_data <~ lift (response_json response) ;;
    response_text <~ lift (extract_text response_data) ;;
    ret (Return response_text).

(** The lengths of the pauses of a log, in order. *)
Definition sleeps (l : list event) : list Z :=
  flat_map (fun e => match e with Sleep n => [n] | Post => [] end) l.

(** The messages of the envelope checks. *)
Definition truncated_msg : text :=
  str "Response truncated due to token limit - increase maxOutputTokens".

Definition malformed_msgs : list text :=
  [str "No candidates in response"; str "No content in response candidate";
   str "No parts in response content"; str "Empty parts array in response";
   str "Empty response text"].

(** The message of the error that ends the loop at the last attempt. *)
Definition failed_after (max_retries : Z) (msg : text) : text :=
  str "API request failed after " ++ Str.of_Z max_retries ++ str " attempts: " ++ msg.

(** *** Vocabulary of the statements about the decoder *)

(** The value of the first stage of [_parse_api_response] that parses the
    cleaned text: the whole text, else the object that the search finds,
    else the repaired text when the text looks truncated.  [None] when no
    stage parses. *)
Definition first_parse (cleaned_text : text) : option json :=
  match Json.loads cleaned_text with
  | Some response_data => Some response_data
  | None =>
      match
        match Re.search score_object cleaned_text with
        | Some json_match => Json.loads json_match
        | None => None
        end
      with
      | Some response_data => Some response_data
      | None =>
          if _is_truncated_json cleaned_text
          then Json.loads (_fix_truncated_json cleaned_text)
          else None
      end
  end.

Definition missing_score : exn :=
  GeminiAPIError (str "Missing sentiment_score in response").

Definition invalid_score (n : Z) : exn :=
  GeminiAPIError (str "Invalid sentiment_score: " ++ Str.of_Z n).

(** [0.0 <= c <= 1.0] *)
Definition in_unit (c : pyfloat) : bool := fle (dec 0 0) c && fle c (dec 1 0).

(** A reply in a markdown fence: the opening fence, white space, the text,
    white space, the closing fence, white space. *)
Definition fenced (wa wb wc t : text) : text :=
  str "```json" ++ wa ++ t ++ wb ++ str "```" ++ wc.

Definition newline : text := ["010"%char].

(** The reply [{"sentiment_score": s}]. *)
Definition score_only (s : Z) : text :=
  txt "{'sentiment_score': " ++ Str.of_Z s ++ str "}".

(** The reply cut after the key of the confidence. *)
Definition cut_reply : text := txt "{'sentiment_score': 4, 'confidence':".

(** The keywords of the three groups that the fallback tests before the
    group of [negative]. *)
Definition earlier_keywords : list string :=
  ["very positive"; "excellent"; "amazing"; "fantastic";
   "positive"; "good"; "great"; "happy";
   "neutral"; "factual"; "informational"]%string.

(** An atom that cannot read the character [c]. *)
Definition avoids (c : ascii) (a : Re.atom) : Prop :=
  match a with
  | Re.Lit x => x <> c
  | Re.Star cls => cls c = false
  | Re.Eos => False
  end.

(** The characters that can end a JSON value: a digit, the closing quote,
    brace or bracket, and the last letters of [null], [true], [false],
    [NaN] and [Infinity]. *)
Definition ender (c : ascii) : bool :=
  Json.is_digit c || existsb (Ascii.eqb c) (dquote :: str "}]leNy").

Definition all_space (w : text) : bool := forallb Str.isspace w.

(** The closing fence before its anchor. *)
Definition fence_end_body : list Re.atom := Re.lits "```" ++ [Re.Star Str.isspace].

(** [s] is [rest] after a text whose last character can end a JSON value. *)
Definition ends (s rest : text) : Prop :=
  exists y c, s = y ++ c :: rest /\ ender c = true.

(** *** Vocabulary of the statements about the loop *)

(** The number of calls in a log. *)
Definition count_posts (l : list event) : nat :=
  List.length (filter (fun e => match e with Post => true | Sleep _ => false end) l).

(** The log of [n] calls with nothing but the pauses of the backoff between
    them: a call, then before each later call a pause of [min(2^a, 60)]
    seconds, [a] being the rank of the attempt. *)
Definition backoff_log (n : nat) : list event :=
  match n with
  | O => []
  | S m => Post :: flat_map (fun a => [Sleep (Z.min (2 ^ Z.of_nat a) 60); Post]) (seq 1 m)
  end.

(** The message of the error on a status that is neither 200 nor 429. *)
Definition status_msg (r : Response) : text :=
  str "API returned status " ++ Str.of_Z (status_code r) ++ str ": " ++ body r.

(** The outcomes of a call that the loop takes as a reason to try again,
    with the message that the error of the last attempt carries: a timeout
    or a connection error, a status other than 200 and 429, and a 200 whose
    envelope check raises the error of the client. *)
Definition retryable (o : result Response) (msg : text) : Prop :=
  o = Raise (Timeout msg)
  \/ o = Raise (ConnectionError msg)
  \/ (exists r, o = Ok r /\ status_code r <> 200 /\ status_code r <> 429
                /\ msg = status_msg r)
  \/ (exists r d, o = Ok r /\ status_code r = 200 /\ response_json r = Ok d
                  /\ extract_text d = Raise (GeminiAPIError msg)).

(** The world after the attempts of ranks [a] to [a + k - 1], when none of
    them pauses after its call. *)
Definition after_attempts (a k : nat) (w : world) : world :=
  fold_left (fun w i => after_post (Z.of_nat i) w) (seq a k) w.

Definition always_500 : nat -> result Response :=
  fun _ => reply 500 [] (str "overloaded").

Definition fails_then_ok : nat -> result Response :=
  fun k =>
    match k with
    | O => Raise (ConnectionError (str "Connection refused"))
    | S O => reply 503 [] (str "busy")
    | _ => reply 200 [] ok_body
    end.

(** The outcomes of a call that end the loop at once with the exception
    [e]: a 200 whose body is not JSON, and a 429 whose [Retry-After] is not
    an integer. *)
Definition unhandled (o : result Response) (e : exn) : Prop :=
  exists r, o = Ok r
    /\ ((status_code r = 200 /\ response_json r = Raise e)
        \/ (status_code r = 429
            /\ Py.int_of_text (header_get (headers r) (str "Retry-After") (str "60"))
               = Raise e)).

Definition timeout_then_html : nat -> result Response :=
  fun k =>
    match k with
    | O => Raise (Timeout (str "Read timed out."))
    | _ => reply 200 [] (str "<html>Bad gateway</html>")
    end.


(** [time.sleep(n)] returns, the pause made. *)
Definition sleeps_through (n : Z) : Prop :=
  forall w, sleep n w = (Ok tt, {| posts := posts w; log := log w ++ [Sleep n] |}).




(** The key of the score between its quotes, as the search and the check of
    truncation look for it. *)
Definition score_key : text := txt "'sentiment_score'".

(** *** The prompt and the analysis *)

Record SentimentAnalysisRequest : Type := {
  request_text : text;
  language : text;
  context : option text;
  channel_type : text
}.

(** The lines of a literal, joined by line feeds. *)
Fixpoint join_lines (l : list text) : text :=
  match l with
  | [] => []
  | [x] => x
  | x :: rest => x ++ newline ++ join_lines rest
  end.

Definition instructions_ja : text :=
  join_lines
    [[];
     str "Consider Japanese cultural context:";
     str "- Indirect communication styles (honne vs tatemae)";
     str "- Honorific language and politeness levels";
     str "- Context-dependent meaning";
     str "- Emotional restraint in expression";
     str "            "].

Definition instructions_ko : text :=
  join_lines
    [[];
     str "Consider Korean cultural context:";
     str "- Hierarchical communication patterns";
     str "- Honorific language systems";
     str "- Indirect expression of emotions";
     str "            "].

Definition instructions_zh : text :=
  join_lines
    [[];
     str "Consider Chinese cultural context:";
     str "- Concept of face (mianzi) in communication";
     str "- Indirect communication styles";
     str "- Contextual meaning interpretation";
     str "            "].

Definition instructions_en : text :=
  join_lines
    [[];
     str "Consider English communication patterns:";
     str "- Direct communication style";
     str "- Sarcasm and irony detection";
     str "- Professional vs casual contexts";
     str "            "].

(** The dict [language_instructions] of [_create_sentiment_prompt]. *)
Definition language_instructions : list (text * text) :=
  [(str "ja", instructions_ja); (str "ko", instructions_ko);
   (str "zh", instructions_zh); (str "en", instructions_en)].

(** [d.get(k, default)] of a dict of texts. *)
Fixpoint dict_get (d : list (text * text)) (k default : text) : text :=
  match d with
  | [] => default
  | (k', v) :: d' => if Str.eqb k' k then v else dict_get d' k default
  end.

Definition prompt_intro : text :=
  join_lines
    [str "You are a sentiment analysis expert. Analyze the sentiment of the following text and respond with ONLY a valid JSON object.";
     [];
     txt "Text: '"].

Definition prompt_language : text :=
  join_lines
    [txt "'";
     str "Language: "].

Definition prompt_context : text :=
  join_lines
    [[];
     str "Context: "].

Definition prompt_gap : text :=
  join_lines
    [[];
     [];
     []].

Definition prompt_scale : text :=
  join_lines
    [[];
     [];
     str "Sentiment Scale:";
     str "1 = Very Negative (anger, hostility, severe criticism)";
     str "2 = Negative (disappointment, mild criticism, concern)  ";
     str "3 = Neutral (factual, informational, balanced)";
     str "4 = Positive (satisfaction, approval, mild enthusiasm)";
     str "5 = Very Positive (excitement, joy, strong approval, celebration)";
     [];
     str "Respond with ONLY this JSON format (no markdown, no explanation outside JSON):";
     str "{";
     txt "    'sentiment_score': [integer 1-5],";
     txt "    'sentiment_label': '[Very Negative|Negative|Neutral|Positive|Very Positive]',";
     txt "    'confidence': [float 0.0-1.0],";
     txt "    'language_detected': '[2-letter language code]',";
     txt "    'explanation': '[brief explanation in English]'";
     str "}"].

Module Analysis.

(** [request.context or 'General communication'] *)
Definition context_or_default (c : option text) : text :=
  match c with
  | Some (x :: c') => x :: c'
  | _ => str "General communication"
  end.

Definition cultural_context (lang : text) : text :=
  let detected_lang := if negb (Str.eqb lang (str "auto")) then lang else str "en" in
  dict_get language_instructions detected_lang instructions_en.

Definition _create_sentiment_prompt (request : SentimentAnalysisRequest) : text :=
  prompt_intro ++ request_text request
  ++ prompt_language ++ language request
  ++ prompt_context ++ context_or_default (context request)
  ++ prompt_gap ++ cultural_context (language request)
  ++ prompt_scale.

Definition with_processing_time (r : SentimentResponse) (t : pyfloat) : SentimentResponse :=
  {| sentiment_score := sentiment_score r;
     sentiment_label := sentiment_label r;
     confidence := confidence r;
     explanation := explanation r;
     language_detected := language_detected r;
     processing_time := t |}.

(** [analyze_sentiment]: [endpoint prompt k] is the outcome of the [k]-th
    call that carries [prompt]; the clock is outside the model, [elapsed]
    is the time that the two calls of [time.time] measure.  The text of the
    response goes to [re.sub], which raises a [TypeError] on anything but a
    [str]. The [except] clause logs and raises the exception again. *)
Definition analyze_sentiment (endpoint : text -> nat -> result Response)
  (max_retries : Z) (elapsed : pyfloat) (request : SentimentAnalysisRequest)
  : io SentimentResponse :=
  let prompt := _create_sentiment_prompt request in
  response_data <~ _make_api_request (endpoint prompt) max_retries ;;
  sentiment_response <~
    lift (match response_data with
          | JString response_text => _parse_api_response response_text (language request)
          | _ => Raise TypeError
          end) ;;
  ret (with_processing_time sentiment_response elapsed).

End Analysis.

Import Analysis.

Definition request_auto : SentimentAnalysisRequest :=
  {| request_text := txt "I love it, she said: 'great'";
     language := str "auto";
     context := None;
     channel_type := str "web" |}.

(** An endpoint that answers every prompt with a fenced reply after one
    timeout. *)
Definition fenced_body : text :=
  txt "{'candidates': [{'content': {'parts': [{'text': '```json\n{\'sentiment_score\': 5}\n```'}]}}]}".

Definition slow_endpoint : text -> nat -> result Response :=
  fun _ k =>
    match k with
    | O => Raise (Timeout (str "Read timed out."))
    | _ => reply 200 [] fenced_body
    end.

(** ** The configuration ([src/config.py])

    The environment is what [os.getenv] reads once [load_dotenv] has run:
    a name has a value or none.  The set-up of the logging has no part in
    the values and is left out. *)

Module Config.

Definition environ : Type := text -> option text.

(** [os.getenv(name, default)] *)
Definition getenv (env : environ) (name : string) (default : string) : text :=
  match env (str name) with
  | Some v => v
  | None => str default
  end.

(** What the loading of a section raises: the error of the configuration,
    or the exception of a conversion. *)
Inductive failure : Type :=
| ConfigurationError (msg : text)
| Uncaught (e : exn).

Inductive loaded (A : Type) : Type :=
| Loaded (a : A)
| Failed (f : failure).
Arguments Loaded {A} a.
Arguments Failed {A} f.

Definition and_then {A B} (l : loaded A) (k : A -> loaded B) : loaded B :=
  match l with
  | Loaded a => k a
  | Failed f => Failed f
  end.

(** [int(os.getenv(name, default))] *)
Definition getenv_int (env : environ) (name default : string) : loaded Z :=
  match Py.int_of_text (getenv env name default) with
  | Ok z => Loaded z
  | Raise e => Failed (Uncaught e)
  end.

(** [os.getenv(name, default).lower() == 'true'] *)
Definition getenv_flag (env : environ) (name default : string) : bool :=
  Str.eqb (Str.lower (getenv env name default)) (str "true").

(** [not s] of an optional text: none, or empty. *)
Definition blank (v : option text) : bool :=
  match v with
  | Some (_ :: _) => false
  | _ => true
  end.

Record SlackConfig : Type := {
  bot_token : text;
  signing_secret : text;
  app_token : option text
}.

Record GeminiConfig : Type := {
  api_key : text;
  model_name : text;
  timeout : Z;
  max_retries : Z
}.

Record ServerConfig : Type := {
  host : text;
  port : Z;
  debug : bool
}.

Record DatabaseConfig : Type := {
  url : option text;
  pool_size : Z;
  max_overflow : Z
}.

Record SecurityConfig : Type := {
  secret_key : text;
  encryption_key : option text
}.

Record FeatureConfig : Type := {
  enable_japanese_support : bool;
  enable_data_storage : bool;
  enable_async_processing : bool;
  default_retention_days : Z;
  max_retention_days : Z
}.

Record t : Type := {
  slack : option SlackConfig;
  gemini : GeminiConfig;
  server : ServerConfig;
  database : DatabaseConfig;
  security : SecurityConfig;
  features : FeatureConfig
}.

Definition text_of (v : option text) : text :=
  match v with
  | Some s => s
  | None => []
  end.

Definition _load_slack_config (env : environ) : loaded (option SlackConfig) :=
  let bot_token := env (str "SLACK_BOT_TOKEN") in
  let signing_secret := env (str "SLACK_SIGNING_SECRET") in
  if blank bot_token && blank signing_secret then Loaded None
  else if blank bot_token || blank signing_secret then
    Failed (ConfigurationError
              (str "Both SLACK_BOT_TOKEN and SLACK_SIGNING_SECRET are required for Slack integration"))
  else
    Loaded (Some {| bot_token := text_of bot_token;
                    signing_secret := text_of signing_secret;
                    app_token := env (str "SLACK_APP_TOKEN") |}).

Definition _load_gemini_config (env : environ) : loaded GeminiConfig :=
  let key := env (str "GEMINI_API_KEY") in
  if blank key then
    Failed (ConfigurationError (str "GEMINI_API_KEY environment variable is required"))
  else
    let model := getenv env "GEMINI_MODEL" "gemini-1.5-flash-latest" in
    and_then (getenv_int env "GEMINI_TIMEOUT" "30") (fun tmo =>
    and_then (getenv_int env "GEMINI_MAX_RETRIES" "3") (fun retries =>
    Loaded {| api_key := text_of key;
              model_name := model;
              timeout := tmo;
              max_retries := retries |})).

Definition _load_server_config (env : environ) : loaded ServerConfig :=
  let h := getenv env "HOST" "0.0.0.0" in
  and_then (getenv_int env "PORT" "3000") (fun p =>
  Loaded {| host := h; port := p; debug := getenv_flag env "FLASK_DEBUG" "false" |}).

Definition _load_database_config (env : environ) : loaded DatabaseConfig :=
  and_then (getenv_int env "DB_POOL_SIZE" "10") (fun size =>
  and_then (getenv_int env "DB_MAX_OVERFLOW" "20") (fun overflow =>
  Loaded {| url := env (str "DATABASE_URL"); pool_size := size; max_overflow := overflow |})).

(** [token] is what [secrets.token_hex(32)] gives when there is no
    [SECRET_KEY]. *)
Definition _load_security_config (env : environ) (token : text) : loaded SecurityConfig :=
  let key := env (str "SECRET_KEY") in
  Loaded {| secret_key := if blank key then token else text_of key;
            encryption_key := env (str "ENCRYPTION_KEY") |}.

Definition _load_feature_config (env : environ) : loaded FeatureConfig :=
  let japanese := getenv_flag env "ENABLE_JAPANESE_SUPPORT" "true" in
  let storage := getenv_flag env "ENABLE_DATA_STORAGE" "false" in
  let async := getenv_flag env "ENABLE_ASYNC_PROCESSING" "false" in
  and_then (getenv_int env "DEFAULT_RETENTION_DAYS" "30") (fun days =>
  and_then (getenv_int env "MAX_RETENTION_DAYS" "365") (fun most =>
  Loaded {| enable_japanese_support := japanese;
            enable_data_storage := storage;
            enable_async_processing := async;
            default_retention_days := days;
            max_retention_days := most |})).

(** [Config()]: the sections in the order of [__init__]. *)
Definition init (env : environ) (token : text) : loaded t :=
  and_then (_load_slack_config env) (fun s =>
  and_then (_load_gemini_config env) (fun g =>
  and_then (_load_server_config env) (fun v =>
  and_then (_load_database_config env) (fun d =>
  and_then (_load_security_config env token) (fun k =>
  and_then (_load_feature_config env) (fun f =>
  Loaded {| slack := s; gemini := g; server := v; database := d;
            security := k; features := f |})))))).

Record validation : Type := {
  valid : bool;
  errors : list text;
  warnings : list text
}.

Definition when (b : bool) (msg : string) : list text := if b then [str msg] else [].

Definition validate (c : t) : validation :=
  let errors :=
    when (Str.eqb (api_key (gemini c)) []) "GEMINI_API_KEY is required"
    ++ when ((port (server c) <? 1) || (port (server c) >? 65535))
         "PORT must be between 1 and 65535"
    ++ when (default_retention_days (features c) <? 1)
         "DEFAULT_RETENTION_DAYS must be at least 1"
    ++ when (default_retention_days (features c) >? max_retention_days (features c))
         "DEFAULT_RETENTION_DAYS cannot exceed MAX_RETENTION_DAYS" in
  let warnings :=
    when ((timeout (gemini c) <? 1) || (timeout (gemini c) >? 300))
      "GEMINI_TIMEOUT should be between 1 and 300 seconds"
    ++ when ((max_retries (gemini c) <? 1) || (max_retries (gemini c) >? 10))
         "GEMINI_MAX_RETRIES should be between 1 and 10" in
  {| valid := Nat.eqb (List.length errors) 0; errors := errors; warnings := warnings |}.

(** An environment given by its list of variables. *)
Fixpoint env_of (vars : list (string * string)) : environ :=
  fun name =>
    match vars with
    | [] => None
    | (k, v) :: rest => if Str.eqb (str k) name then Some (str v) else env_of rest name
    end.

End Config.

Definition sample_env : Config.environ :=
  Config.env_of [("GEMINI_API_KEY", "k-123"); ("GEMINI_MAX_RETRIES", "0")]%string.

Definition with_retries (c : Config.t) (n : Z) : Config.t :=
  {| Config.slack := Config.slack c;
     Config.gemini :=
       {| Config.api_key := Config.api_key (Config.gemini c);
          Config.model_name := Config.model_name (Config.gemini c);
          Config.timeout := Config.timeout (Config.gemini c);
          Config.max_retries := n |};
     Config.server := Config.server c;
     Config.database := Config.database c;
     Config.security := Config.security c;
     Config.features := Config.features c |}.

(** ** The two endpoints of the service ([src/standalone_app.py])

    A handler gets what Flask reads of the request: whether its content
    type is JSON, and what [request.get_json()] returns or raises.  It
    answers with a JSON body and a status.  The analysis of the client is a
    parameter [analyze text language context]; the language and the context
    are the values of the request as they are ([None] is [JNull]).  The
    clock is outside the model: the times and the time stamp that a handler
    writes are parameters.  [describe e] is [str(e)]. *)

Module App.

Record http_request : Type := {
  is_json : bool;
  get_json : result json
}.

Definition http_response : Type := (json * Z)%type.

Definition analysis : Type := text -> json -> json -> io SentimentResponse.

Definition error_body (msg : string) : json := JObject [(str "error", JString (str msg))].

Definition failure_body (msg : string) (details : text) : json :=
  JObject [(str "error", JString (str msg)); (str "details", JString details)].

(** [x.strip()]: an [AttributeError] on anything but a [str]. *)
Definition strip_of (x : json) : result text :=
  match x with
  | JString s => Ok (Str.strip s)
  | _ => Raise AttributeError
  end.

(** [len(s)], the number of characters of [s]: a character outside ASCII
    is the run of the bytes of its UTF-8 form, of which all but the first
    are from 128 to 191. *)
Definition continuation (c : ascii) : bool :=
  (128 <=? Str.code c) && (Str.code c <=? 191).

Definition len (s : text) : nat :=
  List.length (filter (fun c => negb (continuation c)) s).

Definition result_fields (response : SentimentResponse) : list (text * json) :=
  [(str "sentiment_score", JInt (sentiment_score response));
   (str "sentiment_label", sentiment_label response);
   (str "confidence", JFloat (confidence response));
   (str "explanation", explanation response);
   (str "language_detected", language_detected response)].

(** The [try] of [analyze_sentiment], the handler of [/api/analyze]. *)
Definition analyze_try (analyze : analysis) (time_ms : json) (stamp : text)
  (request : http_request) : io http_response :=
  if negb (is_json request)
  then ret (error_body "Content-Type must be application/json", 400)
  else
    data <~ lift (get_json request) ;;
    if negb (Py.truthy data) then ret (error_body "Request body is required", 400)
    else
      has_text <~ lift (Py.contains (str "text") data) ;;
      if negb has_text then ret (error_body "text field is required", 400)
      else
        raw <~ lift (Py.getitem data (str "text")) ;;
        t <~ lift (strip_of raw) ;;
        if Str.eqb t [] then ret (error_body "text cannot be empty", 400)
        else if 10000 <? Z.of_nat (len t)
        then ret (error_body "text cannot exceed 10,000 characters", 400)
        else
          lang <~ lift (Py.get data (str "language") (JString (str "auto"))) ;;
          ctx <~ lift (Py.get data (str "context") JNull) ;;
          response <~ analyze t lang ctx ;;
          ret (JObject (result_fields response
                        ++ [(str "processing_time_ms", time_ms);
                            (str "timestamp", JString stamp)]), 200).

(** The two [except] clauses of the handler. *)
Definition analyze_except (describe : exn -> text) (e : exn) : http_response :=
  match e with
  | GeminiAPIError msg => (failure_body "Sentiment analysis failed" msg, 500)
  | other => (failure_body "Internal server error" (describe other), 500)
  end.

Definition analyze_sentiment (analyze : analysis) (describe : exn -> text)
  (time_ms : json) (stamp : text) (request : http_request)
  : world -> http_response * world :=
  fun w =>
    match analyze_try analyze time_ms stamp request w with
    | (Ok response, w') => (response, w')
    | (Raise e, w') => (analyze_except describe e, w')
    end.

(** One item of a batch: its entry in the results, and whether it counts
    as successful. [ms] is [round(processing_time * 1000, 1)]. *)
Definition entry : Type := list (text * json).

Definition index_id (i : nat) : json := JString (Str.of_Z (Z.of_nat i)).

Definition item_id (text_data : json) (i : nat) : json :=
  match text_data with
  | JObject d =>
      match Json.lookup d (str "id") with
      | Some v => v
      | None => index_id i
      end
  | _ => index_id i
  end.

Definition error_entry (id : json) (msg : text) : entry :=
  [(str "id", id); (str "error", JString msg)].

Definition item_try (analyze : analysis) (ms : pyfloat -> json) (i : nat) (text_data : json)
  : io (entry * bool) :=
  has_text <~ lift (Py.contains (str "text") text_data) ;;
  if negb has_text
  then ret (error_entry (item_id text_data i) (str "text field is required"), false)
  else
    raw <~ lift (Py.getitem text_data (str "text")) ;;
    t <~ lift (strip_of raw) ;;
    if Str.eqb t []
    then ret (error_entry (item_id text_data i) (str "text cannot be empty"), false)
    else if 10000 <? Z.of_nat (len t)
    then ret (error_entry (item_id text_data i)
                (str "text cannot exceed 10,000 characters"), false)
    else
      lang <~ lift (Py.get text_data (str "language") (JString (str "auto"))) ;;
      ctx <~ lift (Py.get text_data (str "context") JNull) ;;
      response <~ analyze t lang ctx ;;
      ret ((str "id", item_id text_data i) :: result_fields response
           ++ [(str "processing_time_ms", ms (processing_time response))], true).

Definition item_except (describe : exn -> text) (i : nat) (text_data : json) (e : exn)
  : entry * bool :=
  match e with
  | GeminiAPIError msg =>
      (error_entry (item_id text_data i) (str "Analysis failed: " ++ msg), false)
  | other =>
      (error_entry (item_id text_data i) (str "Unexpected error: " ++ describe other), false)
  end.

Definition batch_item (analyze : analysis) (describe : exn -> text) (ms : pyfloat -> json)
  (i : nat) (text_item : json) : world -> (entry * bool) * world :=
  fun w =>
    match text_item with
    | JString s =>
        let text_data := JObject [(str "text", JString s); (str "id", index_id i)] in
        match item_try analyze ms i text_data w with
        | (Ok r, w') => (r, w')
        | (Raise e, w') => (item_except describe i text_data e, w')
        end
    | JObject d =>
        match item_try analyze ms i (JObject d) w with
        | (Ok r, w') => (r, w')
        | (Raise e, w') => (item_except describe i (JObject d) e, w')
        end
    | _ => ((error_entry (index_id i) (str "Invalid text item format"), false), w)
    end.

Record tally : Type := {
  results : list entry;
  successful : nat;
  failed : nat
}.

(** The loop of the batch, from the item of rank [i]. *)
Fixpoint batch_loop (analyze : analysis) (describe : exn -> text) (ms : pyfloat -> json)
  (i : nat) (texts : list json) (acc : tally) (w : world) : tally * world :=
  match texts with
  | [] => (acc, w)
  | text_item :: rest =>
      match batch_item analyze describe ms i text_item w with
      | ((e, true), w') =>
          batch_loop analyze describe ms (S i) rest
            {| results := results acc ++ [e];
               successful := S (successful acc);
               failed := failed acc |} w'
      | ((e, false), w') =>
          batch_loop analyze describe ms (S i) rest
            {| results := results acc ++ [e];
               successful := successful acc;
               failed := S (failed acc) |} w'
      end
  end.

Definition batch_body (texts : list json) (t : tally) (total_ms : json) (stamp : text) : json :=
  JObject [(str "results", JArray (map JObject (results t)));
           (str "summary",
            JObject [(str "total", JInt (Z.of_nat (List.length texts)));
                     (str "successful", JInt (Z.of_nat (successful t)));
                     (str "failed", JInt (Z.of_nat (failed t)));
                     (str "total_processing_time_ms", total_ms)]);
           (str "timestamp", JString stamp)].

(** The [try] of [batch_analyze], the handler of [/api/batch]. *)
Definition batch_try (analyze : analysis) (describe : exn -> text) (ms : pyfloat -> json)
  (total_ms : json) (stamp : text) (request : http_request) : io http_response :=
  if negb (is_json request)
  then ret (error_body "Content-Type must be application/json", 400)
  else
    data <~ lift (get_json request) ;;
    if negb (Py.truthy data) then ret (error_body "Request body is required", 400)
    else
      has_texts <~ lift (Py.contains (str "texts") data) ;;
      if negb has_texts then ret (error_body "texts field is required", 400)
      else
        texts <~ lift (Py.getitem data (str "texts")) ;;
        match texts with
        | JArray l =>
            if Nat.eqb (List.length l) 0
            then ret (error_body "texts array cannot be empty", 400)
            else if 50 <? Z.of_nat (List.length l)
            then ret (error_body "Cannot process more than 50 texts at once", 400)
            else
              fun w =>
                let (t, w') :=
                  batch_loop analyze describe ms 0 l
                    {| results := []; successful := 0; failed := 0 |} w in
                (Ok (batch_body l t total_ms stamp, 200), w')
        | _ => ret (error_body "texts must be an array", 400)
        end.

Definition batch_analyze (analyze : analysis) (describe : exn -> text) (ms : pyfloat -> json)
  (total_ms : json) (stamp : text) (request : http_request)
  : world -> http_response * world :=
  fun w =>
    match batch_try analyze describe ms total_ms stamp request w with
    | (Ok response, w') => (response, w')
    | (Raise e, w') => ((failure_body "Batch analysis failed" (describe e), 500), w')
    end.

End App.

(** Vocabulary of the statements on the endpoints. *)

(** A text that the endpoints hand to the analysis. *)
Definition valid_text (t : text) : Prop :=
  t <> [] /\ Z.of_nat (App.len t) <= 10000.

Definition success_body (response : SentimentResponse) (time_ms : json) (stamp : text) : json :=
  JObject (App.result_fields response
           ++ [(str "processing_time_ms", time_ms); (str "timestamp", JString stamp)]).

(** A request with a JSON content type and a body that parses to [data]. *)
Definition json_request (data : json) : App.http_request :=
  {| App.is_json := true; App.get_json := Ok data |}.

Definition has_key (k : string) (e : App.entry) : bool :=
  match Json.lookup e (str k) with
  | Some _ => true
  | None => false
  end.

Definition count_key (k : string) (l : list App.entry) : nat :=
  List.length (filter (has_key k) l).

(** The request of the client for a text, a language and a context of a
    body, when the language is a [str] and the context a [str] or [None]. *)
Definition typed_request (t : text) (lang ctx : json) : option SentimentAnalysisRequest :=
  match lang, ctx with
  | JString l, JNull =>
      Some {| request_text := t; language := l; context := None;
              channel_type := str "web" |}
  | JString l, JString c =>
      Some {| request_text := t; language := l; context := Some c;
              channel_type := str "web" |}
  | _, _ => None
  end.

(** [analyze] is the client behind [endpoint] on such requests. *)
Definition client_of (analyze : App.analysis) (endpoint : text -> nat -> result Response)
  (max_retries : Z) (elapsed : pyfloat) : Prop :=
  forall t lang ctx rq,
    typed_request t lang ctx = Some rq ->
    analyze t lang ctx = Analysis.analyze_sentiment endpoint max_retries elapsed rq.

(** The language and the context that a handler reads in a dict. *)
Definition language_of (d : list (text * json)) : json :=
  match Json.lookup d (str "language") with
  | Some v => v
  | None => JString (str "auto")
  end.

Definition context_of (d : list (text * json)) : json :=
  match Json.lookup d (str "context") with
  | Some v => v
  | None => JNull
  end.

(** Samples: an analysis that is the client on the requests of the
    examples, and a [str] of exceptions. *)
Definition sample_client (endpoint : text -> nat -> result Response) (max_retries : Z)
  : App.analysis :=
  fun t lang ctx =>
    match typed_request t lang ctx with
    | Some rq => Analysis.analyze_sentiment endpoint max_retries (dec 12 (-1)) rq
    | None => raise TypeError
    end.

Definition sample_describe (e : exn) : text :=
  match e with
  | GeminiAPIError m => m
  | Timeout m => m
  | ConnectionError m => m
  | _ => str "error"
  end.

Definition sample_ms (f : pyfloat) : json := JFloat f.

Definition sample_request : App.http_request :=
  json_request (JObject [(str "text", JString (str "  so far so good "))]).

Definition sample_stamp : text := str "2024-05-01T10:00:00.000000".

Definition sample_texts : list json :=
  [JString (str " well done ");
   JInt 3;
   JObject [(str "id", JString (str "m-7")); (str "text", JString (str "   "))];
   JObject [(str "text", JString (str "thanks"))]].

Definition sample_batch : App.http_request :=
  json_request (JObject [(str "texts", JArray sample_texts)]).

(** ** The configuration of the process ([get_config], [reload_config])

    [_config] is the global of [src/config.py]: [None], or the instance
    that the last [Config()] that returned has made.  [Config()] loads the
    sections and then sets up the logging; [setup env] is what
    [_setup_logging] returns or raises, which the model leaves open. *)

Definition cache : Type := option Config.t.

Definition construct (setup : Config.environ -> result unit) (env : Config.environ)
  (token : text) : Config.loaded Config.t :=
  Config.and_then (Config.init env token) (fun c =>
    match setup env with
    | Ok _ => Config.Loaded c
    | Raise e => Config.Failed (Config.Uncaught e)
    end).

Definition get_config (setup : Config.environ -> result unit) (env : Config.environ)
  (token : text) (_config : cache) : Config.loaded Config.t * cache :=
  match _config with
  | None =>
      match construct setup env token with
      | Config.Loaded c => (Config.Loaded c, Some c)
      | Config.Failed f => (Config.Failed f, None)
      end
  | Some c => (Config.Loaded c, Some c)
  end.

Definition reload_config (setup : Config.environ -> result unit) (env : Config.environ)
  (token : text) (_config : cache) : Config.loaded Config.t * cache :=
  match construct setup env token with
  | Config.Loaded c => (Config.Loaded c, Some c)
  | Config.Failed f => (Config.Failed f, _config)
  end.

(** A call of one of the two, in an environment. *)
Inductive config_call : Type :=
| Get (env : Config.environ) (token : text)
| Reload (env : Config.environ) (token : text).

Definition call_env (c : config_call) : Config.environ :=
  match c with
  | Get env _ => env
  | Reload env _ => env
  end.

Definition call_token (c : config_call) : text :=
  match c with
  | Get _ token => token
  | Reload _ token => token
  end.

Definition config_step (setup : Config.environ -> result unit) (_config : cache)
  (c : config_call) : cache :=
  match c with
  | Get env token => snd (get_config setup env token _config)
  | Reload env token => snd (reload_config setup env token _config)
  end.

Definition config_calls (setup : Config.environ -> result unit) (calls : list config_call)
  : cache :=
  fold_left (config_step setup) calls None.

Definition sample_config : Config.t :=
  {| Config.slack := None;
     Config.gemini :=
       {| Config.api_key := str "k-123";
          Config.model_name := str "gemini-1.5-flash-latest";
          Config.timeout := 30; Config.max_retries := 0 |};
     Config.server :=
       {| Config.host := str "0.0.0.0"; Config.port := 3000; Config.debug := false |};
     Config.database :=
       {| Config.url := None; Config.pool_size := 10; Config.max_overflow := 20 |};
     Config.security :=
       {| Config.secret_key := str "ab12"; Config.encryption_key := None |};
     Config.features :=
       {| Config.enable_japanese_support := true;
          Config.enable_data_storage := false;
          Config.enable_async_processing := false;
          Config.default_retention_days := 30;
          Config.max_retention_days := 365 |} |}.

(** A first call without the key, a call with it, and a reload without. *)
Definition sample_calls : list config_call :=
  [Get (Config.env_of []) (str "00"); Get sample_env (str "ab12");
   Reload (Config.env_of []) (str "ff")].

(** ** The bounds of the interpreter on [json.loads]

    [Json.loads], and the decoder of module [GeminiClient] with it, are
    those of an interpreter that sets no bound: every text is a value or a
    [json.JSONDecodeError].  CPython has two bounds, and what [json.loads]
    raises when a text passes one of them is no [json.JSONDecodeError]:
    - an integer literal of more than [max_str_digits] digits raises a
      plain [ValueError] when it is converted
      ([sys.get_int_max_str_digits()], 4300 unless it is set; 0 for no
      bound);
    - a list or a dict that is opened while [max_depth] of them are open
      raises a [RecursionError]: [max_depth] is what the stack of the
      interpreter has left when [json.loads] is called.
    Both are raised where the scanner stands, before it reads further.
    Module [Bounded] has the scanner and the decoder with these bounds. *)

Record limits : Type := {
  max_str_digits : Z;
  max_depth : nat
}.

Module Bounded.

(** An integer literal of JSON has no leading zero: it has more than [n]
    digits when its value is [10^n] at least. *)
Definition too_long (lim : limits) (z : Z) : bool :=
  (0 <? max_str_digits lim) && (10 ^ max_str_digits lim <=? Z.abs z).

Section Scanner.

Variable lim : limits.

(** [Json.scan_once] with the bounds: [depth] is the number of lists and
    dicts that may still be opened inside one another. *)
Fixpoint scan_once (fuel depth : nat) (s : text) : result (json * text) :=
  match fuel with
  | O => Raise JSONDecodeError
  | S fuel' =>
      match s with
      | [] => Raise JSONDecodeError
      | c :: s' =>
          if Ascii.eqb c dquote then
            match Json.scan_string s' with
            | Some (x, r) => Ok (JString x, r)
            | None => Raise JSONDecodeError
            end
          else if Ascii.eqb c "{" then
            match depth with
            | O => Raise RecursionError
            | S depth' =>
                match Json.expect "}" (Json.skip_ws s') with
                | Some r => Ok (JObject [], r)
                | None => scan_members fuel' depth' [] (Json.skip_ws s')
                end
            end
          else if Ascii.eqb c "[" then
            match depth with
            | O => Raise RecursionError
            | S depth' =>
                match Json.expect "]" (Json.skip_ws s') with
                | Some r => Ok (JArray [], r)
                | None => scan_elements fuel' depth' [] (Json.skip_ws s')
                end
            end
          else
            match Json.strip_prefix "null" s, Json.strip_prefix "true" s,
                  Json.strip_prefix "false" s with
            | Some r, _, _ => Ok (JNull, r)
            | _, Some r, _ => Ok (JBool true, r)
            | _, _, Some r => Ok (JBool false, r)
            | _, _, _ =>
                match Json.scan_number s with
                | Some (JInt z, r) =>
                    if too_long lim z then Raise ValueError else Ok (JInt z, r)
                | Some res => Ok res
                | None =>
                    match Json.strip_prefix "NaN" s, Json.strip_prefix "Infinity" s,
                          Json.strip_prefix "-Infinity" s with
                    | Some r, _, _ => Ok (JFloat NaN, r)
                    | _, Some r, _ => Ok (JFloat PosInf, r)
                    | _, _, Some r => Ok (JFloat NegInf, r)
                    | _, _, _ => Raise JSONDecodeError
                    end
                end
            end
      end
  end

with scan_members (fuel depth : nat) (acc : list (text * json)) (s : text)
  : result (json * text) :=
  match fuel with
  | O => Raise JSONDecodeError
  | S fuel' =>
      match Json.expect dquote s with
      | Some s1 =>
          match Json.scan_string s1 with
          | Some (k, s2) =>
              match Json.expect ":" (Json.skip_ws s2) with
              | Some s3 =>
                  match scan_once fuel' depth (Json.skip_ws s3) with
                  | Ok (v, s4) =>
                      let acc' := Json.dict_set acc k v in
                      match Json.expect "}" (Json.skip_ws s4) with
                      | Some r => Ok (JObject acc', r)
                      | None =>
                          match Json.expect "," (Json.skip_ws s4) with
                          | Some s5 => scan_members fuel' depth acc' (Json.skip_ws s5)
                          | None => Raise JSONDecodeError
                          end
                      end
                  | Raise e => Raise e
                  end
              | None => Raise JSONDecodeError
              end
          | None => Raise JSONDecodeError
          end
      | None => Raise JSONDecodeError
      end
  end

with scan_elements (fuel depth : nat) (acc : list json) (s : text)
  : result (json * text) :=
  match fuel with
  | O => Raise JSONDecodeError
  | S fuel' =>
      match scan_once fuel' depth s with
      | Ok (v, s1) =>
          match Json.expect "]" (Json.skip_ws s1) with
          | Some r => Ok (JArray (acc ++ [v]), r)
          | None =>
              match Json.expect "," (Json.skip_ws s1) with
              | Some s2 => scan_elements fuel' depth (acc ++ [v]) (Json.skip_ws s2)
              | None => Raise JSONDecodeError
              end
          end
      | Raise e => Raise e
      end
  end.

(** [json.loads(s)] *)
Definition loads (s : text) : result json :=
  match scan_once (2 * List.length s + 2) (max_depth lim) (Json.skip_ws s) with
  | Ok (v, rest) =>
      match Json.skip_ws rest with
      | [] => Ok v
      | _ => Raise JSONDecodeError
      end
  | Raise e => Raise e
  end.

(** [try: body except json.JSONDecodeError: handler]: any other exception
    of the body goes through. *)
Definition except_decode {A : Type} (body handler : result A) : result A :=
  match body with
  | Raise JSONDecodeError => handler
  | other => other
  end.

Definition _parse_api_response (response_text expected_language : text)
  : result SentimentResponse :=
  let cleaned_text := _clean_response_text response_text in
  except_decode
    (response_data <- loads cleaned_text ;;
     _create_sentiment_response response_data)
    (let truncated :=
       if _is_truncated_json cleaned_text
       then
         except_decode
           (response_data <- loads (_fix_truncated_json cleaned_text) ;;
            _create_sentiment_response response_data)
           (_infer_sentiment_from_text cleaned_text expected_language)
       else _infer_sentiment_from_text cleaned_text expected_language in
     match Re.search score_object cleaned_text with
     | Some json_match =>
         except_decode
           (response_data <- loads json_match ;;
            _create_sentiment_response response_data)
           truncated
     | None => truncated
     end).

(** What the stages of the decoder get from [json.loads]: the value of the
    first stage that parses, [None] when each stage that runs gets a
    [json.JSONDecodeError], and the exception of the first stage on which
    [json.loads] raises another one. *)
Definition first_parse (cleaned_text : text) : result (option json) :=
  match loads cleaned_text with
  | Ok response_data => Ok (Some response_data)
  | Raise JSONDecodeError =>
      match
        match Re.search score_object cleaned_text with
        | Some json_match => loads json_match
        | None => Raise JSONDecodeError
        end
      with
      | Ok response_data => Ok (Some response_data)
      | Raise JSONDecodeError =>
          if _is_truncated_json cleaned_text
          then
            match loads (_fix_truncated_json cleaned_text) with
            | Ok response_data => Ok (Some response_data)
            | Raise JSONDecodeError => Ok None
            | Raise e => Raise e
            end
          else Ok None
      | Raise e => Raise e
      end
  | Raise e => Raise e
  end.

End Scanner.

End Bounded.

(** The bounds of a CPython as it comes, with a stack that takes 900 lists
    and dicts. *)
Definition sample_limits : limits := {| max_str_digits := 4300; max_depth := 900 |}.

(** A reply that is one integer of 4301 digits, and a reply that opens a
    thousand lists. *)
Definition long_integer : text := repeat "9"%char (Z.to_nat 4301).

Definition deep_lists : text := repeat "["%char (Z.to_nat 1000).

Example loads_ex1 :
  Json.loads (txt "{'sentiment_score': 4, 'confidence': 0.95}")
  = Some (JObject [(str "sentiment_score", JInt 4); (str "confidence", JFloat (dec 95 (-2)))]).
Proof. vm_compute. reflexivity. Qed.

Example loads_ex2 :
  Json.loads (txt " [1, -2.5e1, true, null, 'a\n\u00e9', {'k': [], 'k': {}}] ")
  = Some (JArray [JInt 1; JFloat (dec (-25) 0); JBool true; JNull;
                  JString (str "a" ++ ["010"%char; "195"%char; "169"%char]);
                  JObject [(str "k", JObject [])]]).
Proof. vm_compute. reflexivity. Qed.

Example loads_ex3 :
  map Json.loads [str "{"; str "{} x"; str "[1,]"; str "01"; str "1."; str "-"; txt "{'a' 1}"; str "nul"]
  = [None; None; None; None; None; None; None; None].
Proof. vm_compute. reflexivity. Qed.

Example int_of_text_ex :
  map Py.int_of_text [str " 5 "; str "-1_0"; str "5.0"; str ""; str "1__0"]
  = [Ok 5; Ok (-10); Raise ValueError; Raise ValueError; Raise ValueError].
Proof. vm_compute. reflexivity. Qed.

Example float_of_text_ex :
  map Py.float_of_text [str "0.95"; str " -1e-1"; str ".5"; str "1."; str "."; str "-INF"; str "high"]
  = [Ok (dec 95 (-2)); Ok (dec (-1) (-1)); Ok (dec 5 (-1)); Ok (dec 1 0);
     Raise ValueError; Ok NegInf; Raise ValueError].
Proof. vm_compute. reflexivity. Qed.

Example clean_ex :
  _clean_response_text (txt "```json
{'sentiment_score': 4}
```
") = txt "{'sentiment_score': 4}".
Proof. vm_compute. reflexivity. Qed.

Example parse_ex1 :
  _parse_api_response (txt "Here you go: {'sentiment_score': 2, 'confidence': 0.5} ok") (str "ja")
  = Ok {| sentiment_score := 2; sentiment_label := JString (str "Negative");
          confidence := dec 5 (-1);
          explanation := JString (str "Sentiment analysis completed");
          language_detected := JString (str "en"); processing_time := dec 0 0 |}.
Proof. vm_compute. reflexivity. Qed.

Example parse_ex2 :
  _parse_api_response (str "This is terrible") (str "auto")
  = Ok {| sentiment_score := 1; sentiment_label := JString (str "Very Negative");
          confidence := dec 7 (-1);
          explanation := JString (str "Sentiment inferred from response text");
          language_detected := JString (str "en"); processing_time := dec 0 0 |}.
Proof. vm_compute. reflexivity. Qed.

Example parse_ex3 :
  _parse_api_response (txt "{'sentiment_score': 7}") (str "auto")
  = Raise (GeminiAPIError (str "Invalid sentiment_score: 7")).
Proof. vm_compute. reflexivity. Qed.

Example extract_ok :
  bind (response_json {| status_code := 200; headers := []; body := ok_body |}) extract_text
  = Ok (JString (str "fine")).
Proof. vm_compute. reflexivity. Qed.

Example extract_truncated :
  bind (response_json {| status_code := 200; headers := []; body := truncated_body |}) extract_text
  = Raise (GeminiAPIError
             (str "Response truncated due to token limit - increase maxOutputTokens")).
Proof. vm_compute. reflexivity. Qed.

Example run_timeouts :
  _make_api_request always_timeout 3 start
  = (Raise (GeminiAPIError (str "API request failed after 3 attempts: Read timed out.")),
     {| posts := 3; log := [Post; Sleep 2; Post; Sleep 4; Post] |}).
Proof. vm_compute. reflexivity. Qed.

Example run_limited :
  _make_api_request limited_then_ok 3 start
  = (Ok (JString (str "fine")),
     {| posts := 2; log := [Post; Sleep 5; Sleep 2; Post] |}).
Proof. vm_compute. reflexivity. Qed.

Example run_no_budget :
  _make_api_request always_timeout 0 start
  = (Raise (GeminiAPIError (str "Max retries exceeded")), start).
Proof. vm_compute. reflexivity. Qed.

(** ** The transport loop, one attempt at a time *)

Lemma backoff_nonneg (attempt : Z) : (Z.min (2 ^ attempt) 60 <? 0) = false.
Proof.
  apply Z.ltb_ge. apply Z.min_glb; [apply Z.pow_nonneg|]; lia.
Qed.

Lemma backoff_fits (attempt : Z) :
  (Z.min (2 ^ attempt) 60 <? -9223372036) || (9223372036 <? Z.min (2 ^ attempt) 60) = false.
Proof.
  pose proof (Z.pow_nonneg 2 attempt ltac:(lia)).
  apply orb_false_iff. split; apply Z.ltb_ge; lia.
Qed.

Lemma attempt_try_unfold server max_retries attempt w :
  attempt_try server max_retries attempt w
  = match server (posts w) with
    | Ok response => on_response max_retries attempt response (after_post attempt w)
    | Raise e => (Raise e, after_post attempt w)
    end.
Proof.
  unfold attempt_try, after_post, on_response, bind_io at 1 2, session_post, sleep, ret.
  rewrite backoff_fits, backoff_nonneg.
  destruct (attempt >? 0); cbn [posts log]; destruct (server (posts w)); reflexivity.
Qed.

Lemma attempt_body_raise server max_retries attempt w e :
  server (posts w) = Raise e ->
  attempt_body server max_retries attempt w
  = attempt_except max_retries attempt e (after_post attempt w).
Proof.
  intros H. unfold attempt_body, try_except. rewrite attempt_try_unfold, H. reflexivity.
Qed.

Lemma attempt_body_response server max_retries attempt w r :
  server (posts w) = Ok r ->
  attempt_body server max_retries attempt w
  = try_except (on_response max_retries attempt r) (attempt_except max_retries attempt)
      (after_post attempt w).
Proof.
  intros H. unfold attempt_body, try_except. rewrite attempt_try_unfold, H. reflexivity.
Qed.

Lemma range_two (n : Z) :
  2 <= n -> exists rest, range n = 0 :: 1 :: rest.
Proof.
  intros H. unfold range.
  destruct (Z.to_nat n) as [|[|k]] eqn:E; try lia.
  exists (map Z.of_nat (seq 2 k)). reflexivity.
Qed.

(** A 200 response whose envelope check raises [GeminiAPIError] uses up the
    attempt: the loop goes on, or ends with the wrapped error when the
    attempt is the last one. *)
Lemma attempt_body_envelope_error server max_retries attempt w r d msg :
  server (posts w) = Ok r ->
  status_code r = 200 ->
  response_json r = Ok d ->
  extract_text d = Raise (GeminiAPIError msg) ->
  attempt_body server max_retries attempt w
  = (if attempt =? max_retries - 1
     then Raise (GeminiAPIError (failed_after max_retries msg))
     else Ok Continue,
     after_post attempt w).
Proof.
  intros Hs Hc Hj He. rewrite (attempt_body_response _ _ _ _ _ Hs).
  unfold try_except, on_response, bind_io, lift, attempt_except, raise, ret.
  rewrite Hc, Hj, He. cbn. destruct (attempt =? max_retries - 1); reflexivity.
Qed.

Lemma attempt_body_success server max_retries attempt w r d t :
  server (posts w) = Ok r ->
  status_code r = 200 ->
  response_json r = Ok d ->
  extract_text d = Ok t ->
  attempt_body server max_retries attempt w = (Ok (Return t), after_post attempt w).
Proof.
  intros Hs Hc Hj He. rewrite (attempt_body_response _ _ _ _ _ Hs).
  unfold try_except, on_response, bind_io, lift, ret.
  rewrite Hc, Hj, He. reflexivity.
Qed.

(** C6. With [max_retries = 3] and a timeout at every call, the loop makes
    exactly three calls, pauses 2 seconds before the second and 4 seconds
    before the third, pauses no more after the third, and raises the error
    that carries the count of attempts and the cause. *)
Theorem C6_three_timeouts (server : nat -> result Response) (cause : nat -> text) :
  (forall k, server k = Raise (Timeout (cause k))) ->
  _make_api_request server 3 start
  = (Raise (GeminiAPIError (failed_after 3 (cause 2%nat))),
     {| posts := 3; log := [Post; Sleep 2; Post; Sleep 4; Post] |}).
Proof.
  intros H. unfold _make_api_request.
  change (range 3) with [0; 1; 2].
  cbn [for_attempts].
  rewrite (attempt_body_raise _ _ _ _ _ (H _)). cbn.
  rewrite (attempt_body_raise _ _ _ _ _ (H _)). cbn.
  rewrite (attempt_body_raise _ _ _ _ _ (H _)). cbn.
  reflexivity.
Qed.

Lemma C6_three_timeouts_witness :
  _make_api_request always_timeout 3 start
  = (Raise (GeminiAPIError (failed_after 3 (str "Read timed out."))),
     {| posts := 3; log := [Post; Sleep 2; Post; Sleep 4; Post] |}).
Proof.
  apply (C6_three_timeouts always_timeout (fun _ => str "Read timed out.")).
  intros k. reflexivity.
Defined.

(** C3, as stated, fails: after a 429 with [Retry-After: 5] the loop pauses
    5 seconds and then, before the second call, the 2 seconds of the
    backoff as well. *)
Lemma C3_counterexample :
  fst (_make_api_request limited_then_ok 3 start) = Ok (JString (str "fine"))
  /\ sleeps (log (snd (_make_api_request limited_then_ok 3 start))) = [5; 2]
  /\ sleeps (log (snd (_make_api_request limited_then_ok 3 start))) <> [5].
Proof.
  vm_compute. repeat split. discriminate.
Qed.

(** C3, amended. With at least two attempts allowed, a 429 with
    [Retry-After: 5] followed by a 200 with a valid envelope succeeds with
    the text of the envelope after two calls; between them the loop pauses 5
    seconds and then the 2 seconds of the backoff. *)
Theorem C3_retry_after_then_backoff
  (server : nat -> result Response) (max_retries : Z) (r1 r2 : Response) (d t : json) :
  2 <= max_retries ->
  server 0%nat = Ok r1 ->
  status_code r1 = 429 ->
  header_get (headers r1) (str "Retry-After") (str "60") = str "5" ->
  server 1%nat = Ok r2 ->
  status_code r2 = 200 ->
  response_json r2 = Ok d ->
  extract_text d = Ok t ->
  _make_api_request server max_retries start
  = (Ok t, {| posts := 2; log := [Post; Sleep 5; Sleep 2; Post] |}).
Proof.
  intros Hn H0 Hc1 Hh H1 Hc2 Hj He.
  unfold _make_api_request. destruct (range_two max_retries Hn) as [rest ->].
  cbn [for_attempts].
  rewrite (attempt_body_response server max_retries 0 start r1 H0).
  unfold try_except, on_response, bind_io, lift.
  rewrite Hc1, Hh.
  replace (0 <? max_retries - 1) with true by (symmetry; apply Z.ltb_lt; lia).
  cbn.
  match goal with
  | |- context [attempt_body server max_retries 1 ?w] =>
      rewrite (attempt_body_success server max_retries 1 w r2 d t H1 Hc2 Hj He)
  end.
  reflexivity.
Qed.

Lemma C3_retry_after_then_backoff_witness :
  _make_api_request limited_then_ok 3 start
  = (Ok (JString (str "fine")), {| posts := 2; log := [Post; Sleep 5; Sleep 2; Post] |}).
Proof.
  apply (C3_retry_after_then_backoff limited_then_ok 3
           {| status_code := 429; headers := [(str "Retry-After", str "5")]; body := [] |}
           {| status_code := 200; headers := []; body := ok_body |}
           (JObject [(str "candidates",
                      JArray [JObject [(str "content",
                                        JObject [(str "parts",
                                                  JArray [JObject [(str "text", JString (str "fine"))]])]);
                                       (str "finishReason", JString (str "STOP"))]])])
           (JString (str "fine")));
    try reflexivity; try lia.
Defined.

(** The dynamic operations raise the exceptions of Python, never the
    error of the client. *)
Lemma contains_not_gemini k x m : Py.contains k x <> Raise (GeminiAPIError m).
Proof. destruct x; cbn; discriminate. Qed.

Lemma getitem_not_gemini x k m : Py.getitem x k <> Raise (GeminiAPIError m).
Proof. destruct x; cbn; try discriminate. destruct (Json.lookup kvs k); discriminate. Qed.

Lemma first_not_gemini x m : Py.first x <> Raise (GeminiAPIError m).
Proof. destruct x as [| | | |[|]|[|]|]; cbn; discriminate. Qed.

Lemma get_not_gemini x k dflt m : Py.get x k dflt <> Raise (GeminiAPIError m).
Proof. destruct x; cbn; discriminate. Qed.

Ltac py_raise :=
  match goal with
  | H : Py.contains _ _ = Raise (GeminiAPIError _) |- _ => destruct (contains_not_gemini _ _ _ H)
  | H : Py.getitem _ _ = Raise (GeminiAPIError _) |- _ => destruct (getitem_not_gemini _ _ _ H)
  | H : Py.first _ = Raise (GeminiAPIError _) |- _ => destruct (first_not_gemini _ _ H)
  | H : Py.get _ _ _ = Raise (GeminiAPIError _) |- _ => destruct (get_not_gemini _ _ _ _ H)
  end.

(** The envelope checks raise [GeminiAPIError] with one of six messages:
    the one of the truncation, or one of the five of [malformed_msgs]. *)
Lemma extract_text_messages (d : json) (msg : text) :
  extract_text d = Raise (GeminiAPIError msg) ->
  msg = truncated_msg \/ In msg malformed_msgs.
Proof.
  unfold extract_text, bind, malformed_msgs, truncated_msg.
  repeat match goal with
  | |- context [match ?x with _ => _ end] => destruct x eqn:?
  end; intros H; try discriminate H; inversion H; subst; try py_raise;
    try match goal with
    | E : (if ?a then _ else _) = Raise _ |- _ => destruct a; [py_raise | discriminate E]
    end; cbn; auto 10.
Qed.

(** C5, as stated, fails: a truncated envelope does not make the call fail
    while attempts remain. Here the first response is truncated, the second
    one is valid, and the call succeeds. *)
Lemma C5_counterexample :
  bind (response_json {| status_code := 200; headers := []; body := truncated_body |})
    extract_text = Raise (GeminiAPIError truncated_msg)
  /\ _make_api_request truncated_then_ok 2 start
     = (Ok (JString (str "fine")), {| posts := 2; log := [Post; Sleep 2; Post] |}).
Proof.
  vm_compute. split; reflexivity.
Qed.

(** C5, amended. A 200 envelope whose first candidate has a content without
    the key [parts] and the finish reason [MAX_TOKENS] raises an error whose
    message is none of the messages of the other envelope checks; like
    theirs, this error uses up one attempt: the loop goes on when attempts
    remain and ends with the wrapped error at the last attempt. *)
Theorem C5_truncation_is_retried
  (server : nat -> result Response) (max_retries attempt : Z) (w : world)
  (r : Response) (d cand content : list (text * json)) (others : list json) :
  server (posts w) = Ok r ->
  status_code r = 200 ->
  response_json r = Ok (JObject d) ->
  Json.lookup d (str "candidates") = Some (JArray (JObject cand :: others)) ->
  Json.lookup cand (str "content") = Some (JObject content) ->
  Json.lookup content (str "parts") = None ->
  Json.lookup cand (str "finishReason") = Some (JString (str "MAX_TOKENS")) ->
  extract_text (JObject d) = Raise (GeminiAPIError truncated_msg)
  /\ ~ In truncated_msg malformed_msgs
  /\ attempt_body server max_retries attempt w
     = (if attempt =? max_retries - 1
        then Raise (GeminiAPIError (failed_after max_retries truncated_msg))
        else Ok Continue,
        after_post attempt w)
  /\ (forall server' w' r' d' msg,
        server' (posts w') = Ok r' ->
        status_code r' = 200 ->
        response_json r' = Ok d' ->
        extract_text d' = Raise (GeminiAPIError msg) ->
        (msg = truncated_msg \/ In msg malformed_msgs)
        /\ attempt_body server' max_retries attempt w'
           = (if attempt =? max_retries - 1
              then Raise (GeminiAPIError (failed_after max_retries msg))
              else Ok Continue,
              after_post attempt w')).
Proof.
  intros Hs Hc Hj Hcands Hcontent Hparts Hfinish.
  assert (He : extract_text (JObject d) = Raise (GeminiAPIError truncated_msg)).
  { unfold extract_text, bind. cbn [Py.contains Py.getitem Py.first Py.get Py.truthy].
    rewrite Hcands. cbn [negb orb Py.first Py.contains Py.getitem].
    rewrite Hcontent. cbn [negb Py.contains Py.getitem]. rewrite Hparts.
    cbn [negb Py.truthy Py.get]. rewrite Hfinish. reflexivity. }
  split; [exact He|]. split.
  { vm_compute. intuition discriminate. }
  split.
  { exact (attempt_body_envelope_error _ _ _ _ _ _ _ Hs Hc Hj He). }
  intros server' w' r' d' msg Hs' Hc' Hj' He'. split.
  - exact (extract_text_messages _ _ He').
  - exact (attempt_body_envelope_error _ _ _ _ _ _ _ Hs' Hc' Hj' He').
Qed.

Lemma C5_truncation_is_retried_witness :
  attempt_body truncated_then_ok 2 0 start
  = (Ok Continue, after_post 0 start).
Proof.
  apply (C5_truncation_is_retried truncated_then_ok 2 0 start
           {| status_code := 200; headers := []; body := truncated_body |}
           [(str "candidates",
             JArray [JObject [(str "content", JObject [(str "role", JString (str "model"))]);
                              (str "finishReason", JString (str "MAX_TOKENS"))]])]
           [(str "content", JObject [(str "role", JString (str "model"))]);
            (str "finishReason", JString (str "MAX_TOKENS"))]
           [(str "role", JString (str "model"))] []);
    reflexivity.
Defined.

(** ** The decoder *)

Lemma parse_by_stage (t lang : text) :
  _parse_api_response t lang
  = match first_parse (_clean_response_text t) with
    | Some data => _create_sentiment_response data
    | None => _infer_sentiment_from_text (_clean_response_text t) lang
    end.
Proof.
  unfold _parse_api_response, first_parse.
  destruct (Json.loads (_clean_response_text t)); [reflexivity|].
  destruct (match Re.search score_object (_clean_response_text t) with
            | Some m => Json.loads m | None => None end); [reflexivity|].
  destruct (_is_truncated_json (_clean_response_text t)); [|reflexivity].
  destruct (Json.loads (_fix_truncated_json (_clean_response_text t))); reflexivity.
Qed.

(** The fallback never raises: it gives a result with a score from 1 to 5,
    the label of that score and the confidence 0.7. *)
Lemma infer_total (t lang : text) :
  exists r, _infer_sentiment_from_text t lang = Ok r
            /\ 1 <= sentiment_score r <= 5
            /\ score_to_label (sentiment_score r) = Ok (sentiment_label r)
            /\ confidence r = dec 7 (-1).
Proof.
  unfold _infer_sentiment_from_text.
  repeat match goal with
  | |- context [if ?b then _ else _] => destruct b
  end; cbn; eexists; (split; [reflexivity|]); cbn; repeat split; lia.
Qed.


Lemma int_of_text_raises (s : text) (e : exn) :
  Py.int_of_text s = Raise e -> e = ValueError.
Proof.
  unfold Py.int_of_text. destruct (Py.split_sign _), (Py.span_digits_us _) as [[|] [|]];
    try destruct (4300 <? _); intros H; inversion H; reflexivity.
Qed.


(** The builder on a dict: what it returns is decided by the key
    [sentiment_score], then by the key [confidence]. *)
Lemma create_on_object (d : list (text * json)) :
  _create_sentiment_response (JObject d)
  = match Json.lookup d (str "sentiment_score") with
    | None => Raise missing_score
    | Some raw =>
        score <- Py.int raw ;;
        if (score <? 1) || (score >? 5) then Raise (invalid_score score)
        else
          default_label <- score_to_label score ;;
          conf <- Py.float (match Json.lookup d (str "confidence") with
                            | Some v => v
                            | None => JFloat (dec 95 (-2))
                            end) ;;
          Ok {| sentiment_score := score;
                sentiment_label :=
                  match Json.lookup d (str "sentiment_label") with
                  | Some v => v
                  | None => default_label
                  end;
                confidence := conf;
                explanation :=
                  match Json.lookup d (str "explanation") with
                  | Some v => v
                  | None => JString (str "Sentiment analysis completed")
                  end;
                language_detected :=
                  match Json.lookup d (str "language_detected") with
                  | Some v => v
                  | None => JString (str "en")
                  end;
                processing_time := dec 0 0 |}
    end.
Proof.
  unfold _create_sentiment_response, bind, Py.contains, Py.getitem, Py.get.
  destruct (Json.lookup d (str "sentiment_score")); reflexivity.
Qed.

(** The builder returns a result only on a dict. *)
Lemma create_ok_object (data : json) (r : SentimentResponse) :
  _create_sentiment_response data = Ok r -> exists d, data = JObject d.
Proof.
  destruct data; try (eexists; reflexivity);
    unfold _create_sentiment_response, bind, Py.contains, Py.getitem;
    repeat match goal with
    | |- context [match ?x with _ => _ end] => destruct x
    end; discriminate.
Qed.







(** The same at the two later stages: an object found inside other text,
    and a reply repaired after truncation. *)
Example invalid_score_extracted :
  _parse_api_response (txt "Result: {'sentiment_score': 0} (great)") (str "auto")
  = Raise (invalid_score 0).
Proof. vm_compute. reflexivity. Qed.

Example invalid_score_repaired :
  _parse_api_response (txt "{'sentiment_score': 9, 'confidence':") (str "auto")
  = Raise (invalid_score 9).
Proof. vm_compute. reflexivity. Qed.

(** A score with a fraction goes through [int] first, which cuts the
    fraction off: 5.9 is taken as 5, and 0.5 as 0. *)
Example fractional_score :
  (exists r, _parse_api_response (txt "{'sentiment_score': 5.9}") (str "auto") = Ok r
             /\ sentiment_score r = 5)
  /\ _parse_api_response (txt "{'sentiment_score': 0.5}") (str "auto")
     = Raise (invalid_score 0).
Proof.
  split; [eexists; split; [vm_compute; reflexivity|reflexivity]|vm_compute; reflexivity].
Qed.

(** C4, as stated, fails: the confidence of the reply is returned as it
    is. *)
Lemma C4_counterexample :
  exists r, _parse_api_response (txt "{'sentiment_score': 3, 'confidence': 7}") (str "auto") = Ok r
            /\ confidence r = dec 7 0
            /\ in_unit (confidence r) = false.
Proof.
  eexists. split; [vm_compute; reflexivity|]. split; reflexivity.
Qed.

(** C4, amended. A result of the fallback has the confidence 0.7 and a
    result built from a dict without the key [confidence] has 0.95, both
    between 0 and 1. When the dict has the key, the confidence of the
    result is [float] of its value, whatever it is. *)
Theorem C4_confidence_of_result (t lang : text) (r : SentimentResponse) :
  _parse_api_response t lang = Ok r ->
  match first_parse (_clean_response_text t) with
  | None => confidence r = dec 7 (-1) /\ in_unit (confidence r) = true
  | Some data =>
      exists d, data = JObject d
                /\ match Json.lookup d (str "confidence") with
                   | None => confidence r = dec 95 (-2) /\ in_unit (confidence r) = true
                   | Some v => Py.float v = Ok (confidence r)
                   end
  end.
Proof.
  rewrite parse_by_stage.
  destruct (first_parse (_clean_response_text t)) as [data|].
  - intros H. destruct (create_ok_object _ _ H) as [d ->]. exists d. split; [reflexivity|].
    revert H. rewrite create_on_object. unfold bind.
    destruct (Json.lookup d (str "sentiment_score")) as [raw|]; [|discriminate].
    destruct (Py.int raw) as [n|]; [|discriminate].
    destruct ((n <? 1) || (n >? 5)); [discriminate|].
    destruct (score_to_label n); [|discriminate].
    destruct (Json.lookup d (str "confidence")) as [v|].
    + destruct (Py.float v); [|discriminate]. intros H; inversion H. reflexivity.
    + cbn. intros H; inversion H. split; reflexivity.
  - intros H. destruct (infer_total (_clean_response_text t) lang) as [r' [H' [_ [_ Hc]]]].
    rewrite H' in H. inversion H; subst. rewrite Hc. split; reflexivity.
Qed.

Lemma C4_confidence_of_result_witness :
  Py.float (JInt 7)
  = Ok (confidence {| sentiment_score := 3; sentiment_label := JString (str "Neutral");
                      confidence := dec 7 0;
                      explanation := JString (str "Sentiment analysis completed");
                      language_detected := JString (str "en");
                      processing_time := dec 0 0 |}).
Proof.
  destruct (C4_confidence_of_result (txt "{'sentiment_score': 3, 'confidence': 7}") (str "auto")
              {| sentiment_score := 3; sentiment_label := JString (str "Neutral");
                 confidence := dec 7 0;
                 explanation := JString (str "Sentiment analysis completed");
                 language_detected := JString (str "en");
                 processing_time := dec 0 0 |}) as [d [Hd Hc]].
  - vm_compute. reflexivity.
  - inversion Hd; subst. exact Hc.
Defined.

(** C7. For every integer [s] from 1 to 5, the reply [{"sentiment_score": s}]
    decodes to a result whose label is the entry of the table for [s] and
    whose confidence is 0.95. *)
Theorem C7_score_only_reply (s : Z) (lang : text) :
  1 <= s <= 5 ->
  exists l,
    score_to_label s = Ok (JString l)
    /\ l = nth (Z.to_nat (s - 1))
             [str "Very Negative"; str "Negative"; str "Neutral"; str "Positive";
              str "Very Positive"] []
    /\ _parse_api_response (score_only s) lang
       = Ok {| sentiment_score := s;
               sentiment_label := JString l;
               confidence := dec 95 (-2);
               explanation := JString (str "Sentiment analysis completed");
               language_detected := JString (str "en");
               processing_time := dec 0 0 |}.
Proof.
  intros H.
  assert (s = 1 \/ s = 2 \/ s = 3 \/ s = 4 \/ s = 5) as [->|[->|[->|[->| ->]]]] by lia;
    eexists; (split; [reflexivity|]); split; vm_compute; reflexivity.
Qed.

Lemma C7_score_only_reply_witness :
  exists l,
    score_to_label 4 = Ok (JString l)
    /\ l = nth (Z.to_nat (4 - 1))
             [str "Very Negative"; str "Negative"; str "Neutral"; str "Positive";
              str "Very Positive"] []
    /\ _parse_api_response (score_only 4) (str "auto")
       = Ok {| sentiment_score := 4;
               sentiment_label := JString l;
               confidence := dec 95 (-2);
               explanation := JString (str "Sentiment analysis completed");
               language_detected := JString (str "en");
               processing_time := dec 0 0 |}.
Proof.
  apply (C7_score_only_reply 4 (str "auto")). lia.
Defined.

(** C9. The reply cut after the key of the confidence starts with a brace,
    does not end with one and has the key of the score; neither the whole
    text nor a search gives a value, so the repair runs: it appends [ 0.95]
    and the closing brace, and the result has the score 4 and the
    confidence 0.95. *)
Theorem C9_cut_reply_repaired (lang : text) :
  _clean_response_text cut_reply = cut_reply
  /\ Str.startswith cut_reply (str "{") = true
  /\ Str.endswith cut_reply (str "}") = false
  /\ Str.endswith cut_reply (txt "':") = true
  /\ Json.loads cut_reply = None
  /\ Re.search score_object cut_reply = None
  /\ _is_truncated_json cut_reply = true
  /\ _fix_truncated_json cut_reply = txt "{'sentiment_score': 4, 'confidence': 0.95}"
  /\ _parse_api_response cut_reply lang
     = Ok {| sentiment_score := 4;
             sentiment_label := JString (str "Positive");
             confidence := dec 95 (-2);
             explanation := JString (str "Sentiment analysis completed");
             language_detected := JString (str "en");
             processing_time := dec 0 0 |}.
Proof.
  repeat split; vm_compute; reflexivity.
Qed.

(** [q in s] when [p + q in s]. *)
Lemma startswith_app (s p q : text) :
  Str.startswith s (p ++ q) = true -> Str.startswith (skipn (List.length p) s) q = true.
Proof.
  revert s. induction p as [|a p IH]; intros s H; [exact H|].
  destruct s as [|b s]; [discriminate|]. cbn in H. apply andb_true_iff in H.
  destruct H as [_ H]. cbn. auto.
Qed.

Lemma startswith_contains (s q : text) :
  Str.startswith s q = true -> Str.contains s q = true.
Proof.
  intros H. destruct s; cbn [Str.contains]; rewrite H; reflexivity.
Qed.

Lemma contains_skipn (n : nat) (s q : text) :
  Str.contains (skipn n s) q = true -> Str.contains s q = true.
Proof.
  revert s. induction n as [|n IH]; intros s H; [exact H|].
  destruct s as [|c s]; [exact H|]. cbn in H. cbn. rewrite (IH _ H). apply orb_true_r.
Qed.

Lemma contains_suffix (s p q : text) :
  Str.contains s (p ++ q) = true -> Str.contains s q = true.
Proof.
  induction s as [|c s IH]; intros H.
  - cbn [Str.contains] in H. rewrite orb_false_r in H.
    apply (contains_skipn (List.length p)). apply startswith_contains.
    apply startswith_app. exact H.
  - cbn [Str.contains] in H. apply orb_true_iff in H. destruct H as [H|H].
    + apply (contains_skipn (List.length p)). apply startswith_contains.
      apply startswith_app. exact H.
    + cbn [Str.contains]. rewrite (IH H). apply orb_true_r.
Qed.

Lemma any_in_false (words : list string) (t : text) :
  (forall w, In w words -> Str.contains t (str w) = false) -> any_in words t = false.
Proof.
  intros H. unfold any_in. induction words as [|w ws IH]; [reflexivity|].
  cbn. rewrite (H w (or_introl eq_refl)). apply IH. intros w' Hw. apply H. right. exact Hw.
Qed.

(** C10. In the fallback, a text whose lower case has [very negative] and
    none of the keywords of the three earlier groups gets the score 2 and
    the label [Negative]: it has [negative], whose group is tested before
    the group of [very negative]. *)
Theorem C10_very_negative_scores_two (t lang : text) :
  Str.contains (Str.lower t) (str "very negative") = true ->
  (forall w, In w earlier_keywords -> Str.contains (Str.lower t) (str w) = false) ->
  _infer_sentiment_from_text t lang
  = Ok {| sentiment_score := 2;
          sentiment_label := JString (str "Negative");
          confidence := dec 7 (-1);
          explanation := JString (str "Sentiment inferred from response text");
          language_detected :=
            JString (if negb (Str.eqb lang (str "auto")) then lang else str "en");
          processing_time := dec 0 0 |}.
Proof.
  intros Hv Hnone.
  assert (Hneg : Str.contains (Str.lower t) (str "negative") = true)
    by exact (contains_suffix _ (str "very ") (str "negative") Hv).
  unfold _infer_sentiment_from_text.
  rewrite !any_in_false by (intros w Hw; apply Hnone; cbn in *; intuition).
  replace (any_in ["negative"; "bad"; "poor"; "disappointing"]%string (Str.lower t)) with true;
    [reflexivity|].
  unfold any_in. cbn [existsb]. rewrite Hneg. reflexivity.
Qed.

Lemma C10_very_negative_scores_two_witness :
  _infer_sentiment_from_text (str "The tone is Very Negative.") (str "ja")
  = Ok {| sentiment_score := 2;
          sentiment_label := JString (str "Negative");
          confidence := dec 7 (-1);
          explanation := JString (str "Sentiment inferred from response text");
          language_detected := JString (str "ja");
          processing_time := dec 0 0 |}.
Proof.
  apply (C10_very_negative_scores_two (str "The tone is Very Negative.") (str "ja")).
  - vm_compute. reflexivity.
  - intros w Hw. cbn in Hw.
    repeat (destruct Hw as [<-|Hw]; [vm_compute; reflexivity|]). destruct Hw.
Defined.

(** ** Matching and substitution around a character that a pattern cannot
    read *)

Section Barrier.

Variable c : ascii.

(** A pattern whose atoms all avoid [c] matches inside the text before
    [c], and what follows [c] has no say. *)
Lemma match_here_barrier (re : list Re.atom) :
  Forall (avoids c) re ->
  forall x y,
    Re.match_here re (x ++ c :: y) = Re.match_here re (x ++ [c])
    /\ forall n, Re.match_here re (x ++ [c]) = Some n -> (n <= List.length x)%nat.
Proof.
  induction 1 as [|a re Ha Hre IH]; intros x y.
  - cbn. split; [reflexivity|]. intros n H. inversion H. lia.
  - destruct a as [l|cls|]; cbn in Ha; [| |contradiction].
    + destruct x as [|b x]; cbn.
      * destruct (Ascii.eqb_spec c l) as [E|_]; [congruence|].
        split; [reflexivity|discriminate].
      * destruct (Ascii.eqb b l); [|split; [reflexivity|discriminate]].
        destruct (IH x y) as [E B]. rewrite E. split; [reflexivity|].
        intros n Hn. destruct (Re.match_here re (x ++ [c])) as [m|]; [|discriminate].
        inversion Hn. specialize (B m eq_refl). lia.
    + cbn [Re.match_here]. induction x as [|b x IHx].
      * cbn. rewrite Ha. exact (IH [] y).
      * cbn. destruct (cls b).
        -- destruct IHx as [E B]. rewrite E.
           destruct (Re.star cls (Re.match_here re) (x ++ [c])) as [m|].
           ++ split; [reflexivity|]. intros n Hn. inversion Hn.
              specialize (B m eq_refl). lia.
           ++ destruct (IH (b :: x) y) as [E' B']. exact (conj E' B').
        -- destruct (IH (b :: x) y) as [E' B']. exact (conj E' B').
Qed.

(** Substitution with such a pattern keeps [c] and starts afresh after
    it. *)
Lemma sub_from_barrier (re : list Re.atom) :
  Forall (avoids c) re ->
  forall x k, (k <= List.length x)%nat ->
  exists P, forall y, Re.sub_from re k (x ++ c :: y) = P ++ c :: Re.sub_from re O y.
Proof.
  intros Hre. induction x as [|b x IH]; intros k Hk.
  - exists []. intros y. assert (k = O) as -> by (cbn in Hk; lia). cbn.
    destruct (match_here_barrier re Hre [] y) as [E B]. cbn in E, B. rewrite E.
    destruct (Re.match_here re [c]) as [[|n]|]; try reflexivity.
    specialize (B _ eq_refl). lia.
  - destruct k as [|k].
    + assert (E : forall y, Re.sub_from re O ((b :: x) ++ c :: y)
                          = match Re.match_here re ((b :: x) ++ [c]) with
                            | Some (S n) => Re.sub_from re n (x ++ c :: y)
                            | _ => b :: Re.sub_from re O (x ++ c :: y)
                            end).
      { intros y. destruct (match_here_barrier re Hre (b :: x) y) as [E _].
        rewrite <- E. reflexivity. }
      destruct (match_here_barrier re Hre (b :: x) []) as [_ B].
      destruct (Re.match_here re ((b :: x) ++ [c])) as [[|n]|].
      * destruct (IH O (Nat.le_0_l _)) as [P HP]. exists (b :: P). intros y.
        rewrite E, HP. reflexivity.
      * specialize (B _ eq_refl). cbn in B.
        destruct (IH n ltac:(lia)) as [P HP]. exists P. intros y.
        rewrite E, HP. reflexivity.
      * destruct (IH O (Nat.le_0_l _)) as [P HP]. exists (b :: P). intros y.
        rewrite E, HP. reflexivity.
    + cbn in Hk. destruct (IH k ltac:(lia)) as [P HP]. exists P. intros y.
      cbn [app Re.sub_from]. apply HP.
Qed.

Hypothesis c_not_newline : c <> "010"%char.

Lemma at_end_barrier (x y : text) : Re.at_end (x ++ c :: y) = false.
Proof.
  destruct x as [|b [|b' x]]; cbn.
  - destruct y; [|reflexivity]. destruct (Ascii.eqb_spec c "010"); congruence.
  - reflexivity.
  - reflexivity.
Qed.

(** A pattern that has to reach the end of the text after atoms that avoid
    [c] matches nowhere before [c]. *)
Lemma match_here_anchored (re0 re1 : list Re.atom) :
  Forall (avoids c) re0 ->
  forall x y, Re.match_here (re0 ++ Re.Eos :: re1) (x ++ c :: y) = None.
Proof.
  induction 1 as [|a re Ha Hre IH]; intros x y.
  - cbn. rewrite at_end_barrier. reflexivity.
  - destruct a as [l|cls|]; cbn in Ha; [| |contradiction].
    + destruct x as [|b x]; cbn.
      * destruct (Ascii.eqb_spec c l) as [E|_]; [congruence|reflexivity].
      * destruct (Ascii.eqb b l); [|reflexivity]. rewrite IH. reflexivity.
    + cbn [app Re.match_here]. induction x as [|b x IHx].
      * cbn. rewrite Ha. exact (IH [] y).
      * cbn. destruct (cls b).
        -- rewrite IHx. exact (IH (b :: x) y).
        -- exact (IH (b :: x) y).
Qed.

Lemma sub_from_anchored (re0 re1 : list Re.atom) :
  Forall (avoids c) re0 ->
  forall x y,
    Re.sub_from (re0 ++ Re.Eos :: re1) O (x ++ c :: y)
    = x ++ c :: Re.sub_from (re0 ++ Re.Eos :: re1) O y.
Proof.
  intros Hre x y. induction x as [|b x IH].
  - pose proof (match_here_anchored re0 re1 Hre [] y) as E. cbn [app] in E.
    cbn [app Re.sub_from]. rewrite E. reflexivity.
  - pose proof (match_here_anchored re0 re1 Hre (b :: x) y) as E. cbn [app] in E.
    cbn [app Re.sub_from]. rewrite E, IH. reflexivity.
Qed.

End Barrier.

(** ** White space, [strip] and the two fences *)

Lemma sub_from_skip (re : list Re.atom) (u z : text) :
  Re.sub_from re (List.length u) (u ++ z) = Re.sub_from re O z.
Proof.
  induction u as [|b u IH]; [reflexivity|]. cbn. exact IH.
Qed.

(** A pattern that starts with a literal leaves the characters that differ
    from it. *)
Lemma sub_from_heads (a : ascii) (re : list Re.atom) (w z : text) :
  forallb (fun h => negb (Ascii.eqb h a)) w = true ->
  Re.sub_from (Re.Lit a :: re) O (w ++ z) = w ++ Re.sub_from (Re.Lit a :: re) O z.
Proof.
  induction w as [|h w IH]; intros H; [reflexivity|].
  cbn in H. apply andb_true_iff in H. destruct H as [Hh Hw].
  cbn [app Re.sub_from Re.match_here].
  destruct (Ascii.eqb h a); [discriminate|]. rewrite (IH Hw). reflexivity.
Qed.

(** A greedy star whose continuation always succeeds reads the whole run. *)
Lemma star_run (cls : ascii -> bool) (k : text -> option nat) (w z : text) :
  (forall s, k s = Some O) ->
  forallb cls w = true ->
  match z with [] => True | h :: _ => cls h = false end ->
  Re.star cls k (w ++ z) = Some (List.length w).
Proof.
  intros Hk Hw Hz. induction w as [|h w IH].
  - cbn. destruct z as [|h z]; cbn; [apply Hk|]. rewrite Hz. apply Hk.
  - cbn in Hw. apply andb_true_iff in Hw. destruct Hw as [Hh Hw].
    cbn. rewrite Hh, (IH Hw). reflexivity.
Qed.

(** A star of white space before [$] reads white space to the end. *)
Lemma star_to_end (w : text) :
  all_space w = true ->
  Re.star Str.isspace (Re.match_here [Re.Eos]) w = Some (List.length w).
Proof.
  intros Hw. induction w as [|h w IH]; [reflexivity|].
  cbn in Hw. apply andb_true_iff in Hw. destruct Hw as [Hh Hw].
  cbn [Re.star]. rewrite Hh, (IH Hw). reflexivity.
Qed.

Lemma space_not_fence (h : ascii) :
  Str.isspace h = true -> Ascii.eqb h "`" = false /\ Ascii.eqb h "j" = false.
Proof.
  destruct h as [[] [] [] [] [] [] [] []]; vm_compute; intros H;
    first [discriminate H | split; reflexivity].
Qed.

Lemma spaces_not_fence (w : text) :
  all_space w = true -> forallb (fun h => negb (Ascii.eqb h "`")) w = true.
Proof.
  induction w as [|h w IH]; intros H; [reflexivity|].
  cbn in H. apply andb_true_iff in H. destruct H as [Hh Hw].
  cbn. destruct (space_not_fence h Hh) as [-> _]. exact (IH Hw).
Qed.

Lemma all_space_app (a b : text) :
  all_space a = true -> all_space b = true -> all_space (a ++ b) = true.
Proof.
  intros Ha Hb. unfold all_space in *. rewrite forallb_app, Ha, Hb. reflexivity.
Qed.

Lemma lstrip_spaces (a s : text) :
  all_space a = true -> Str.lstrip (a ++ s) = Str.lstrip s.
Proof.
  induction a as [|h a IH]; intros H; [reflexivity|].
  cbn in H. apply andb_true_iff in H. destruct H as [Hh Ha].
  cbn. rewrite Hh. exact (IH Ha).
Qed.

Lemma lstrip_app (s b : text) :
  Str.lstrip (s ++ b)
  = match Str.lstrip s with
    | [] => Str.lstrip b
    | l => l ++ b
    end.
Proof.
  induction s as [|h s IH]; [cbn; destruct (Str.lstrip b); reflexivity|].
  cbn. destruct (Str.isspace h); [exact IH|reflexivity].
Qed.

Lemma lstrip_split (y : text) :
  exists w, y = w ++ Str.lstrip y /\ all_space w = true.
Proof.
  induction y as [|h y [w [E Hw]]]; [exists []; split; reflexivity|].
  cbn. destruct (Str.isspace h) eqn:Hh.
  - exists (h :: w). split; [cbn; f_equal; exact E|]. cbn. rewrite Hh. exact Hw.
  - exists []. split; reflexivity.
Qed.

Lemma lstrip_head (y : text) :
  match Str.lstrip y with [] => True | h :: _ => Str.isspace h = false end.
Proof.
  induction y as [|h y IH]; [exact I|].
  cbn. destruct (Str.isspace h) eqn:Hh; [exact IH|exact Hh].
Qed.

Lemma rstrip_spaces (s b : text) :
  all_space b = true -> Str.rstrip (s ++ b) = Str.rstrip s.
Proof.
  intros Hb. unfold Str.rstrip. rewrite rev_app_distr, lstrip_spaces; [reflexivity|].
  unfold all_space in *. rewrite forallb_forall in *. intros h Hh. apply Hb.
  apply in_rev. exact Hh.
Qed.

Lemma lstrip_all_space (b : text) : all_space b = true -> Str.lstrip b = [].
Proof.
  intros H. rewrite <- (app_nil_r b). rewrite lstrip_spaces by exact H. reflexivity.
Qed.

(** White space around a text does not change what [strip] gives. *)
Lemma strip_pad (a s b : text) :
  all_space a = true -> all_space b = true -> Str.strip (a ++ s ++ b) = Str.strip s.
Proof.
  intros Ha Hb. unfold Str.strip. rewrite lstrip_spaces by exact Ha. rewrite lstrip_app.
  destruct (Str.lstrip s) as [|h l].
  - rewrite lstrip_all_space by exact Hb. reflexivity.
  - apply rstrip_spaces. exact Hb.
Qed.

Lemma fence_end_split : fence_end = fence_end_body ++ Re.Eos :: [].
Proof. reflexivity. Qed.

(** No atom of the two fences reads a character that ends a JSON value. *)
Lemma ender_props (c : ascii) :
  ender c = true ->
  Str.isspace c = false
  /\ c <> "010"%char
  /\ Ascii.eqb c "`" = false
  /\ Forall (avoids c) fence_json
  /\ Forall (avoids c) fence_end_body.
Proof.
  destruct c as [[] [] [] [] [] [] [] []]; intros H;
    try (vm_compute in H; discriminate H);
    (split; [reflexivity|]); (split; [discriminate|]); (split; [reflexivity|]);
    split; repeat constructor; cbn; first [discriminate | reflexivity].
Qed.

(** The opening fence and the white space after it go. *)
Lemma sub_json_opening (w z : text) :
  all_space w = true ->
  match z with [] => True | h :: _ => Str.isspace h = false end ->
  Re.sub fence_json (str "```json" ++ w ++ z) = Re.sub fence_json z.
Proof.
  intros Hw Hz. unfold Re.sub.
  assert (Hm : Re.match_here fence_json (str "```json" ++ w ++ z)
               = Some (7 + List.length w)%nat).
  { cbn. rewrite (star_run Str.isspace _ w z (fun _ => eq_refl) Hw Hz). reflexivity. }
  change (str "```json" ++ w ++ z) with ("`"%char :: (str "``json" ++ w) ++ z) in *.
  cbn [Re.sub_from]. rewrite Hm.
  change (7 + List.length w)%nat with (S (List.length (str "``json" ++ w))).
  apply sub_from_skip.
Qed.

(** White space and a closing fence stay when the opening fence is
    removed. *)
Lemma sub_json_closing (w wc : text) :
  all_space w = true ->
  all_space wc = true ->
  Re.sub_from fence_json O (w ++ str "```" ++ wc) = w ++ str "```" ++ wc.
Proof.
  intros Hw Hc. unfold fence_json, Re.lits. cbn [str list_ascii_of_string map app].
  rewrite sub_from_heads by exact (spaces_not_fence w Hw). f_equal.
  assert (Hwc : Re.sub_from fence_json O wc = wc).
  { rewrite <- (app_nil_r wc) at 1. unfold fence_json, Re.lits.
    cbn [str list_ascii_of_string map app].
    rewrite sub_from_heads by exact (spaces_not_fence wc Hc). cbn. apply app_nil_r. }
  unfold fence_json, Re.lits in Hwc. cbn [str list_ascii_of_string map app] in Hwc.
  destruct wc as [|h wc]; [reflexivity|].
  cbn in Hc. apply andb_true_iff in Hc. destruct Hc as [Hh _].
  destruct (space_not_fence h Hh) as [H1 H2].
  cbn [Re.sub_from Re.match_here Ascii.eqb Bool.eqb option_map andb]. rewrite H1, H2.
  cbn [option_map]. cbn [Re.sub_from Re.match_here] in Hwc. rewrite H1 in Hwc.
  rewrite Hwc. reflexivity.
Qed.

(** White space stays when the closing fence is removed. *)
Lemma sub_end_spaces (w : text) :
  all_space w = true -> Re.sub_from fence_end O w = w.
Proof.
  intros Hw. rewrite <- (app_nil_r w) at 1. unfold fence_end, Re.lits.
  cbn [str list_ascii_of_string map app].
  rewrite sub_from_heads by exact (spaces_not_fence w Hw). cbn. apply app_nil_r.
Qed.

(** The closing fence and the white space after it go. *)
Lemma sub_end_closing (w wc : text) :
  all_space w = true ->
  all_space wc = true ->
  Re.sub_from fence_end O (w ++ str "```" ++ wc) = w.
Proof.
  intros Hw Hc.
  assert (Hm : Re.match_here fence_end (str "```" ++ wc) = Some (3 + List.length wc)%nat).
  { change (Re.match_here fence_end (str "```" ++ wc))
      with (option_map S (option_map S (option_map S
              (Re.star Str.isspace (Re.match_here [Re.Eos]) wc)))).
    rewrite (star_to_end wc Hc). reflexivity. }
  assert (Hf : Re.sub_from fence_end O (str "```" ++ wc) = []).
  { change (str "```" ++ wc) with ("`"%char :: (str "``" ++ wc)) in *.
    cbn [Re.sub_from]. rewrite Hm.
    change (3 + List.length wc)%nat with (S (List.length (str "``" ++ wc))).
    cbv iota. rewrite <- (app_nil_r (str "``" ++ wc)) at 2.
    exact (sub_from_skip fence_end (str "``" ++ wc) []). }
  revert Hf. unfold fence_end, Re.lits. cbn [str list_ascii_of_string map app]. intros Hf.
  rewrite sub_from_heads by exact (spaces_not_fence w Hw).
  rewrite Hf. apply app_nil_r.
Qed.

(** Cleaning a text that ends, before white space, with a character [c]
    that ends a JSON value: the fence around it changes nothing. *)
Lemma clean_fenced (y : text) (c : ascii) (w2 wa wb wc : text) :
  ender c = true ->
  all_space w2 = true ->
  all_space wa = true ->
  all_space wb = true ->
  all_space wc = true ->
  _clean_response_text (fenced wa wb wc (y ++ c :: w2))
  = _clean_response_text (y ++ c :: w2).
Proof.
  intros Hc H2 Ha Hb Hcl.
  destruct (ender_props c Hc) as [Hsp [Hnl [Hbt [Hj He]]]].
  destruct (lstrip_split y) as [w1 [Hy H1]].
  destruct (sub_from_barrier c fence_json Hj (Str.lstrip y) O (Nat.le_0_l _)) as [P HP].
  assert (Hhead : forall z, match Str.lstrip y ++ c :: z with
                            | [] => True
                            | h :: _ => Str.isspace h = false
                            end).
  { intros z. pose proof (lstrip_head y) as Hh.
    destruct (Str.lstrip y); [exact Hsp|exact Hh]. }
  unfold _clean_response_text.
  (* the fenced text *)
  assert (L : Re.sub fence_end (Re.sub fence_json (fenced wa wb wc (y ++ c :: w2)))
              = P ++ c :: (w2 ++ wb)).
  { unfold fenced. rewrite Hy at 1.
    replace (str "```json" ++ wa ++ ((w1 ++ Str.lstrip y) ++ c :: w2) ++ wb ++ str "```" ++ wc)
      with (str "```json" ++ (wa ++ w1)
            ++ (Str.lstrip y ++ c :: ((w2 ++ wb) ++ str "```" ++ wc)))
      by (rewrite <- !app_assoc; reflexivity).
    rewrite sub_json_opening by (first [apply all_space_app; assumption | apply Hhead]).
    unfold Re.sub. rewrite HP.
    rewrite sub_json_closing by (first [apply all_space_app; assumption | assumption]).
    rewrite fence_end_split, (sub_from_anchored c Hnl fence_end_body [] He).
    rewrite <- fence_end_split.
    rewrite sub_end_closing by (first [apply all_space_app; assumption | assumption]).
    reflexivity. }
  (* the bare text *)
  assert (R : Re.sub fence_end (Re.sub fence_json (y ++ c :: w2))
              = (w1 ++ P) ++ c :: w2).
  { rewrite Hy at 1. rewrite <- app_assoc. unfold Re.sub.
    assert (Hs : Re.sub_from fence_json O (w1 ++ Str.lstrip y ++ c :: w2)
                 = w1 ++ Re.sub_from fence_json O (Str.lstrip y ++ c :: w2)).
    { unfold fence_json, Re.lits. cbn [str list_ascii_of_string map app].
      apply sub_from_heads. exact (spaces_not_fence w1 H1). }
    rewrite Hs, HP.
    assert (Hw2 : Re.sub_from fence_json O w2 = w2).
    { rewrite <- (app_nil_r w2) at 1. unfold fence_json, Re.lits.
      cbn [str list_ascii_of_string map app].
      rewrite sub_from_heads by exact (spaces_not_fence w2 H2). cbn. apply app_nil_r. }
    rewrite Hw2.
    replace (w1 ++ P ++ c :: w2) with ((w1 ++ P) ++ c :: w2)
      by (rewrite <- app_assoc; reflexivity).
    rewrite fence_end_split, (sub_from_anchored c Hnl fence_end_body [] He).
    rewrite <- fence_end_split. rewrite sub_end_spaces by exact H2. reflexivity. }
  rewrite L, R.
  replace (P ++ c :: w2 ++ wb) with ([] ++ (P ++ [c]) ++ (w2 ++ wb))
    by (cbn; rewrite <- app_assoc; reflexivity).
  replace ((w1 ++ P) ++ c :: w2) with (w1 ++ (P ++ [c]) ++ w2)
    by (rewrite <- !app_assoc; reflexivity).
  rewrite !strip_pad; first [reflexivity | assumption | apply all_space_app; assumption].
Qed.

(** ** The last character of a JSON text *)

Lemma ends_last (p : text) (c : ascii) (rest : text) :
  ender c = true -> ends (p ++ c :: rest) rest.
Proof. intros H. exists p, c. auto. Qed.

Lemma ends_prefix (p s rest : text) : ends s rest -> ends (p ++ s) rest.
Proof.
  intros [y [c [-> H]]]. exists (p ++ y), c. rewrite <- app_assoc. auto.
Qed.

Lemma ends_cons (h : ascii) (s rest : text) : ends s rest -> ends (h :: s) rest.
Proof. exact (ends_prefix [h] s rest). Qed.

Lemma ends_trans (a b r : text) : ends a b -> ends b r -> ends a r.
Proof.
  intros [y [c [-> _]]] H.
  replace (y ++ c :: b) with ((y ++ [c]) ++ b) by (rewrite <- app_assoc; reflexivity).
  apply ends_prefix. exact H.
Qed.

Lemma digit_ender (c : ascii) : Json.is_digit c = true -> ender c = true.
Proof. intros H. unfold ender. rewrite H. reflexivity. Qed.

Lemma ends_digits (p d rest : text) :
  d <> [] -> forallb Json.is_digit d = true -> ends (p ++ d ++ rest) rest.
Proof.
  intros Hne Hd. destruct (exists_last Hne) as [d' [c ->]].
  rewrite forallb_app in Hd. apply andb_true_iff in Hd. destruct Hd as [_ Hc].
  cbn in Hc. rewrite andb_true_r in Hc.
  rewrite <- app_assoc, app_assoc. cbn. apply ends_last. apply digit_ender. exact Hc.
Qed.

Lemma skip_ws_split (s : text) : exists p, s = p ++ Json.skip_ws s.
Proof.
  induction s as [|h s [p E]]; [exists []; reflexivity|].
  cbn. destruct (Json.is_ws h).
  - exists (h :: p). cbn. f_equal. exact E.
  - exists []. reflexivity.
Qed.

Lemma ends_skip_ws (s rest : text) : ends (Json.skip_ws s) rest -> ends s rest.
Proof.
  intros H. destruct (skip_ws_split s) as [p E]. rewrite E. apply ends_prefix. exact H.
Qed.

Lemma ws_is_space (h : ascii) : Json.is_ws h = true -> Str.isspace h = true.
Proof.
  unfold Json.is_ws. intros H.
  repeat (apply orb_true_iff in H; destruct H as [H|H]);
    apply Ascii.eqb_eq in H; subst; reflexivity.
Qed.

Lemma skip_ws_nil (r : text) : Json.skip_ws r = [] -> all_space r = true.
Proof.
  induction r as [|h r IH]; [reflexivity|].
  cbn. destruct (Json.is_ws h) eqn:Hh; [|discriminate].
  intros H. rewrite (ws_is_space h Hh). exact (IH H).
Qed.

Lemma span_digits_spec (s d r : text) :
  Json.span_digits s = (d, r) -> s = d ++ r /\ forallb Json.is_digit d = true.
Proof.
  revert d r. induction s as [|h s IH]; intros d r H.
  - inversion H. split; reflexivity.
  - cbn in H. destruct (Json.is_digit h) eqn:Hh.
    + destruct (Json.span_digits s) as [d' r'] eqn:E. inversion H; subst.
      destruct (IH d' r eq_refl) as [-> Hd]. cbn. rewrite Hh. split; [reflexivity|exact Hd].
    + inversion H. split; reflexivity.
Qed.

Lemma expect_spec (c : ascii) (s r : text) : Json.expect c s = Some r -> s = c :: r.
Proof.
  destruct s as [|h s]; [discriminate|]. cbn.
  destruct (Ascii.eqb_spec h c); [|discriminate]. intros H. inversion H. subst. reflexivity.
Qed.

Lemma startswith_split (s p : text) :
  Str.startswith s p = true -> s = p ++ skipn (List.length p) s.
Proof.
  revert s. induction p as [|a p IH]; intros s H; [reflexivity|].
  destruct s as [|b s]; [discriminate|]. cbn in H. apply andb_true_iff in H.
  destruct H as [E H]. apply Ascii.eqb_eq in E. subst. cbn. f_equal. exact (IH _ H).
Qed.

Lemma strip_prefix_spec (p : string) (s r : text) :
  Json.strip_prefix p s = Some r -> s = str p ++ r.
Proof.
  unfold Json.strip_prefix. destruct (Str.startswith s (str p)) eqn:E; [|discriminate].
  intros H. inversion H. exact (startswith_split _ _ E).
Qed.

(** A string literal ends with its closing quote. *)
Lemma scan_pieces_ends (s : text) :
  forall ps r, Json.scan_pieces s = Some (ps, r) -> exists p, s = p ++ dquote :: r.
Proof.
  remember (List.length s) as n eqn:Hn. revert s Hn.
  induction n as [n IHn] using lt_wf_ind. intros s Hn.
  assert (IH : forall s', (List.length s' < List.length s)%nat ->
               forall ps r, Json.scan_pieces s' = Some (ps, r) ->
               exists p, s' = p ++ dquote :: r).
  { intros s' Hlt. apply (IHn (List.length s')); [lia|reflexivity]. }
  clear IHn Hn n.
  intros ps r. destruct s as [|c s]; [discriminate|]. cbn [Json.scan_pieces].
  destruct (Ascii.eqb_spec c dquote) as [->|_].
  { intros H. inversion H. exists []. reflexivity. }
  destruct (Ascii.eqb c "\").
  - destruct s as [|e s]; [discriminate|].
    destruct (Ascii.eqb e "u").
    + destruct s as [|h1 [|h2 [|h3 [|h4 s]]]]; try discriminate.
      destruct (Json.hex4 h1 h2 h3 h4); [|discriminate].
      destruct (Json.scan_pieces s) as [[ps' r']|] eqn:E; [|discriminate].
      intros H. inversion H; subst.
      destruct (IH s ltac:(cbn; lia) _ _ E) as [p ->].
      exists (c :: e :: h1 :: h2 :: h3 :: h4 :: p). reflexivity.
    + destruct (Json.simple_escape e); [|discriminate].
      destruct (Json.scan_pieces s) as [[ps' r']|] eqn:E; [|discriminate].
      intros H. inversion H; subst.
      destruct (IH s ltac:(cbn; lia) _ _ E) as [p ->].
      exists (c :: e :: p). reflexivity.
  - destruct (Str.code c <? 32); [discriminate|].
    destruct (Json.scan_pieces s) as [[ps' r']|] eqn:E; [|discriminate].
    intros H. inversion H; subst.
    destruct (IH s ltac:(cbn; lia) _ _ E) as [p ->].
    exists (c :: p). reflexivity.
Qed.

Lemma dquote_ender : ender dquote = true.
Proof. reflexivity. Qed.

Lemma scan_string_ends (s x r : text) :
  Json.scan_string s = Some (x, r) -> ends s r.
Proof.
  unfold Json.scan_string. destruct (Json.scan_pieces s) as [[ps r']|] eqn:E; [|discriminate].
  intros H. inversion H; subst. destruct (scan_pieces_ends _ _ _ E) as [p ->].
  apply ends_last. exact dquote_ender.
Qed.

Lemma scan_int_part_ends (s ip r : text) :
  Json.scan_int_part s = Some (ip, r) -> ends s r.
Proof.
  unfold Json.scan_int_part. destruct s as [|c s]; [discriminate|].
  destruct (Ascii.eqb_spec c "0") as [->|_].
  - intros H. inversion H. apply (ends_last [] "0"%char). reflexivity.
  - destruct (Json.is_digit c) eqn:Hc; [|discriminate].
    destruct (Json.span_digits s) as [d r'] eqn:E. intros H. inversion H; subst.
    destruct (span_digits_spec _ _ _ E) as [-> Hd].
    apply (ends_digits [] (c :: d) r); [discriminate|]. cbn. rewrite Hc. exact Hd.
Qed.

Lemma scan_frac_ends (s fp r : text) :
  Json.scan_frac s = (fp, r) -> r = s \/ ends s r.
Proof.
  unfold Json.scan_frac. destruct s as [|c s]; [intros H; inversion H; auto|].
  destruct (Ascii.eqb c "."); [|intros H; inversion H; auto].
  destruct (Json.span_digits s) as [[|h d] r'] eqn:E; intros H; inversion H; subst; auto.
  right. destruct (span_digits_spec _ _ _ E) as [-> Hd].
  apply (ends_digits [c] (h :: d) r); [discriminate|exact Hd].
Qed.

Lemma scan_exp_ends (s : text) (b : bool) (e : Z) (r : text) :
  Json.scan_exp s = (b, e, r) -> r = s \/ ends s r.
Proof.
  unfold Json.scan_exp. destruct s as [|c s]; [intros H; inversion H; auto|].
  destruct (Ascii.eqb c "e" || Ascii.eqb c "E"); [|intros H; inversion H; auto].
  assert (Hs : forall neg s'',
             (exists q, s = q ++ s'') ->
             match Json.span_digits s'' with
             | ([], _) => (false, 0, c :: s)
             | (d, r0) =>
                 (true, if neg : bool then - Json.Z_of_digits d
                        else Json.Z_of_digits d, r0)
             end = (b, e, r) -> r = c :: s \/ ends (c :: s) r).
  { intros neg s'' [q ->].
    destruct (Json.span_digits s'') as [[|h d] r'] eqn:E; intros H; inversion H; subst; auto.
    right. destruct (span_digits_spec _ _ _ E) as [-> Hd].
    apply (ends_digits (c :: q) (h :: d) r); [discriminate|exact Hd]. }
  destruct s as [|g t].
  - intros H. exact (Hs false [] (ex_intro _ [] eq_refl) H).
  - destruct (Ascii.eqb g "-");
      [intros H; exact (Hs true t (ex_intro _ [g] eq_refl) H)|].
    destruct (Ascii.eqb g "+");
      [intros H; exact (Hs false t (ex_intro _ [g] eq_refl) H)|].
    intros H. exact (Hs false (g :: t) (ex_intro _ [] eq_refl) H).
Qed.

(** A number ends with a digit. *)
Lemma scan_number_ends (s : text) (v : json) (r : text) :
  Json.scan_number s = Some (v, r) -> ends s r.
Proof.
  unfold Json.scan_number.
  assert (Hs : forall neg s1,
             match Json.scan_int_part s1 with
             | Some (ip, s2) =>
                 let (fp, s3) := Json.scan_frac s2 in
                 let '(has_exp, ex, s4) := Json.scan_exp s3 in
                 let sign := if neg : bool then -1 else 1 in
                 match fp, has_exp with
                 | [], false => Some (JInt (sign * Json.Z_of_digits ip), s4)
                 | _, _ =>
                     Some (JFloat (dec (sign * Json.Z_of_digits (ip ++ fp))
                                     (ex - Z.of_nat (List.length fp))), s4)
                 end
             | None => None
             end = Some (v, r) -> ends s1 r).
  { intros neg s1. destruct (Json.scan_int_part s1) as [[ip s2]|] eqn:Ei; [|discriminate].
    destruct (Json.scan_frac s2) as [fp s3] eqn:Ef.
    destruct (Json.scan_exp s3) as [[has_exp ex] s4] eqn:Ee.
    intros H. assert (r = s4) as -> by (destruct fp, has_exp; inversion H; reflexivity).
    pose proof (scan_int_part_ends _ _ _ Ei) as H1.
    destruct (scan_frac_ends _ _ _ Ef) as [->|H2];
      destruct (scan_exp_ends _ _ _ _ Ee) as [->|H3]; eauto using ends_trans. }
  destruct s as [|c s]; [intros H; exact (Hs false [] H)|].
  destruct (Ascii.eqb c "-").
  - intros H. apply ends_cons. exact (Hs true s H).
  - intros H. exact (Hs false (c :: s) H).
Qed.

(** Every value that the scanner reads ends with a character of [ender]. *)
Lemma scan_ends (fuel : nat) :
  (forall s v r, Json.scan_once fuel s = Some (v, r) -> ends s r)
  /\ (forall acc s v r, Json.scan_members fuel acc s = Some (v, r) -> ends s r)
  /\ (forall acc s v r, Json.scan_elements fuel acc s = Some (v, r) -> ends s r).
Proof.
  induction fuel as [|fuel [IHo [IHm IHe]]]; [repeat split; discriminate|].
  split; [|split].
  - intros s v r. cbn [Json.scan_once]. destruct s as [|c s]; [discriminate|].
    destruct (Ascii.eqb c dquote).
    { destruct (Json.scan_string s) as [[x r']|] eqn:E; [|discriminate].
      intros H. inversion H; subst. apply ends_cons. exact (scan_string_ends _ _ _ E). }
    destruct (Ascii.eqb c "{").
    { destruct (Json.expect "}" (Json.skip_ws s)) as [r'|] eqn:E.
      - intros H. inversion H; subst. apply ends_cons, ends_skip_ws.
        rewrite (expect_spec _ _ _ E). apply (ends_last [] "}"%char). reflexivity.
      - intros H. apply ends_cons, ends_skip_ws. exact (IHm _ _ _ _ H). }
    destruct (Ascii.eqb c "[").
    { destruct (Json.expect "]" (Json.skip_ws s)) as [r'|] eqn:E.
      - intros H. inversion H; subst. apply ends_cons, ends_skip_ws.
        rewrite (expect_spec _ _ _ E). apply (ends_last [] "]"%char). reflexivity.
      - intros H. apply ends_cons, ends_skip_ws. exact (IHe _ _ _ _ H). }
    destruct (Json.strip_prefix "null" (c :: s)) as [r1|] eqn:E1.
    { intros H. inversion H; subst. rewrite (strip_prefix_spec _ _ _ E1).
      apply (ends_last (str "nul") "l"%char). reflexivity. }
    destruct (Json.strip_prefix "true" (c :: s)) as [r2|] eqn:E2.
    { intros H. inversion H; subst. rewrite (strip_prefix_spec _ _ _ E2).
      apply (ends_last (str "tru") "e"%char). reflexivity. }
    destruct (Json.strip_prefix "false" (c :: s)) as [r3|] eqn:E3.
    { intros H. inversion H; subst. rewrite (strip_prefix_spec _ _ _ E3).
      apply (ends_last (str "fals") "e"%char). reflexivity. }
    destruct (Json.scan_number (c :: s)) as [[v' r']|] eqn:En.
    { intros H. inversion H; subst. exact (scan_number_ends _ _ _ En). }
    destruct (Json.strip_prefix "NaN" (c :: s)) as [r4|] eqn:E4.
    { intros H. inversion H; subst. rewrite (strip_prefix_spec _ _ _ E4).
      apply (ends_last (str "Na") "N"%char). reflexivity. }
    destruct (Json.strip_prefix "Infinity" (c :: s)) as [r5|] eqn:E5.
    { intros H. inversion H; subst. rewrite (strip_prefix_spec _ _ _ E5).
      apply (ends_last (str "Infinit") "y"%char). reflexivity. }
    destruct (Json.strip_prefix "-Infinity" (c :: s)) as [r6|] eqn:E6; [|discriminate].
    intros H. inversion H; subst. rewrite (strip_prefix_spec _ _ _ E6).
    apply (ends_last (str "-Infinit") "y"%char). reflexivity.
  - intros acc s v r. cbn [Json.scan_members].
    destruct (Json.expect dquote s) as [s1|] eqn:E0; [|discriminate].
    destruct (Json.scan_string s1) as [[k s2]|] eqn:E1; [|discriminate].
    destruct (Json.expect ":" (Json.skip_ws s2)) as [s3|] eqn:E2; [|discriminate].
    destruct (Json.scan_once fuel (Json.skip_ws s3)) as [[v' s4]|] eqn:E3; [|discriminate].
    intros H.
    assert (Hr : ends s4 r).
    { destruct (Json.expect "}" (Json.skip_ws s4)) as [r'|] eqn:E4.
      - inversion H; subst. apply ends_skip_ws. rewrite (expect_spec _ _ _ E4).
        apply (ends_last [] "}"%char). reflexivity.
      - destruct (Json.expect "," (Json.skip_ws s4)) as [s5|] eqn:E5; [|discriminate].
        apply ends_skip_ws. rewrite (expect_spec _ _ _ E5). apply ends_cons, ends_skip_ws.
        exact (IHm _ _ _ _ H). }
    rewrite (expect_spec _ _ _ E0). apply ends_cons.
    apply (ends_trans _ _ _ (scan_string_ends _ _ _ E1)).
    apply ends_skip_ws. rewrite (expect_spec _ _ _ E2). apply ends_cons, ends_skip_ws.
    exact (ends_trans _ _ _ (IHo _ _ _ E3) Hr).
  - intros acc s v r. cbn [Json.scan_elements].
    destruct (Json.scan_once fuel s) as [[v' s1]|] eqn:E0; [|discriminate].
    intros H. apply (ends_trans _ _ _ (IHo _ _ _ E0)).
    destruct (Json.expect "]" (Json.skip_ws s1)) as [r'|] eqn:E1.
    + inversion H; subst. apply ends_skip_ws. rewrite (expect_spec _ _ _ E1).
      apply (ends_last [] "]"%char). reflexivity.
    + destruct (Json.expect "," (Json.skip_ws s1)) as [s2|] eqn:E2; [|discriminate].
      apply ends_skip_ws. rewrite (expect_spec _ _ _ E2). apply ends_cons, ends_skip_ws.
      exact (IHe _ _ _ _ H).
Qed.

Lemma ends_length (s r : text) : ends s r -> (List.length r < List.length s)%nat.
Proof.
  intros [y [c [-> _]]]. rewrite length_app. cbn. lia.
Qed.

Lemma skip_ws_length (s : text) : (List.length (Json.skip_ws s) <= List.length s)%nat.
Proof.
  destruct (skip_ws_split s) as [p E]. rewrite E at 2. rewrite length_app. lia.
Qed.

Lemma expect_length (c : ascii) (s r : text) :
  Json.expect c s = Some r -> List.length s = S (List.length r).
Proof. intros H. rewrite (expect_spec _ _ _ H). reflexivity. Qed.

(** The fuel of [json.loads] is enough: from twice the length of the text
    on, more fuel changes nothing. *)
Lemma scan_fuel (f : nat) :
  (forall s, (2 * List.length s + 1 <= f)%nat ->
             Json.scan_once (S f) s = Json.scan_once f s)
  /\ (forall acc s, (2 * List.length s + 1 <= f)%nat ->
                    Json.scan_members (S f) acc s = Json.scan_members f acc s)
  /\ (forall acc s, (2 * List.length s + 2 <= f)%nat ->
                    Json.scan_elements (S f) acc s = Json.scan_elements f acc s).
Proof.
  induction f as [|f [IHo [IHm IHe]]]; [repeat split; intros; lia|].
  split; [|split].
  - intros s Hf. destruct s as [|c s]; [reflexivity|]. cbn [List.length] in Hf.
    pose proof (skip_ws_length s) as Hw.
    cbn [Json.scan_once].
    destruct (Ascii.eqb c dquote); [reflexivity|].
    destruct (Ascii.eqb c "{"); [rewrite IHm by lia; reflexivity|].
    destruct (Ascii.eqb c "["); [rewrite IHe by lia; reflexivity|].
    reflexivity.
  - intros acc s Hf. cbn [Json.scan_members].
    destruct (Json.expect dquote s) as [s1|] eqn:E0; [|reflexivity].
    destruct (Json.scan_string s1) as [[k s2]|] eqn:E1; [|reflexivity].
    destruct (Json.expect ":" (Json.skip_ws s2)) as [s3|] eqn:E2; [|reflexivity].
    pose proof (expect_length _ _ _ E0) as L0.
    pose proof (ends_length _ _ (scan_string_ends _ _ _ E1)) as L1.
    pose proof (expect_length _ _ _ E2) as L2.
    pose proof (skip_ws_length s2) as W2. pose proof (skip_ws_length s3) as W3.
    rewrite IHo by lia.
    destruct (Json.scan_once f (Json.skip_ws s3)) as [[v s4]|] eqn:E3; [|reflexivity].
    destruct (Json.expect "}" (Json.skip_ws s4)); [reflexivity|].
    destruct (Json.expect "," (Json.skip_ws s4)) as [s5|] eqn:E5; [|reflexivity].
    pose proof (ends_length _ _ (proj1 (scan_ends _) _ _ _ E3)) as L3.
    pose proof (expect_length _ _ _ E5) as L5.
    pose proof (skip_ws_length s4) as W4. pose proof (skip_ws_length s5) as W5.
    apply IHm. lia.
  - intros acc s Hf. cbn [Json.scan_elements].
    rewrite IHo by lia.
    destruct (Json.scan_once f s) as [[v s1]|] eqn:E0; [|reflexivity].
    destruct (Json.expect "]" (Json.skip_ws s1)); [reflexivity|].
    destruct (Json.expect "," (Json.skip_ws s1)) as [s2|] eqn:E2; [|reflexivity].
    pose proof (ends_length _ _ (proj1 (scan_ends _) _ _ _ E0)) as L0.
    pose proof (expect_length _ _ _ E2) as L2.
    pose proof (skip_ws_length s1) as W1. pose proof (skip_ws_length s2) as W2.
    apply IHe. lia.
Qed.

Lemma loads_fuel (t : text) (extra : nat) :
  Json.scan_once (extra + (2 * List.length t + 2)) (Json.skip_ws t)
  = Json.scan_once (2 * List.length t + 2) (Json.skip_ws t).
Proof.
  induction extra as [|extra IH]; [reflexivity|].
  cbn [Nat.add]. rewrite (proj1 (scan_fuel _)); [exact IH|].
  pose proof (skip_ws_length t). lia.
Qed.

(** A text that [json.loads] accepts is white space after a character of
    [ender]. *)
Lemma loads_ends (t : text) (v : json) :
  Json.loads t = Some v ->
  exists y c w, t = y ++ c :: w /\ ender c = true /\ all_space w = true.
Proof.
  unfold Json.loads.
  destruct (Json.scan_once _ (Json.skip_ws t)) as [[v' rest]|] eqn:E; [|discriminate].
  destruct (Json.skip_ws rest) eqn:Er; [|discriminate]. intros _.
  destruct (proj1 (scan_ends _) _ _ _ E) as [y [c [Hy Hc]]].
  destruct (skip_ws_split t) as [p Hp].
  exists (p ++ y), c, rest. split; [|split].
  - rewrite Hp at 1. rewrite Hy, <- app_assoc. reflexivity.
  - exact Hc.
  - exact (skip_ws_nil _ Er).
Qed.

(** C8. For every text [t] that [json.loads] accepts, [t] between an
    opening [```json] fence and a closing [```] fence, with any white space
    after the opening fence, before the closing fence and after it, decodes
    as [t] does: to the same result or the same error. *)
Theorem C8_fence_is_transparent (t wa wb wc lang : text) (v : json) :
  Json.loads t = Some v ->
  all_space wa = true ->
  all_space wb = true ->
  all_space wc = true ->
  _clean_response_text (fenced wa wb wc t) = _clean_response_text t
  /\ _parse_api_response (fenced wa wb wc t) lang = _parse_api_response t lang.
Proof.
  intros Hl Ha Hb Hc.
  destruct (loads_ends t v Hl) as [y [c [w [-> [Hend Hw]]]]].
  assert (E : _clean_response_text (fenced wa wb wc (y ++ c :: w))
              = _clean_response_text (y ++ c :: w))
    by exact (clean_fenced y c w wa wb wc Hend Hw Ha Hb Hc).
  split; [exact E|]. unfold _parse_api_response. rewrite E. reflexivity.
Qed.

Lemma C8_fence_is_transparent_witness :
  _clean_response_text (fenced newline newline [] (txt "{'sentiment_score': 4}"))
  = _clean_response_text (txt "{'sentiment_score': 4}")
  /\ _parse_api_response (fenced newline newline [] (txt "{'sentiment_score': 4}")) (str "auto")
     = _parse_api_response (txt "{'sentiment_score': 4}") (str "auto").
Proof.
  apply (C8_fence_is_transparent (txt "{'sentiment_score': 4}") newline newline []
           (str "auto") (JObject [(str "sentiment_score", JInt 4)]));
    vm_compute; reflexivity.
Defined.

(** The fence on a reply that is not JSON can change the result: here the
    bare text loses its three backquotes and the fenced text keeps them. *)
Example fence_on_other_text :
  _clean_response_text (str "abc```") = str "abc"
  /\ _clean_response_text (fenced newline newline [] (str "abc```")) = str "abc```".
Proof. vm_compute. split; reflexivity. Qed.

(** ** The loop under any budget *)

Lemma attempt_body_retryable server max_retries attempt w msg :
  retryable (server (posts w)) msg ->
  attempt_body server max_retries attempt w
  = (if attempt =? max_retries - 1
     then Raise (GeminiAPIError (failed_after max_retries msg))
     else Ok Continue,
     after_post attempt w).
Proof.
  intros [H|[H|[[r [H [H2 [H4 ->]]]]|[r [d [H [Hc [Hj He]]]]]]]].
  - rewrite (attempt_body_raise _ _ _ _ _ H). unfold attempt_except, raise, ret, failed_after.
    destruct (attempt =? max_retries - 1); reflexivity.
  - rewrite (attempt_body_raise _ _ _ _ _ H). unfold attempt_except, raise, ret, failed_after.
    destruct (attempt =? max_retries - 1); reflexivity.
  - rewrite (attempt_body_response _ _ _ _ _ H).
    unfold try_except, on_response, raise.
    replace (status_code r =? 429) with false by (symmetry; apply Z.eqb_neq; exact H4).
    replace (status_code r =? 200) with false by (symmetry; apply Z.eqb_neq; exact H2).
    cbn [negb]. unfold attempt_except, raise, ret, failed_after, status_msg.
    destruct (attempt =? max_retries - 1); reflexivity.
  - exact (attempt_body_envelope_error _ _ _ _ _ _ _ H Hc Hj He).
Qed.

Lemma posts_after_post attempt w : posts (after_post attempt w) = S (posts w).
Proof. unfold after_post. destruct (attempt >? 0); reflexivity. Qed.

Lemma after_attempts_posts a k w : posts (after_attempts a k w) = (posts w + k)%nat.
Proof.
  unfold after_attempts. revert a w. induction k as [|k IH]; intros a w; cbn; [lia|].
  rewrite IH, posts_after_post. lia.
Qed.

Lemma after_attempts_log a k w :
  log (after_attempts a k w)
  = log w ++ flat_map (fun i => (if Z.of_nat i >? 0
                                 then [Sleep (Z.min (2 ^ Z.of_nat i) 60)] else [])
                                ++ [Post]) (seq a k).
Proof.
  unfold after_attempts. revert a w. induction k as [|k IH]; intros a w; cbn [seq fold_left flat_map].
  - rewrite app_nil_r. reflexivity.
  - rewrite IH. unfold after_post. destruct (Z.of_nat a >? 0); cbn [log];
      rewrite <- ?app_assoc; reflexivity.
Qed.

Lemma after_attempts_start (n : nat) :
  after_attempts 0 n start = {| posts := n; log := backoff_log n |}.
Proof.
  pose proof (after_attempts_posts 0 n start) as Hp.
  pose proof (after_attempts_log 0 n start) as Hl.
  destruct (after_attempts 0 n start) as [p l]. cbn in Hp, Hl. subst. f_equal.
  destruct n as [|m]; [reflexivity|]. cbn [seq flat_map backoff_log]. cbn. f_equal.
  rewrite !flat_map_concat_map. f_equal. apply map_ext_in. intros i Hi. apply in_seq in Hi.
  replace (Z.of_nat i >? 0) with true; [reflexivity|].
  symmetry. apply Z.gtb_lt. lia.
Qed.

(** The attempts before the last one that fail in a way the loop takes as a
    reason to try again only move the world on. *)
Lemma for_attempts_failures server (n : nat) (msgs : nat -> text) (rest : list Z) :
  forall j a w,
    posts w = a ->
    (forall i, (a <= i < a + j)%nat -> retryable (server i) (msgs i)) ->
    (a + j < n)%nat ->
    for_attempts server (Z.of_nat n) (map Z.of_nat (seq a j) ++ rest) w
    = for_attempts server (Z.of_nat n) rest (after_attempts a j w).
Proof.
  induction j as [|j IH]; intros a w Hw Hf Hn; [reflexivity|].
  cbn [seq map app for_attempts].
  assert (Hr : retryable (server (posts w)) (msgs a)) by (rewrite Hw; apply Hf; lia).
  rewrite (attempt_body_retryable _ _ _ _ _ Hr).
  replace (Z.of_nat a =? Z.of_nat n - 1) with false by (symmetry; apply Z.eqb_neq; lia).
  rewrite (IH (S a) (after_post (Z.of_nat a) w)).
  - reflexivity.
  - rewrite posts_after_post, Hw. reflexivity.
  - intros i Hi. apply Hf. lia.
  - lia.
Qed.

Lemma range_of_nat (n : nat) : range (Z.of_nat n) = map Z.of_nat (seq 0 n).
Proof. unfold range. rewrite Nat2Z.id. reflexivity. Qed.

(** The loop when every call of the budget fails in a way that it retries. *)
Lemma make_api_request_exhausted (server : nat -> result Response) (n : nat) (msgs : nat -> text) :
  (1 <= n)%nat ->
  (forall i, (i < n)%nat -> retryable (server i) (msgs i)) ->
  _make_api_request server (Z.of_nat n) start
  = (Raise (GeminiAPIError (failed_after (Z.of_nat n) (msgs (n - 1)%nat))),
     {| posts := n; log := backoff_log n |}).
Proof.
  intros Hn Hf. unfold _make_api_request. rewrite range_of_nat.
  replace n with ((n - 1) + 1)%nat at 2 by lia. rewrite seq_app, map_app. cbn [seq map Nat.add].
  rewrite (for_attempts_failures server n msgs _ (n - 1) 0 start eq_refl) by
    (first [lia | intros i Hi; apply Hf; lia]).
  cbn [for_attempts].
  assert (Hr : retryable (server (posts (after_attempts 0 (n - 1) start))) (msgs (n - 1)%nat)).
  { rewrite after_attempts_posts. cbn. apply Hf. lia. }
  rewrite (attempt_body_retryable _ _ _ _ _ Hr).
  replace (Z.of_nat (n - 1) =? Z.of_nat n - 1) with true by (symmetry; apply Z.eqb_eq; lia).
  f_equal.
  change (after_post (Z.of_nat (n - 1)) (after_attempts 0 (n - 1) start))
    with (fold_left (fun w i => after_post (Z.of_nat i) w) [(n - 1)%nat]
            (after_attempts 0 (n - 1) start)).
  unfold after_attempts at 1. rewrite <- fold_left_app.
  change [(n - 1)%nat] with (seq (0 + (n - 1)) 1). rewrite <- seq_app.
  replace (n - 1 + 1)%nat with n by lia. exact (after_attempts_start n).
Qed.

(** X1. Whatever the budget [n >= 1], when every call fails in a way the
    loop takes as a reason to try again (a timeout, a connection error, a
    status other than 200 and 429, a broken envelope), the loop makes exactly
    [n] calls, pauses only for the backoff, [min(2^a, 60)] seconds before
    the attempt of rank [a >= 1], and then raises the error that carries [n]
    and the message of the last failure. *)
Theorem X1_budget_exhausted (server : nat -> result Response) (n : nat) (msgs : nat -> text) :
  (1 <= n)%nat ->
  (forall i, (i < n)%nat -> retryable (server i) (msgs i)) ->
  _make_api_request server (Z.of_nat n) start
  = (Raise (GeminiAPIError (failed_after (Z.of_nat n) (msgs (n - 1)%nat))),
     {| posts := n; log := backoff_log n |}).
Proof.
  exact (make_api_request_exhausted server n msgs).
Qed.

Lemma X1_budget_exhausted_witness :
  _make_api_request always_500 (Z.of_nat 4) start
  = (Raise (GeminiAPIError
              (failed_after (Z.of_nat 4) (str "API returned status 500: overloaded"))),
     {| posts := 4; log := [Post; Sleep 2; Post; Sleep 4; Post; Sleep 8; Post] |}).
Proof.
  apply (X1_budget_exhausted always_500 4 (fun _ => str "API returned status 500: overloaded")).
  - lia.
  - intros i _. right; right; left.
    exists {| status_code := 500; headers := []; body := str "overloaded" |}.
    repeat split; discriminate.
Defined.

Lemma extract_text_truthy (d t : json) : extract_text d = Ok t -> Py.truthy t = true.
Proof.
  unfold extract_text, bind.
  repeat match goal with
  | |- context [match ?x with _ => _ end] => destruct x eqn:?
  end; intros H; try discriminate H.
  inversion H; subst.
  match goal with
  | E : negb (Py.truthy t) = false |- _ => apply negb_false_iff in E; exact E
  end.
Qed.

(** X2. When the calls of ranks below [k] fail in a way the loop takes as a
    reason to try again and the call of rank [k] (within the budget) gets a
    200 with a valid envelope, the loop returns the text of the envelope,
    which is not empty, after exactly [k + 1] calls and the pauses of the
    backoff alone; later calls are not made. *)
Theorem X2_success_after_failures
  (server : nat -> result Response) (n k : nat) (msgs : nat -> text)
  (r : Response) (d t : json) :
  (k < n)%nat ->
  (forall i, (i < k)%nat -> retryable (server i) (msgs i)) ->
  server k = Ok r ->
  status_code r = 200 ->
  response_json r = Ok d ->
  extract_text d = Ok t ->
  _make_api_request server (Z.of_nat n) start
  = (Ok t, {| posts := S k; log := backoff_log (S k) |})
  /\ Py.truthy t = true.
Proof.
  intros Hk Hf Hs Hc Hj He. split; [|exact (extract_text_truthy _ _ He)].
  unfold _make_api_request. rewrite range_of_nat.
  replace n with (k + (n - k))%nat at 2 by lia. rewrite seq_app, map_app.
  rewrite (for_attempts_failures server n msgs _ k 0 start eq_refl) by
    (first [lia | intros i Hi; apply Hf; lia]).
  destruct (n - k)%nat as [|m] eqn:Hm; [lia|].
  cbn [seq map for_attempts Nat.add].
  assert (Hs' : server (posts (after_attempts 0 k start)) = Ok r).
  { rewrite after_attempts_posts. exact Hs. }
  rewrite (attempt_body_success _ _ _ _ _ _ _ Hs' Hc Hj He). f_equal.
  change (after_post (Z.of_nat k) (after_attempts 0 k start))
    with (fold_left (fun w i => after_post (Z.of_nat i) w) [k] (after_attempts 0 k start)).
  unfold after_attempts at 1. rewrite <- fold_left_app.
  change [k] with (seq (0 + k) 1). rewrite <- seq_app.
  replace (k + 1)%nat with (S k) by lia. exact (after_attempts_start (S k)).
Qed.

Lemma X2_success_after_failures_witness :
  _make_api_request fails_then_ok (Z.of_nat 5) start
  = (Ok (JString (str "fine")),
     {| posts := 3; log := [Post; Sleep 2; Post; Sleep 4; Post] |})
  /\ Py.truthy (JString (str "fine")) = true.
Proof.
  apply (X2_success_after_failures fails_then_ok 5 2
           (fun i => match i with
                     | O => str "Connection refused"
                     | _ => str "API returned status 503: busy"
                     end)
           {| status_code := 200; headers := []; body := ok_body |}
           (JObject [(str "candidates",
                      JArray [JObject [(str "content",
                                        JObject [(str "parts",
                                                  JArray [JObject [(str "text", JString (str "fine"))]])]);
                                       (str "finishReason", JString (str "STOP"))]])])
           (JString (str "fine"))); try reflexivity; try lia.
  intros [|[|i]] Hi; [| |lia].
  - right; left. reflexivity.
  - right; right; left. exists {| status_code := 503; headers := []; body := str "busy" |}.
    repeat split; discriminate.
Defined.

(** The world after one attempt: one more call, and in the log the pause of
    the backoff, the call and, on a 429 with attempts left, the pause of
    [Retry-After]. *)
Lemma attempt_body_world server max_retries attempt w :
  posts (snd (attempt_body server max_retries attempt w)) = S (posts w)
  /\ exists pauses,
       log (snd (attempt_body server max_retries attempt w))
       = log (after_post attempt w) ++ pauses
       /\ count_posts pauses = O.
Proof.
  unfold attempt_body, try_except. rewrite attempt_try_unfold.
  pose proof (posts_after_post attempt w) as Hp1.
  generalize dependent (after_post attempt w). intros w1 Hp1.
  assert (Hsame : forall res : result step,
             posts (snd (res, w1)) = S (posts w)
             /\ exists pauses, log (snd (res, w1)) = log w1 ++ pauses
                               /\ count_posts pauses = O).
  { intros res. split; [exact Hp1|]. exists []. rewrite app_nil_r. auto. }
  assert (Hexc : forall e,
             posts (snd (attempt_except max_retries attempt e w1)) = S (posts w)
             /\ exists pauses, log (snd (attempt_except max_retries attempt e w1))
                               = log w1 ++ pauses
                               /\ count_posts pauses = O).
  { intros e. unfold attempt_except, raise, ret.
    destruct e; try destruct (attempt =? max_retries - 1); apply Hsame. }
  destruct (server (posts w)) as [r|e]; [|apply Hexc].
  unfold on_response, bind_io, lift, sleep, ret, raise.
  destruct (status_code r =? 429).
  - destruct (Py.int_of_text _) as [s|e]; [|apply Hexc].
    destruct (attempt <? max_retries - 1); [|apply Hexc].
    destruct ((s <? -9223372036) || (9223372036 <? s)); [apply Hexc|].
    destruct (s <? 0); [apply Hexc|].
    cbn. split; [exact Hp1|]. exists [Sleep s]. auto.
  - destruct (negb (status_code r =? 200)); [apply Hexc|].
    destruct (response_json r) as [d|e]; [|apply Hexc].
    destruct (extract_text d) as [t|e]; [apply Hsame|apply Hexc].
Qed.

Lemma count_posts_app (a b : list event) :
  count_posts (a ++ b) = (count_posts a + count_posts b)%nat.
Proof. unfold count_posts. rewrite filter_app, length_app. reflexivity. Qed.

Lemma count_posts_after_post attempt w :
  count_posts (log (after_post attempt w)) = S (count_posts (log w)).
Proof.
  unfold after_post. destruct (attempt >? 0); cbn [log]; rewrite !count_posts_app; cbn; lia.
Qed.

Lemma for_attempts_world server max_retries (attempts : list Z) :
  forall w,
    (posts (snd (for_attempts server max_retries attempts w))
     <= posts w + List.length attempts)%nat
    /\ (count_posts (log (snd (for_attempts server max_retries attempts w)))
        + posts w
        = count_posts (log w)
          + posts (snd (for_attempts server max_retries attempts w)))%nat.
Proof.
  induction attempts as [|a rest IH]; intros w.
  - cbn. split; lia.
  - cbn [for_attempts List.length].
    destruct (attempt_body_world server max_retries a w) as [Hp [pauses [Hl Hz]]].
    assert (Hc : count_posts (log (snd (attempt_body server max_retries a w)))
                 = S (count_posts (log w))).
    { rewrite Hl, count_posts_app, count_posts_after_post, Hz. lia. }
    destruct (attempt_body server max_retries a w) as [[[|t]|e] w']; cbn [snd] in *.
    + destruct (IH w') as [H1 H2]. split; lia.
    + split; lia.
    + split; lia.
Qed.

(** X3. Whatever the server does, the loop makes at most [max_retries]
    calls (none when the budget is zero or negative), and its log has
    exactly one [Post] for each call. *)
Theorem X3_calls_within_budget (server : nat -> result Response) (max_retries : Z) :
  (posts (snd (_make_api_request server max_retries start)) <= Z.to_nat max_retries)%nat
  /\ count_posts (log (snd (_make_api_request server max_retries start)))
     = posts (snd (_make_api_request server max_retries start)).
Proof.
  unfold _make_api_request.
  destruct (for_attempts_world server max_retries (range max_retries) start) as [H1 H2].
  unfold range in H1 at 2. rewrite length_map, length_seq in H1. cbn in H1, H2.
  split; lia.
Qed.

Lemma attempt_body_unhandled server max_retries attempt w e :
  unhandled (server (posts w)) e ->
  attempt_body server max_retries attempt w = (Raise e, after_post attempt w).
Proof.
  intros [r [Hs [[Hc Hj]|[Hc Hh]]]]; rewrite (attempt_body_response _ _ _ _ _ Hs);
    unfold try_except, on_response, bind_io, lift.
  - rewrite Hc, Hj. cbn. unfold response_json in Hj.
    destruct (Json.loads (body r)); inversion Hj. reflexivity.
  - rewrite Hc, Hh. cbn. rewrite (int_of_text_raises _ _ Hh). reflexivity.
Qed.

(** X4. A 200 whose body is not JSON, or a 429 whose [Retry-After] is not
    an integer, ends the loop at once, whatever attempts are left: the
    exception of the parser ([JSONDecodeError], [ValueError]) goes to the
    caller as it is, not wrapped in the error of the client, and no further
    call is made. *)
Theorem X4_unhandled_ends_loop
  (server : nat -> result Response) (n k : nat) (msgs : nat -> text) (e : exn) :
  (k < n)%nat ->
  (forall i, (i < k)%nat -> retryable (server i) (msgs i)) ->
  unhandled (server k) e ->
  _make_api_request server (Z.of_nat n) start
  = (Raise e, {| posts := S k; log := backoff_log (S k) |})
  /\ (e = JSONDecodeError \/ e = ValueError).
Proof.
  intros Hk Hf Hu. split.
  - unfold _make_api_request. rewrite range_of_nat.
    replace n with (k + (n - k))%nat at 2 by lia. rewrite seq_app, map_app.
    rewrite (for_attempts_failures server n msgs _ k 0 start eq_refl) by
      (first [lia | intros i Hi; apply Hf; lia]).
    destruct (n - k)%nat as [|m] eqn:Hm; [lia|].
    cbn [seq map for_attempts Nat.add].
    assert (Hu' : unhandled (server (posts (after_attempts 0 k start))) e).
    { rewrite after_attempts_posts. exact Hu. }
    rewrite (attempt_body_unhandled _ _ _ _ _ Hu'). f_equal.
    change (after_post (Z.of_nat k) (after_attempts 0 k start))
      with (fold_left (fun w i => after_post (Z.of_nat i) w) [k] (after_attempts 0 k start)).
    unfold after_attempts at 1. rewrite <- fold_left_app.
    change [k] with (seq (0 + k) 1). rewrite <- seq_app.
    replace (k + 1)%nat with (S k) by lia. exact (after_attempts_start (S k)).
  - destruct Hu as [r [_ [[_ Hj]|[_ Hh]]]].
    + left. unfold response_json in Hj. destruct (Json.loads (body r)); inversion Hj.
      reflexivity.
    + right. exact (int_of_text_raises _ _ Hh).
Qed.

Lemma X4_unhandled_ends_loop_witness :
  _make_api_request timeout_then_html (Z.of_nat 3) start
  = (Raise JSONDecodeError, {| posts := 2; log := [Post; Sleep 2; Post] |})
  /\ (JSONDecodeError = JSONDecodeError \/ JSONDecodeError = ValueError).
Proof.
  apply (X4_unhandled_ends_loop timeout_then_html 3 1 (fun _ => str "Read timed out.")).
  - lia.
  - intros [|i] Hi; [left; reflexivity|lia].
  - exists {| status_code := 200; headers := []; body := str "<html>Bad gateway</html>" |}.
    split; [reflexivity|]. left. split; reflexivity.
Defined.





(** The lengths that [time.sleep] takes. *)
Lemma sleeps_through_iff (n : Z) : sleeps_through n <-> 0 <= n <= 9223372036.
Proof.
  unfold sleeps_through, sleep. split.
  - intros H. specialize (H start).
    destruct ((n <? -9223372036) || (9223372036 <? n)) eqn:E; [discriminate|].
    destruct (n <? 0) eqn:E0; [discriminate|].
    apply orb_false_iff in E. destruct E as [_ E]. apply Z.ltb_ge in E, E0. lia.
  - intros H w.
    replace ((n <? -9223372036) || (9223372036 <? n)) with false
      by (symmetry; apply orb_false_iff; split; apply Z.ltb_ge; lia).
    replace (n <? 0) with false by (symmetry; apply Z.ltb_ge; lia).
    reflexivity.
Qed.




(** A [Retry-After] that [time.sleep] does not take ends the loop at once:
    here the service asks for 10^20 seconds, the conversion of the length
    overflows, and the [OverflowError] is none of the exceptions that the
    loop retries. *)
Example retry_after_too_long :
  _make_api_request
    (fun _ => reply 429 [(str "Retry-After", str "100000000000000000000")] [])
    3 start
  = (Raise OverflowError, {| posts := 1; log := [Post] |}).
Proof. vm_compute. reflexivity. Qed.

(** ** What every result of the decoder satisfies *)

Lemma create_ok_fields (d : list (text * json)) (r : SentimentResponse) :
  _create_sentiment_response (JObject d) = Ok r ->
  1 <= sentiment_score r <= 5
  /\ processing_time r = dec 0 0
  /\ match Json.lookup d (str "sentiment_label") with
     | Some v => sentiment_label r = v
     | None => score_to_label (sentiment_score r) = Ok (sentiment_label r)
     end.
Proof.
  rewrite create_on_object. unfold bind.
  destruct (Json.lookup d (str "sentiment_score")) as [raw|]; [|discriminate].
  destruct (Py.int raw) as [n|]; [|discriminate].
  destruct ((n <? 1) || (n >? 5)) eqn:Hr; [discriminate|].
  destruct (score_to_label n) as [l|] eqn:Hl; [|discriminate].
  destruct (Py.float _); [|discriminate].
  intros H.
  apply (f_equal (fun x => match x with Ok y => y | Raise _ => r end)) in H.
  cbv beta iota in H. subst r. cbn [sentiment_score sentiment_label processing_time].
  apply orb_false_iff in Hr. destruct Hr as [H1 H2].
  apply Z.ltb_ge in H1. rewrite Z.gtb_ltb in H2. apply Z.ltb_ge in H2.
  split; [lia|]. split; [reflexivity|].
  destruct (Json.lookup d (str "sentiment_label")); [reflexivity|exact Hl].
Qed.

Lemma parse_ok_fields (t lang : text) (r : SentimentResponse) :
  _parse_api_response t lang = Ok r ->
  1 <= sentiment_score r <= 5 /\ processing_time r = dec 0 0.
Proof.
  rewrite parse_by_stage.
  destruct (first_parse (_clean_response_text t)) as [data|].
  - intros H. destruct (create_ok_object _ _ H) as [d ->].
    destruct (create_ok_fields d r H) as [Hs [Hp _]]. auto.
  - unfold _infer_sentiment_from_text.
    repeat match goal with
    | |- context [if ?b then _ else _] => destruct b
    end; cbn; intros H; inversion H; cbn; split; first [lia | reflexivity].
Qed.

(** X6. Every result that the decoder returns, from whichever stage, has
    a score from 1 to 5 and the processing time 0.0 (the caller sets the
    time afterwards). *)
Theorem X6_score_in_range (t lang : text) (r : SentimentResponse) :
  _parse_api_response t lang = Ok r ->
  1 <= sentiment_score r <= 5 /\ processing_time r = dec 0 0.
Proof. exact (parse_ok_fields t lang r). Qed.

Lemma X6_score_in_range_witness :
  1 <= 2 <= 5 /\ dec 0 0 = dec 0 0.
Proof.
  apply (X6_score_in_range
           (txt "The verdict: {'sentiment_score': 2, 'confidence': 0.5} as asked") (str "ja")
           {| sentiment_score := 2; sentiment_label := JString (str "Negative");
              confidence := dec 5 (-1);
              explanation := JString (str "Sentiment analysis completed");
              language_detected := JString (str "en"); processing_time := dec 0 0 |}).
  vm_compute. reflexivity.
Defined.

(** X7. The label of a result is the entry of the table for its score when
    the result comes from the fallback or from a dict without the key
    [sentiment_label]; when the dict has the key, the label is its value as
    it is, checked neither against the five labels nor against the score. *)
Theorem X7_label_of_result (t lang : text) (r : SentimentResponse) :
  _parse_api_response t lang = Ok r ->
  match first_parse (_clean_response_text t) with
  | None => score_to_label (sentiment_score r) = Ok (sentiment_label r)
  | Some data =>
      exists d, data = JObject d
                /\ match Json.lookup d (str "sentiment_label") with
                   | Some v => sentiment_label r = v
                   | None => score_to_label (sentiment_score r) = Ok (sentiment_label r)
                   end
  end.
Proof.
  rewrite parse_by_stage.
  destruct (first_parse (_clean_response_text t)) as [data|].
  - intros H. destruct (create_ok_object _ _ H) as [d ->]. exists d.
    split; [reflexivity|]. exact (proj2 (proj2 (create_ok_fields d r H))).
  - unfold _infer_sentiment_from_text.
    repeat match goal with
    | |- context [if ?b then _ else _] => destruct b
    end; cbn; intros H; inversion H; reflexivity.
Qed.

Lemma X7_label_of_result_witness :
  sentiment_label
    {| sentiment_score := 1; sentiment_label := JString (str "Very Positive");
       confidence := dec 95 (-2);
       explanation := JString (str "Sentiment analysis completed");
       language_detected := JString (str "en"); processing_time := dec 0 0 |}
  = JString (str "Very Positive").
Proof.
  destruct (X7_label_of_result
              (txt "{'sentiment_score': 1, 'sentiment_label': 'Very Positive'}") (str "auto")
              {| sentiment_score := 1; sentiment_label := JString (str "Very Positive");
                 confidence := dec 95 (-2);
                 explanation := JString (str "Sentiment analysis completed");
                 language_detected := JString (str "en"); processing_time := dec 0 0 |})
    as [d [Hd Hl]].
  - vm_compute. reflexivity.
  - inversion Hd; subst. exact Hl.
Defined.

(** X8. A reply whose cleaned text is valid JSON but not an object (a
    bare number, a quoted text, a list, [true], [null]) never gives a
    result and never reaches the later stages or the fallback: the builder
    raises a [TypeError], or the error of the missing score. *)
Theorem X8_non_object_reply_raises (t lang : text) (data : json) :
  Json.loads (_clean_response_text t) = Some data ->
  (forall d, data <> JObject d) ->
  exists e, _parse_api_response t lang = Raise e
            /\ (e = TypeError \/ e = missing_score).
Proof.
  intros Hl Hn. unfold _parse_api_response. rewrite Hl.
  destruct data as [|b|z|f|s|l|d]; try (exists TypeError; split; [reflexivity|auto]; fail).
  - unfold _create_sentiment_response, bind, Py.contains, Py.getitem.
    destruct (Str.contains s (str "sentiment_score")); cbn; eexists; split;
      first [reflexivity | auto].
  - unfold _create_sentiment_response, bind, Py.contains, Py.getitem.
    destruct (existsb _ l); cbn; eexists; split; first [reflexivity | auto].
  - destruct (Hn d eq_refl).
Qed.

Lemma X8_non_object_reply_raises_witness :
  exists e, _parse_api_response (str "4") (str "auto") = Raise e
            /\ (e = TypeError \/ e = missing_score).
Proof.
  apply (X8_non_object_reply_raises (str "4") (str "auto") (JInt 4)).
  - vm_compute. reflexivity.
  - intros d H. discriminate H.
Defined.

(** ** The search for an object with the key of the score *)

(** Literals at the head of a pattern read themselves. *)
Lemma match_here_lits (p : text) (re : list Re.atom) (s : text) :
  Re.match_here (map Re.Lit p ++ re) s
  = if Str.startswith s p
    then option_map (Nat.add (List.length p)) (Re.match_here re (skipn (List.length p) s))
    else None.
Proof.
  revert s. induction p as [|a p IH]; intros s.
  - destruct s; cbn; match goal with |- context [Re.match_here re ?x] =>
      destruct (Re.match_here re x) end; reflexivity.
  - destruct s as [|b s]; [reflexivity|]. cbn [map app Re.match_here Str.startswith].
    rewrite Ascii.eqb_sym. destruct (Ascii.eqb a b); [|reflexivity]. cbn [andb].
    rewrite IH. destruct (Str.startswith s p); [|reflexivity].
    cbn [List.length skipn]. destruct (Re.match_here re (skipn (List.length p) s)); reflexivity.
Qed.

(** What a greedy star has read when the match succeeds. *)
Lemma star_sound (cls : ascii -> bool) (k : text -> option nat) (s : text) (n : nat) :
  Re.star cls k s = Some n ->
  exists a b m, s = a ++ b /\ forallb cls a = true /\ k b = Some m
                /\ n = (List.length a + m)%nat.
Proof.
  revert n. induction s as [|c s IH]; intros n H.
  - exists [], [], n. cbn in H. auto.
  - cbn in H. destruct (cls c) eqn:Hc.
    + destruct (Re.star cls k s) as [m|] eqn:E.
      * inversion H; subst. destruct (IH m eq_refl) as [a [b [m' [-> [Ha [Hk ->]]]]]].
        exists (c :: a), b, m'. cbn. rewrite Hc, Ha. auto.
      * exists [], (c :: s), n. auto.
    + exists [], (c :: s), n. auto.
Qed.

Lemma startswith_nil (s : text) : Str.startswith s [] = true.
Proof. destruct s; reflexivity. Qed.

Lemma startswith_self (key b : text) : Str.startswith (key ++ b) key = true.
Proof.
  induction key as [|x key IHk]; [apply startswith_nil|].
  cbn. rewrite Ascii.eqb_refl. exact IHk.
Qed.

Lemma contains_middle (a key b : text) : Str.contains (a ++ key ++ b) key = true.
Proof.
  induction a as [|c a IH].
  - apply startswith_contains. exact (startswith_self key b).
  - cbn [app Str.contains]. rewrite IH. apply orb_true_r.
Qed.

Lemma search_sound (re : list Re.atom) (s m : text) :
  Re.search re s = Some m ->
  exists before rest n, s = before ++ rest /\ Re.match_here re rest = Some n
                        /\ m = firstn n rest.
Proof.
  induction s as [|c s IH]; cbn [Re.search].
  - destruct (Re.match_here re []) as [n|] eqn:E; [|discriminate].
    intros H. inversion H. exists [], [], n. auto.
  - destruct (Re.match_here re (c :: s)) as [n|] eqn:E.
    + intros H. inversion H. exists [], (c :: s), n. auto.
    + intros H. destruct (IH H) as [before [rest [n [-> [Hm ->]]]]].
      exists (c :: before), rest, n. auto.
Qed.

Lemma score_key_no_brace : forallb Re.not_brace score_key = true.
Proof. reflexivity. Qed.

Lemma score_object_split :
  score_object
  = map Re.Lit (str "{")
    ++ [Re.Star Re.not_brace]
    ++ map Re.Lit score_key ++ [Re.Star Re.not_brace; Re.Lit "}"].
Proof. reflexivity. Qed.

(** What the pattern of the search matches at the head of a text. *)
Lemma score_object_sound (s : text) (n : nat) :
  Re.match_here score_object s = Some n ->
  exists a b rest,
    s = str "{" ++ (a ++ score_key ++ b) ++ str "}" ++ rest
    /\ forallb Re.not_brace a = true
    /\ forallb Re.not_brace b = true
    /\ n = List.length (str "{" ++ (a ++ score_key ++ b) ++ str "}").
Proof.
  destruct s as [|c s]; [discriminate|]. cbn [score_object app Re.match_here].
  destruct (Ascii.eqb_spec c "{") as [->|_]; [|discriminate].
  destruct (Re.star Re.not_brace _ s) as [n1|] eqn:E1; [|discriminate].
  intros H. inversion H; subst. clear H.
  destruct (star_sound _ _ _ _ E1) as [a [s1 [n2 [-> [Ha [Hk ->]]]]]].
  change (Re.match_here (map Re.Lit score_key ++ [Re.Star Re.not_brace; Re.Lit "}"]) s1
          = Some n2) in Hk.
  rewrite match_here_lits in Hk.
  destruct (Str.startswith s1 score_key) eqn:Hs; [|discriminate].
  pose proof (startswith_split _ _ Hs) as Es1.
  remember (skipn (List.length score_key) s1) as s2 eqn:Es2. clear Es2.
  destruct (Re.match_here [Re.Star Re.not_brace; Re.Lit "}"] s2) as [n3|] eqn:E3;
    [|discriminate].
  cbn [option_map] in Hk. assert (n2 = (List.length score_key + n3)%nat) as -> by congruence.
  clear Hk. cbn [Re.match_here] in E3.
  destruct (star_sound _ _ _ _ E3) as [b [s3 [n4 [E [Hb [Hk ->]]]]]].
  destruct s3 as [|x s3]; [discriminate|].
  destruct (Ascii.eqb_spec x "}") as [->|_]; [|discriminate].
  assert (n4 = 1%nat) as -> by (cbn in Hk; congruence).
  exists a, b, s3. subst s1 s2. split; [|split; [exact Ha|split; [exact Hb|]]].
  - cbn [str list_ascii_of_string app]. rewrite <- !app_assoc. reflexivity.
  - cbn [str list_ascii_of_string app List.length]. rewrite !length_app. cbn. lia.
Qed.

(** X9. What the search of the extraction stage returns is a part of the
    text that starts with an opening brace, ends with a closing brace, has
    no brace in between and has the quoted key of the score. *)
Theorem X9_extraction_sound (t m : text) :
  Re.search score_object t = Some m ->
  exists before inner after,
    t = before ++ m ++ after
    /\ m = str "{" ++ inner ++ str "}"
    /\ forallb Re.not_brace inner = true
    /\ Str.contains inner score_key = true.
Proof.
  intros H. destruct (search_sound _ _ _ H) as [before [rest [n [-> [Hm ->]]]]].
  destruct (score_object_sound _ _ Hm) as [a [b [after [-> [Ha [Hb ->]]]]]].
  exists before, (a ++ score_key ++ b), after.
  replace (str "{" ++ (a ++ score_key ++ b) ++ str "}" ++ after)
    with ((str "{" ++ (a ++ score_key ++ b) ++ str "}") ++ after)
    by (rewrite <- !app_assoc; reflexivity).
  rewrite firstn_app, firstn_all, Nat.sub_diag. cbn [firstn]. rewrite app_nil_r.
  split; [reflexivity|]. split; [reflexivity|]. split.
  - rewrite !forallb_app, Ha, Hb, score_key_no_brace. reflexivity.
  - apply contains_middle.
Qed.

Lemma X9_extraction_sound_witness :
  exists before inner after,
    txt "Sure! {'sentiment_score': 4} Hope {this} helps"
    = before ++ txt "{'sentiment_score': 4}" ++ after
    /\ txt "{'sentiment_score': 4}" = str "{" ++ inner ++ str "}"
    /\ forallb Re.not_brace inner = true
    /\ Str.contains inner score_key = true.
Proof.
  apply (X9_extraction_sound (txt "Sure! {'sentiment_score': 4} Hope {this} helps")
           (txt "{'sentiment_score': 4}")).
  vm_compute. reflexivity.
Defined.

Lemma star_to_brace (w after : text) :
  forallb Re.not_brace w = true ->
  Re.star Re.not_brace (Re.match_here [Re.Lit "}"]) (w ++ "}"%char :: after)
  = Some (List.length w + 1)%nat.
Proof.
  intros Hw. induction w as [|c w IH]; [reflexivity|].
  cbn in Hw. apply andb_true_iff in Hw. destruct Hw as [Hc Hw].
  cbn [app Re.star]. rewrite Hc, (IH Hw). reflexivity.
Qed.

Lemma startswith_app_l (x key y : text) :
  Str.startswith x key = true -> Str.startswith (x ++ y) key = true.
Proof.
  intros H. rewrite (startswith_split _ _ H), <- app_assoc. apply startswith_self.
Qed.

(** A key without a closing brace does not start in [x] and end after the
    brace that follows [x]. *)
Lemma startswith_before_brace (key x after : text) :
  forallb Re.not_brace key = true ->
  Str.startswith x key = false ->
  Str.startswith (x ++ "}"%char :: after) key = false.
Proof.
  revert x. induction key as [|k0 key IH]; intros x Hk Hx.
  - rewrite startswith_nil in Hx. discriminate.
  - cbn in Hk. apply andb_true_iff in Hk. destruct Hk as [Hk0 Hk].
    destruct x as [|c x].
    + cbn. destruct (Ascii.eqb_spec k0 "}") as [->|_]; [discriminate Hk0|reflexivity].
    + cbn in Hx |- *. destruct (Ascii.eqb k0 c); [|reflexivity].
      cbn in Hx |- *. exact (IH x Hk Hx).
Qed.

Section FindKey.

Variable re2 : list Re.atom.
Variable after : text.

Let k := Re.match_here (map Re.Lit score_key ++ re2).

(** Where the key is not, the star before the key finds nothing. *)
Lemma star_without_key (x : text) :
  forallb Re.not_brace x = true ->
  Str.contains x score_key = false ->
  Re.star Re.not_brace k (x ++ "}"%char :: after) = None.
Proof.
  intros Hx Hc. induction x as [|c x IH].
  - cbn [app Re.star]. replace (Re.not_brace "}") with false by reflexivity.
    unfold k. rewrite match_here_lits. reflexivity.
  - cbn in Hx. apply andb_true_iff in Hx. destruct Hx as [Hc0 Hx].
    cbn [Str.contains] in Hc. apply orb_false_iff in Hc. destruct Hc as [Hs Hc].
    cbn [app Re.star]. rewrite Hc0, (IH Hx Hc).
    unfold k. rewrite match_here_lits.
    change (c :: x ++ "}"%char :: after) with ((c :: x) ++ "}"%char :: after).
    rewrite (startswith_before_brace _ _ _ score_key_no_brace Hs). reflexivity.
Qed.

End FindKey.

(** Where the key is, the pattern after the opening brace reads up to the
    closing brace. *)
Lemma star_with_key (inner after : text) :
  forallb Re.not_brace inner = true ->
  Str.contains inner score_key = true ->
  Re.star Re.not_brace
    (Re.match_here (map Re.Lit score_key ++ [Re.Star Re.not_brace; Re.Lit "}"]))
    (inner ++ "}"%char :: after)
  = Some (List.length inner + 1)%nat.
Proof.
  intros Hx Hc. induction inner as [|c x IH]; [discriminate Hc|].
  cbn in Hx. apply andb_true_iff in Hx. destruct Hx as [Hc0 Hx].
  cbn [app Re.star]. rewrite Hc0.
  destruct (Str.contains x score_key) eqn:Hcx.
  - rewrite (IH Hx eq_refl). reflexivity.
  - rewrite (star_without_key _ after x Hx Hcx).
    cbn [Str.contains] in Hc. rewrite Hcx, orb_false_r in Hc.
    rewrite match_here_lits.
    change (c :: x ++ "}"%char :: after) with ((c :: x) ++ "}"%char :: after).
    rewrite (startswith_app_l _ _ _ Hc).
    pose proof (startswith_split _ _ Hc) as E.
    remember (skipn (List.length score_key) (c :: x)) as x' eqn:Ex. clear Ex.
    rewrite E, <- app_assoc, skipn_app, skipn_all, Nat.sub_diag. cbn [skipn app].
    assert (Hx' : forallb Re.not_brace x' = true).
    { assert (H : forallb Re.not_brace (c :: x) = true) by (cbn; rewrite Hc0; exact Hx).
      rewrite E, forallb_app in H. apply andb_true_iff in H. tauto. }
    change (Re.match_here [Re.Star Re.not_brace; Re.Lit "}"])
      with (Re.star Re.not_brace (Re.match_here [Re.Lit "}"])).
    rewrite (star_to_brace x' after Hx').
    cbn [option_map]. rewrite length_app. f_equal; lia.
Qed.

Lemma search_skip (re : list Re.atom) (a : ascii) (before s : text) :
  forallb (fun c => negb (Ascii.eqb c a)) before = true ->
  Re.search (Re.Lit a :: re) (before ++ s) = Re.search (Re.Lit a :: re) s.
Proof.
  induction before as [|c before IH]; intros H; [reflexivity|].
  cbn in H. apply andb_true_iff in H. destruct H as [Hc H].
  cbn [app Re.search Re.match_here]. destruct (Ascii.eqb c a); [discriminate|].
  exact (IH H).
Qed.

(** X10. When the cleaned reply has no opening brace before an object
    that has no brace inside and has the quoted key of the score, the search
    of the extraction stage returns that object, whatever follows it; if
    the whole cleaned reply is not JSON and the object is, the decoder
    builds its result from the object. *)
Theorem X10_extraction_finds_object (t lang before inner after : text) (data : json) :
  _clean_response_text t = before ++ str "{" ++ inner ++ str "}" ++ after ->
  forallb (fun c => negb (Ascii.eqb c "{")) before = true ->
  forallb Re.not_brace inner = true ->
  Str.contains inner score_key = true ->
  Json.loads (_clean_response_text t) = None ->
  Json.loads (str "{" ++ inner ++ str "}") = Some data ->
  Re.search score_object (_clean_response_text t) = Some (str "{" ++ inner ++ str "}")
  /\ _parse_api_response t lang = _create_sentiment_response data.
Proof.
  intros Hc Hb Hi Hk Hl Hd.
  assert (Hs : Re.search score_object (_clean_response_text t)
               = Some (str "{" ++ inner ++ str "}")).
  { rewrite Hc. unfold score_object. cbn [app]. rewrite (search_skip _ _ _ _ Hb).
    cbn [str list_ascii_of_string app].
    assert (Hm : Re.match_here
                   (Re.Lit "{" :: Re.Star Re.not_brace
                    :: map Re.Lit (txt "'sentiment_score'")
                       ++ [Re.Star Re.not_brace; Re.Lit "}"])
                   ("{"%char :: inner ++ "}"%char :: after)
                 = Some (S (List.length inner + 1))).
    { cbn [Re.match_here]. rewrite Ascii.eqb_refl.
      pose proof (star_with_key inner after Hi Hk) as E. unfold score_key in E.
      rewrite E. reflexivity. }
    destruct inner as [|c0 inner0] eqn:Ei; [discriminate Hk|]. rewrite <- Ei in *.
    cbn [Re.search]. rewrite Hm. f_equal. cbn [firstn]. f_equal.
    replace (inner ++ "}"%char :: after) with ((inner ++ ["}"%char]) ++ after)
      by (rewrite <- app_assoc; reflexivity).
    replace (List.length inner + 1)%nat with (List.length (inner ++ ["}"%char]) + 0)%nat
      by (rewrite length_app; cbn; lia).
    rewrite firstn_app_2. cbn [firstn]. apply app_nil_r. }
  split; [exact Hs|]. unfold _parse_api_response. rewrite Hl, Hs, Hd. reflexivity.
Qed.

Lemma X10_extraction_finds_object_witness :
  Re.search score_object
    (_clean_response_text (txt "Here it is: {'sentiment_score': 5} and {more}"))
  = Some (str "{" ++ txt "'sentiment_score': 5" ++ str "}")
  /\ _parse_api_response (txt "Here it is: {'sentiment_score': 5} and {more}") (str "auto")
     = _create_sentiment_response (JObject [(str "sentiment_score", JInt 5)]).
Proof.
  apply (X10_extraction_finds_object
           (txt "Here it is: {'sentiment_score': 5} and {more}") (str "auto")
           (str "Here it is: ") (txt "'sentiment_score': 5") (str " and {more}")
           (JObject [(str "sentiment_score", JInt 5)])); vm_compute; reflexivity.
Defined.

(** ** The repair of a truncated reply *)

Lemma endswith_brace_split (s : text) :
  Str.endswith s (str "}") = true -> exists s', s = s' ++ str "}".
Proof.
  unfold Str.endswith. intros H. pose proof (startswith_split _ _ H) as E.
  cbn [str list_ascii_of_string rev app List.length] in E.
  exists (rev (skipn 1 (rev s))). rewrite <- (rev_involutive s) at 1. rewrite E.
  cbn [rev]. reflexivity.
Qed.

Lemma endswith_brace_app (s' : text) : Str.endswith (s' ++ str "}") (str "}") = true.
Proof.
  unfold Str.endswith. rewrite rev_app_distr. apply startswith_self.
Qed.

Lemma strip_keeps_brace (s : text) :
  Str.endswith s (str "}") = true -> Str.endswith (Str.strip s) (str "}") = true.
Proof.
  intros H. destruct (endswith_brace_split s H) as [s' ->].
  unfold Str.strip. rewrite lstrip_app.
  assert (Hr : forall y, Str.rstrip (y ++ str "}") = y ++ str "}").
  { intros y. unfold Str.rstrip. rewrite rev_app_distr.
    cbn [str list_ascii_of_string rev app].
    change (Str.lstrip ("}"%char :: rev y)) with ("}"%char :: rev y).
    cbn [rev]. rewrite rev_involutive. reflexivity. }
  destruct (Str.lstrip s') as [|h l].
  - change (Str.lstrip (str "}")) with ([] ++ str "}"). rewrite Hr. apply endswith_brace_app.
  - rewrite Hr. apply endswith_brace_app.
Qed.

(** X11. Whatever the text, its repair ends with a closing brace, and the
    check of truncation does not hold of a repaired text. *)
Theorem X11_repair_closes (t : text) :
  Str.endswith (_fix_truncated_json t) (str "}") = true
  /\ _is_truncated_json (_fix_truncated_json t) = false.
Proof.
  assert (H : Str.endswith (_fix_truncated_json t) (str "}") = true).
  { unfold _fix_truncated_json.
    match goal with
    | |- context [negb (Str.endswith ?u (str "}"))] =>
        destruct (Str.endswith u (str "}")) eqn:E; cbn [negb]
    end; [exact E|apply endswith_brace_app]. }
  split; [exact H|].
  unfold _is_truncated_json. rewrite (strip_keeps_brace _ H). cbn [negb].
  rewrite andb_false_r. reflexivity.
Qed.

(** ** The analysis from the prompt to the result *)

Lemma for_attempts_ok_posts server max_retries (attempts : list Z) :
  forall w t,
    fst (for_attempts server max_retries attempts w) = Ok t ->
    (posts w < posts (snd (for_attempts server max_retries attempts w)))%nat.
Proof.
  induction attempts as [|a rest IH]; intros w t; [discriminate|].
  cbn [for_attempts].
  destruct (attempt_body_world server max_retries a w) as [Hp _].
  destruct (attempt_body server max_retries a w) as [[[|t']|e] w']; cbn [fst snd] in *.
  - intros H. specialize (IH w' t H). lia.
  - intros _. lia.
  - discriminate.
Qed.

(** What a result of the analysis says of the run that gave it. *)
Lemma analysis_result
  (endpoint : text -> nat -> result Response) (max_retries : Z) (elapsed : pyfloat)
  (request : SentimentAnalysisRequest) (r : SentimentResponse) (w : world) :
  analyze_sentiment endpoint max_retries elapsed request start = (Ok r, w) ->
  1 <= sentiment_score r <= 5
  /\ processing_time r = elapsed
  /\ (1 <= posts w <= Z.to_nat max_retries)%nat.
Proof.
  unfold analyze_sentiment, bind_io, lift, ret.
  set (server := endpoint (_create_sentiment_prompt request)).
  pose proof (for_attempts_world server max_retries (range max_retries) start) as [Hu _].
  pose proof (for_attempts_ok_posts server max_retries (range max_retries) start) as Hl.
  unfold range in Hu at 2. rewrite length_map, length_seq in Hu.
  fold (_make_api_request server max_retries) in Hu, Hl.
  destruct (_make_api_request server max_retries start) as [[response_data|e] w1];
    [|discriminate].
  cbn [fst snd posts start] in Hu, Hl. specialize (Hl _ eq_refl).
  destruct response_data as [| | | |s| |]; try discriminate.
  destruct (_parse_api_response s (language request)) as [r0|e] eqn:Hp; [|discriminate].
  intros H. inversion H; subst. cbn [with_processing_time sentiment_score processing_time].
  destruct (parse_ok_fields _ _ _ Hp) as [Hs _].
  split; [exact Hs|]. split; [reflexivity|]. lia.
Qed.

(** X12. Every result that [analyze_sentiment] returns has a score from 1
    to 5 and carries the measured time as its processing time; it was got
    with at least one call and at most [max_retries] calls. *)
Theorem X12_analysis_result
  (endpoint : text -> nat -> result Response) (max_retries : Z) (elapsed : pyfloat)
  (request : SentimentAnalysisRequest) (r : SentimentResponse) (w : world) :
  analyze_sentiment endpoint max_retries elapsed request start = (Ok r, w) ->
  1 <= sentiment_score r <= 5
  /\ processing_time r = elapsed
  /\ (1 <= posts w <= Z.to_nat max_retries)%nat.
Proof.
  exact (analysis_result endpoint max_retries elapsed request r w).
Qed.

Lemma X12_analysis_result_witness :
  1 <= 5 <= 5 /\ dec 12 (-1) = dec 12 (-1) /\ (1 <= 2 <= Z.to_nat 3)%nat.
Proof.
  apply (X12_analysis_result slow_endpoint 3 (dec 12 (-1)) request_auto
           {| sentiment_score := 5; sentiment_label := JString (str "Very Positive");
              confidence := dec 95 (-2);
              explanation := JString (str "Sentiment analysis completed");
              language_detected := JString (str "en");
              processing_time := dec 12 (-1) |}
           {| posts := 2; log := [Post; Sleep 2; Post] |}).
  vm_compute. reflexivity.
Defined.

Lemma str_eqb_spec (a b : text) : Str.eqb a b = true <-> a = b.
Proof.
  unfold Str.eqb. destruct (list_eq_dec ascii_dec a b); split; congruence.
Qed.

Lemma str_eqb_neq (a b : text) : a <> b -> Str.eqb a b = false.
Proof.
  intros H. destruct (Str.eqb a b) eqn:E; [|reflexivity].
  apply str_eqb_spec in E. contradiction.
Qed.

(** X13. For a request whose language is none of [ja], [ko] and [zh]
    ([auto], [en] and every unknown code), the prompt carries the English
    instructions. Whatever the request, the prompt has its text as it is,
    without any escaping, and a request without context, or with an empty
    one, gets the context [General communication]. *)
Theorem X13_prompt_defaults (request : SentimentAnalysisRequest) :
  language request <> str "ja" ->
  language request <> str "ko" ->
  language request <> str "zh" ->
  _create_sentiment_prompt request
  = prompt_intro ++ request_text request
    ++ prompt_language ++ language request
    ++ prompt_context ++ context_or_default (context request)
    ++ prompt_gap ++ instructions_en ++ prompt_scale
  /\ Str.contains (_create_sentiment_prompt request) (request_text request) = true
  /\ (context request = None \/ context request = Some [] ->
      context_or_default (context request) = str "General communication").
Proof.
  intros Hja Hko Hzh. split; [|split].
  - unfold _create_sentiment_prompt, cultural_context.
    destruct (Str.eqb (language request) (str "auto")); cbn [negb]; [reflexivity|].
    unfold language_instructions. cbn [dict_get].
    rewrite (str_eqb_neq (str "ja")), (str_eqb_neq (str "ko")), (str_eqb_neq (str "zh"))
      by congruence.
    destruct (Str.eqb (str "en") (language request)); reflexivity.
  - unfold _create_sentiment_prompt. apply contains_middle.
  - intros [-> | ->]; reflexivity.
Qed.

Lemma X13_prompt_defaults_witness :
  _create_sentiment_prompt request_auto
  = prompt_intro ++ request_text request_auto
    ++ prompt_language ++ language request_auto
    ++ prompt_context ++ context_or_default (context request_auto)
    ++ prompt_gap ++ instructions_en ++ prompt_scale
  /\ Str.contains (_create_sentiment_prompt request_auto) (request_text request_auto) = true
  /\ (context request_auto = None \/ context request_auto = Some [] ->
      context_or_default (context request_auto) = str "General communication").
Proof.
  apply (X13_prompt_defaults request_auto); discriminate.
Defined.

(** ** The configuration *)

Lemma when_nil (b : bool) (msg : string) : Config.when b msg = [] <-> b = false.
Proof. destruct b; cbn; split; intros H; congruence. Qed.

Lemma validate_valid (c : Config.t) :
  Config.valid (Config.validate c) = true
  <-> Config.api_key (Config.gemini c) <> []
      /\ 1 <= Config.port (Config.server c) <= 65535
      /\ 1 <= Config.default_retention_days (Config.features c)
           <= Config.max_retention_days (Config.features c).
Proof.
  unfold Config.validate. cbn [Config.valid].
  rewrite Nat.eqb_eq, length_zero_iff_nil.
  split.
  - intros H. apply app_eq_nil in H. destruct H as [H1 H].
    apply app_eq_nil in H. destruct H as [H2 H].
    apply app_eq_nil in H. destruct H as [H3 H4].
    apply when_nil in H1, H2, H3, H4.
    apply orb_false_iff in H2. destruct H2 as [H2 H2'].
    apply Z.ltb_ge in H2, H3. rewrite Z.gtb_ltb in H2', H4. apply Z.ltb_ge in H2', H4.
    split; [|lia]. intros E. rewrite E in H1. discriminate H1.
  - intros [H1 [H2 H3]].
    replace (Str.eqb (Config.api_key (Config.gemini c)) []) with false
      by (symmetry; apply str_eqb_neq; exact H1).
    replace (Config.port (Config.server c) <? 1) with false by (symmetry; apply Z.ltb_ge; lia).
    replace (Config.port (Config.server c) >? 65535) with false
      by (symmetry; rewrite Z.gtb_ltb; apply Z.ltb_ge; lia).
    replace (Config.default_retention_days (Config.features c) <? 1) with false
      by (symmetry; apply Z.ltb_ge; lia).
    replace (Config.default_retention_days (Config.features c)
             >? Config.max_retention_days (Config.features c)) with false
      by (symmetry; rewrite Z.gtb_ltb; apply Z.ltb_ge; lia).
    reflexivity.
Qed.

(** X14. [validate] reports a configuration as valid exactly when the key
    of the API is not empty, the port is between 1 and 65535 and the default
    retention is at least one day and at most the maximal retention. The
    timeout and the budget of retries have no say: they give warnings
    only. *)
Theorem X14_validate_valid (c : Config.t) :
  (Config.valid (Config.validate c) = true
   <-> Config.api_key (Config.gemini c) <> []
       /\ 1 <= Config.port (Config.server c) <= 65535
       /\ 1 <= Config.default_retention_days (Config.features c)
            <= Config.max_retention_days (Config.features c))
  /\ (Config.valid (Config.validate c) = true <-> Config.errors (Config.validate c) = []).
Proof.
  split; [exact (validate_valid c)|].
  unfold Config.validate. cbn [Config.valid Config.errors].
  rewrite Nat.eqb_eq. apply length_zero_iff_nil.
Qed.

Lemma getenv_int_failed (env : Config.environ) (name default : string) (f : Config.failure) :
  Config.getenv_int env name default = Config.Failed f -> f = Config.Uncaught ValueError.
Proof.
  unfold Config.getenv_int.
  destruct (Py.int_of_text _) as [z|e] eqn:E; [discriminate|].
  intros H. inversion H. rewrite (int_of_text_raises _ _ E). reflexivity.
Qed.

Lemma getenv_int_default (env : Config.environ) (name default : string) :
  env (str name) = None ->
  Config.getenv_int env name default
  = match Py.int_of_text (str default) with
    | Ok z => Config.Loaded z
    | Raise e => Config.Failed (Config.Uncaught e)
    end.
Proof. intros H. unfold Config.getenv_int, Config.getenv. rewrite H. reflexivity. Qed.

Lemma blank_false (v : option text) :
  Config.blank v = false -> exists k, v = Some k /\ k <> [].
Proof.
  destruct v as [[|x k]|]; try discriminate. intros _. exists (x :: k). split; congruence.
Qed.

(** What the loader of the section of the API gives. *)
Lemma load_gemini_cases (env : Config.environ) :
  match Config._load_gemini_config env with
  | Config.Failed (Config.ConfigurationError msg) =>
      Config.blank (env (str "GEMINI_API_KEY")) = true
      /\ msg = str "GEMINI_API_KEY environment variable is required"
  | Config.Failed (Config.Uncaught e) =>
      Config.blank (env (str "GEMINI_API_KEY")) = false /\ e = ValueError
  | Config.Loaded g =>
      Config.api_key g <> []
      /\ env (str "GEMINI_API_KEY") = Some (Config.api_key g)
      /\ (env (str "GEMINI_MODEL") = None ->
          Config.model_name g = str "gemini-1.5-flash-latest")
      /\ (env (str "GEMINI_TIMEOUT") = None -> Config.timeout g = 30)
      /\ (env (str "GEMINI_MAX_RETRIES") = None -> Config.max_retries g = 3)
  end.
Proof.
  unfold Config._load_gemini_config.
  destruct (Config.blank (env (str "GEMINI_API_KEY"))) eqn:Hb; [split; reflexivity|].
  destruct (blank_false _ Hb) as [k [Hk Hne]].
  unfold Config.and_then.
  destruct (Config.getenv_int env "GEMINI_TIMEOUT" "30") as [tmo|f] eqn:Et.
  - destruct (Config.getenv_int env "GEMINI_MAX_RETRIES" "3") as [retries|f] eqn:Er.
    + cbn [Config.api_key Config.model_name Config.timeout Config.max_retries].
      rewrite Hk. cbn [Config.text_of]. split; [exact Hne|]. split; [reflexivity|].
      split; [|split].
      * intros H. unfold Config.getenv. rewrite H. reflexivity.
      * intros H. rewrite (getenv_int_default _ _ _ H) in Et. cbn in Et. congruence.
      * intros H. rewrite (getenv_int_default _ _ _ H) in Er. cbn in Er. congruence.
    + rewrite (getenv_int_failed _ _ _ _ Er). split; reflexivity.
  - rewrite (getenv_int_failed _ _ _ _ Et). split; reflexivity.
Qed.


(** X16. In a configuration whose sections have loaded, the key of the API
    is not empty, so [validate] never reports that it is required: such a
    configuration is valid exactly when its port and its retention days are
    in their bounds. *)
Theorem X16_loaded_then_validated (env : Config.environ) (token : text) (c : Config.t) :
  Config.init env token = Config.Loaded c ->
  ~ In (str "GEMINI_API_KEY is required") (Config.errors (Config.validate c))
  /\ (Config.valid (Config.validate c) = true
      <-> 1 <= Config.port (Config.server c) <= 65535
          /\ 1 <= Config.default_retention_days (Config.features c)
               <= Config.max_retention_days (Config.features c)).
Proof.
  unfold Config.init, Config.and_then.
  destruct (Config._load_slack_config env) as [s|]; [|discriminate].
  pose proof (load_gemini_cases env) as Hg.
  destruct (Config._load_gemini_config env) as [g|]; [|discriminate].
  destruct (Config._load_server_config env) as [v|]; [|discriminate].
  destruct (Config._load_database_config env) as [d|]; [|discriminate].
  destruct (Config._load_security_config env token) as [k|]; [|discriminate].
  destruct (Config._load_feature_config env) as [f|]; [|discriminate].
  intros H. inversion H; subst. clear H. destruct Hg as [Hne _].
  split.
  - unfold Config.validate. cbn [Config.errors Config.gemini Config.server Config.features].
    rewrite (str_eqb_neq _ _ Hne). cbn [Config.when app].
    unfold Config.when. intros Hin.
    repeat match goal with
    | H : In _ (_ ++ _) |- _ => apply in_app_or in H; destruct H as [H|H]
    | H : In _ (if ?b then _ else _) |- _ => destruct b; cbn in H
    | H : _ \/ _ |- _ => destruct H as [H|H]
    | H : _ = _ :> list ascii |- _ => discriminate H
    | H : False |- _ => destruct H
    end.
  - rewrite validate_valid. cbn [Config.gemini Config.server Config.features]. tauto.
Qed.

Lemma X16_loaded_then_validated_witness :
  ~ In (str "GEMINI_API_KEY is required")
      (Config.errors
         (Config.validate
            {| Config.slack := None;
               Config.gemini :=
                 {| Config.api_key := str "k-123";
                    Config.model_name := str "gemini-1.5-flash-latest";
                    Config.timeout := 30; Config.max_retries := 0 |};
               Config.server :=
                 {| Config.host := str "0.0.0.0"; Config.port := 3000;
                    Config.debug := false |};
               Config.database :=
                 {| Config.url := None; Config.pool_size := 10;
                    Config.max_overflow := 20 |};
               Config.security :=
                 {| Config.secret_key := str "ab12"; Config.encryption_key := None |};
               Config.features :=
                 {| Config.enable_japanese_support := true;
                    Config.enable_data_storage := false;
                    Config.enable_async_processing := false;
                    Config.default_retention_days := 30;
                    Config.max_retention_days := 365 |} |})).
Proof.
  apply (X16_loaded_then_validated sample_env (str "ab12")). vm_compute. reflexivity.
Defined.

(** X17. A budget of retries of zero or less is no error of [validate],
    only a warning, and does not change whether the configuration is valid;
    with such a budget the client makes no call at all and raises
    [Max retries exceeded], whatever the server would answer. *)
Theorem X17_zero_budget (c : Config.t) (server : nat -> result Response) :
  Config.max_retries (Config.gemini c) <= 0 ->
  In (str "GEMINI_MAX_RETRIES should be between 1 and 10") (Config.warnings (Config.validate c))
  /\ (forall n, Config.valid (Config.validate (with_retries c n))
                = Config.valid (Config.validate c))
  /\ _make_api_request server (Config.max_retries (Config.gemini c)) start
     = (Raise (GeminiAPIError (str "Max retries exceeded")), start).
Proof.
  intros H. split; [|split].
  - unfold Config.validate. cbn [Config.warnings]. apply in_or_app. right.
    replace (Config.max_retries (Config.gemini c) <? 1) with true
      by (symmetry; apply Z.ltb_lt; lia).
    left. reflexivity.
  - intros n. reflexivity.
  - unfold _make_api_request, range.
    replace (Z.to_nat (Config.max_retries (Config.gemini c))) with O by lia. reflexivity.
Qed.

Lemma X17_zero_budget_witness :
  _make_api_request always_timeout
    (Config.max_retries
       (Config.gemini
          (with_retries
             {| Config.slack := None;
                Config.gemini :=
                  {| Config.api_key := str "k-123";
                     Config.model_name := str "gemini-1.5-flash-latest";
                     Config.timeout := 30; Config.max_retries := 3 |};
                Config.server :=
                  {| Config.host := str "0.0.0.0"; Config.port := 3000;
                     Config.debug := false |};
                Config.database :=
                  {| Config.url := None; Config.pool_size := 10;
                     Config.max_overflow := 20 |};
                Config.security :=
                  {| Config.secret_key := str "ab12"; Config.encryption_key := None |};
                Config.features :=
                  {| Config.enable_japanese_support := true;
                     Config.enable_data_storage := false;
                     Config.enable_async_processing := false;
                     Config.default_retention_days := 30;
                     Config.max_retention_days := 365 |} |} 0))) start
  = (Raise (GeminiAPIError (str "Max retries exceeded")), start).
Proof.
  apply X17_zero_budget. cbn. lia.
Defined.

(** X18. The loader of the section of Slack gives no section exactly when
    neither the token of the bot nor the signing secret is set (or both are
    empty), raises the error of the configuration exactly when one of the
    two is there without the other, and else gives both as they are. *)
Theorem X18_load_slack (env : Config.environ) :
  match Config._load_slack_config env with
  | Config.Loaded None =>
      Config.blank (env (str "SLACK_BOT_TOKEN")) = true
      /\ Config.blank (env (str "SLACK_SIGNING_SECRET")) = true
  | Config.Loaded (Some s) =>
      env (str "SLACK_BOT_TOKEN") = Some (Config.bot_token s)
      /\ env (str "SLACK_SIGNING_SECRET") = Some (Config.signing_secret s)
      /\ Config.bot_token s <> [] /\ Config.signing_secret s <> []
      /\ Config.app_token s = env (str "SLACK_APP_TOKEN")
  | Config.Failed f =>
      Config.blank (env (str "SLACK_BOT_TOKEN"))
      <> Config.blank (env (str "SLACK_SIGNING_SECRET"))
      /\ exists msg, f = Config.ConfigurationError msg
  end.
Proof.
  unfold Config._load_slack_config.
  destruct (Config.blank (env (str "SLACK_BOT_TOKEN"))) eqn:Hb,
           (Config.blank (env (str "SLACK_SIGNING_SECRET"))) eqn:Hs; cbn [andb orb].
  - split; reflexivity.
  - split; [discriminate|eexists; reflexivity].
  - split; [discriminate|eexists; reflexivity].
  - destruct (blank_false _ Hb) as [b [Eb Hbn]]. destruct (blank_false _ Hs) as [g [Eg Hgn]].
    rewrite Eb, Eg. cbn. auto.
Qed.

(** ** The endpoints of the service *)

Lemma eqb_nil_false (t : text) : Str.eqb t [] = false -> t <> [].
Proof.
  intros H E. subst t. discriminate.
Qed.

Lemma strip_of_ok (x : json) (t : text) :
  App.strip_of x = Ok t -> exists s, x = JString s /\ t = Str.strip s.
Proof.
  destruct x; try discriminate. intros [= <-]. eauto.
Qed.

Lemma getitem_ok (x v : json) (k : text) :
  Py.getitem x k = Ok v -> exists d, x = JObject d /\ Json.lookup d k = Some v.
Proof.
  destruct x as [| | | | | |d]; try discriminate. cbn [Py.getitem].
  destruct (Json.lookup d k) eqn:E; [|discriminate]. intros [= <-]. eauto.
Qed.

(** X19. The handler of [/api/analyze] either answers 400 or 500 without
    any call of the analysis, or the body is a dict whose [text] is a
    [str] that, stripped, is not empty and has at most 10000 characters:
    then the analysis runs once on the stripped text with the language
    ([auto] when absent) and the context ([None] when absent) of the
    body, a result gives the 200 response, a [GeminiAPIError] the 500
    response [Sentiment analysis failed] with its message, and any other
    exception the 500 response [Internal server error]. *)
Theorem X19_analyze_endpoint
  (analyze : App.analysis) (describe : exn -> text) (time_ms : json) (stamp : text)
  (request : App.http_request) (w w' : world) (body : json) (status : Z) :
  App.analyze_sentiment analyze describe time_ms stamp request w = ((body, status), w') ->
  (w' = w /\ (status = 400 \/ status = 500))
  \/ exists d s,
       App.get_json request = Ok (JObject d)
       /\ Json.lookup d (str "text") = Some (JString s)
       /\ valid_text (Str.strip s)
       /\ match analyze (Str.strip s) (language_of d) (context_of d) w with
          | (Ok r, w1) =>
              w' = w1 /\ status = 200 /\ body = success_body r time_ms stamp
          | (Raise (GeminiAPIError m), w1) =>
              w' = w1 /\ status = 500
              /\ body = App.failure_body "Sentiment analysis failed" m
          | (Raise e, w1) =>
              w' = w1 /\ status = 500
              /\ body = App.failure_body "Internal server error" (describe e)
          end.
Proof.
  unfold App.analyze_sentiment, App.analyze_try, bind_io, lift, ret.
  destruct (App.is_json request); cbn [negb];
    [|intros [= <- <- <-]; left; auto].
  destruct (App.get_json request) as [data|e] eqn:Hd;
    [|destruct e; intros [= <- <- <-]; left; auto].
  destruct (Py.truthy data); cbn [negb]; [|intros [= <- <- <-]; left; auto].
  destruct (Py.contains (str "text") data) as [[|]|e]; cbn [negb];
    [|intros [= <- <- <-]; left; auto|destruct e; intros [= <- <- <-]; left; auto].
  destruct (Py.getitem data (str "text")) as [raw|e] eqn:Hg;
    [|destruct e; intros [= <- <- <-]; left; auto].
  apply getitem_ok in Hg. destruct Hg as (d & -> & Hl).
  destruct (App.strip_of raw) as [t|e] eqn:Hs;
    [|destruct e; intros [= <- <- <-]; left; auto].
  apply strip_of_ok in Hs. destruct Hs as (s & -> & ->).
  destruct (Str.eqb (Str.strip s) []) eqn:He; [intros [= <- <- <-]; left; auto|].
  destruct (10000 <? Z.of_nat (App.len (Str.strip s))) eqn:Hn;
    [intros [= <- <- <-]; left; auto|].
  cbn [Py.get]. fold (language_of d). fold (context_of d).
  intros H. right. exists d, s. split; [reflexivity|]. split; [exact Hl|].
  split; [split; [apply eqb_nil_false; exact He|apply Z.ltb_ge; exact Hn]|].
  destruct (analyze (Str.strip s) (language_of d) (context_of d) w) as [[r|e] w1].
  - injection H as <- <- <-. auto.
  - destruct e; injection H as <- <- <-; auto.
Qed.

Lemma X19_analyze_endpoint_witness :
  let out := App.analyze_sentiment (sample_client slow_endpoint 3) sample_describe
               (JFloat (dec 12 2)) sample_stamp sample_request start in
  (snd out = start /\ (snd (fst out) = 400 \/ snd (fst out) = 500))
  \/ exists d s,
       App.get_json sample_request = Ok (JObject d)
       /\ Json.lookup d (str "text") = Some (JString s)
       /\ valid_text (Str.strip s)
       /\ match sample_client slow_endpoint 3 (Str.strip s) (language_of d) (context_of d)
                  start with
          | (Ok r, w1) =>
              snd out = w1 /\ snd (fst out) = 200
              /\ fst (fst out) = success_body r (JFloat (dec 12 2)) sample_stamp
          | (Raise (GeminiAPIError m), w1) =>
              snd out = w1 /\ snd (fst out) = 500
              /\ fst (fst out) = App.failure_body "Sentiment analysis failed" m
          | (Raise e, w1) =>
              snd out = w1 /\ snd (fst out) = 500
              /\ fst (fst out) = App.failure_body "Internal server error" (sample_describe e)
          end.
Proof.
  intros out.
  apply (X19_analyze_endpoint (sample_client slow_endpoint 3) sample_describe
           (JFloat (dec 12 2)) sample_stamp sample_request start).
  vm_compute. reflexivity.
Defined.

(** The entry of one item of a batch. *)
Lemma item_try_entry (analyze : App.analysis) (ms : pyfloat -> json) (i : nat)
  (text_data : json) (w w' : world) (e : App.entry) (ok : bool) :
  App.item_try analyze ms i text_data w = (Ok (e, ok), w') ->
  Json.lookup e (str "id") = Some (App.item_id text_data i)
  /\ has_key "error" e = negb ok
  /\ has_key "sentiment_score" e = ok.
Proof.
  unfold App.item_try, bind_io, lift, ret.
  destruct (Py.contains (str "text") text_data) as [[|]|x]; cbn [negb];
    [|intros [= <- <- <-]; repeat split; reflexivity|discriminate].
  destruct (Py.getitem text_data (str "text")) as [raw|x]; [|discriminate].
  destruct (App.strip_of raw) as [t|x]; [|discriminate].
  destruct (Str.eqb t []); [intros [= <- <- <-]; repeat split; reflexivity|].
  destruct (10000 <? Z.of_nat (App.len t));
    [intros [= <- <- <-]; repeat split; reflexivity|].
  destruct (Py.get text_data (str "language") _) as [lang|x]; [|discriminate].
  destruct (Py.get text_data (str "context") _) as [ctx|x]; [|discriminate].
  destruct (analyze t lang ctx w) as [[r|x] w1]; [|discriminate].
  intros [= <- <- <-]. repeat split; reflexivity.
Qed.

Lemma item_except_entry (describe : exn -> text) (i : nat) (text_data : json) (x : exn) :
  let (e, ok) := App.item_except describe i text_data x in
  Json.lookup e (str "id") = Some (App.item_id text_data i)
  /\ has_key "error" e = negb ok
  /\ has_key "sentiment_score" e = ok.
Proof.
  destruct x; cbn [App.item_except]; repeat split; reflexivity.
Qed.

Lemma batch_item_entry (analyze : App.analysis) (describe : exn -> text)
  (ms : pyfloat -> json) (i : nat) (item : json) (w w' : world) (e : App.entry) (ok : bool) :
  App.batch_item analyze describe ms i item w = ((e, ok), w') ->
  Json.lookup e (str "id") = Some (App.item_id item i)
  /\ has_key "error" e = negb ok
  /\ has_key "sentiment_score" e = ok.
Proof.
  unfold App.batch_item.
  destruct item as [| | | |s| |d];
    try (intros [= <- <- <-]; repeat split; reflexivity).
  - destruct (App.item_try _ _ _ _ _) as [[[e0 ok0]|x] w1] eqn:H.
    + intros [= <- <- <-]. apply item_try_entry in H. exact H.
    + intros H'.
      pose proof (item_except_entry describe i
                    (JObject [(str "text", JString s); (str "id", App.index_id i)]) x) as P.
      destruct (App.item_except _ _ _ _) as [e1 ok1].
      injection H' as <- <- <-. exact P.
  - destruct (App.item_try _ _ _ _ _) as [[[e0 ok0]|x] w1] eqn:H.
    + intros [= <- <- <-]. apply item_try_entry in H. exact H.
    + intros H'.
      pose proof (item_except_entry describe i (JObject d) x) as P.
      destruct (App.item_except _ _ _ _) as [e1 ok1].
      injection H' as <- <- <-. exact P.
Qed.

Lemma count_key_app (k : string) (a b : list App.entry) :
  count_key k (a ++ b) = (count_key k a + count_key k b)%nat.
Proof.
  unfold count_key. rewrite filter_app, length_app. reflexivity.
Qed.

(** The loop of the batch appends one entry for each item, in the order of
    the items, and counts it once. *)
Lemma batch_loop_spec (analyze : App.analysis) (describe : exn -> text)
  (ms : pyfloat -> json) (texts : list json) :
  forall (i : nat) (acc : App.tally) (w : world),
  exists new,
    App.results (fst (App.batch_loop analyze describe ms i texts acc w))
    = App.results acc ++ new
    /\ List.length new = List.length texts
    /\ App.successful (fst (App.batch_loop analyze describe ms i texts acc w))
       = (App.successful acc + count_key "sentiment_score" new)%nat
    /\ App.failed (fst (App.batch_loop analyze describe ms i texts acc w))
       = (App.failed acc + count_key "error" new)%nat
    /\ (count_key "sentiment_score" new + count_key "error" new = List.length texts)%nat
    /\ forall k item,
         nth_error texts k = Some item ->
         exists e, nth_error new k = Some e
                   /\ Json.lookup e (str "id") = Some (App.item_id item (i + k)).
Proof.
  induction texts as [|item rest IH]; intros i acc w.
  - exists []. cbn [App.batch_loop fst]. rewrite app_nil_r.
    repeat split; try reflexivity; try (cbn; lia).
    intros [|k] x; discriminate.
  - cbn [App.batch_loop].
    destruct (App.batch_item analyze describe ms i item w) as [[e ok] w1] eqn:Hi.
    apply batch_item_entry in Hi. destruct Hi as (Hid & Herr & Hres).
    assert (Hone : forall k, count_key k [e] = if has_key k e then 1%nat else 0%nat).
    { intros k. unfold count_key. cbn [filter]. destruct (has_key k e); reflexivity. }
    destruct ok.
    + match goal with
      | |- context [App.batch_loop _ _ _ _ _ ?a ?v] =>
          destruct (IH (S i) a v) as (new & H1 & H2 & H3 & H4 & H5 & H6)
      end.
      exists (e :: new). cbn [App.results App.successful App.failed] in *.
      rewrite H1, H3, H4, <- app_assoc. cbn [app List.length].
      change (e :: new) with ([e] ++ new). rewrite !count_key_app, !Hone, Herr, Hres.
      cbn [negb]. repeat split; try reflexivity; try lia.
      intros [|k] x Hk.
      * injection Hk as <-. exists e. rewrite Nat.add_0_r. split; [reflexivity|exact Hid].
      * destruct (H6 k x Hk) as (e' & Hn & He'). exists e'.
        replace (i + S k)%nat with (S i + k)%nat by lia. split; [exact Hn|exact He'].
    + match goal with
      | |- context [App.batch_loop _ _ _ _ _ ?a ?v] =>
          destruct (IH (S i) a v) as (new & H1 & H2 & H3 & H4 & H5 & H6)
      end.
      exists (e :: new). cbn [App.results App.successful App.failed] in *.
      rewrite H1, H3, H4, <- app_assoc. cbn [app List.length].
      change (e :: new) with ([e] ++ new). rewrite !count_key_app, !Hone, Herr, Hres.
      cbn [negb]. repeat split; try reflexivity; try lia.
      intros [|k] x Hk.
      * injection Hk as <-. exists e. rewrite Nat.add_0_r. split; [reflexivity|exact Hid].
      * destruct (H6 k x Hk) as (e' & Hn & He'). exists e'.
        replace (i + S k)%nat with (S i + k)%nat by lia. split; [exact Hn|exact He'].
Qed.

(** What the handler of [/api/batch] does with a body that passes its
    checks. *)
Lemma batch_accepted (analyze : App.analysis) (describe : exn -> text)
  (ms : pyfloat -> json) (total_ms : json) (stamp : text) (request : App.http_request)
  (d : list (text * json)) (l : list json) (w : world) :
  App.is_json request = true ->
  App.get_json request = Ok (JObject d) ->
  Json.lookup d (str "texts") = Some (JArray l) ->
  (1 <= List.length l <= 50)%nat ->
  App.batch_analyze analyze describe ms total_ms stamp request w
  = ((App.batch_body l
        (fst (App.batch_loop analyze describe ms 0 l
                {| App.results := []; App.successful := 0; App.failed := 0 |} w))
        total_ms stamp, 200),
     snd (App.batch_loop analyze describe ms 0 l
            {| App.results := []; App.successful := 0; App.failed := 0 |} w)).
Proof.
  intros Hj Hd Hl Hn.
  unfold App.batch_analyze, App.batch_try, bind_io, lift, ret.
  rewrite Hj, Hd. cbn [negb].
  assert (Ht : Py.truthy (JObject d) = true).
  { destruct d; [discriminate|reflexivity]. }
  rewrite Ht. cbn [negb Py.contains Py.getitem]. rewrite Hl. cbn [negb].
  destruct (Nat.eqb (List.length l) 0) eqn:E0; [apply Nat.eqb_eq in E0; lia|].
  destruct (50 <? Z.of_nat (List.length l)) eqn:E1; [apply Z.ltb_lt in E1; lia|].
  destruct (App.batch_loop _ _ _ _ _ _ _) as [t w1]. reflexivity.
Qed.

(** X20. A batch whose [texts] is a list of 1 to 50 items is answered
    with 200 whatever the items are and whatever the analysis returns or
    raises on them: the results have one entry for each item, [successful]
    counts the entries that carry a [sentiment_score], [failed] those that
    carry an [error], every entry is of one of the two kinds, and the two
    counts add up to [total], the number of items. *)
Theorem X20_batch_counts
  (analyze : App.analysis) (describe : exn -> text) (ms : pyfloat -> json)
  (total_ms : json) (stamp : text) (request : App.http_request)
  (d : list (text * json)) (l : list json) (w : world) :
  App.is_json request = true ->
  App.get_json request = Ok (JObject d) ->
  Json.lookup d (str "texts") = Some (JArray l) ->
  (1 <= List.length l <= 50)%nat ->
  exists t w',
    App.batch_analyze analyze describe ms total_ms stamp request w
    = ((App.batch_body l t total_ms stamp, 200), w')
    /\ List.length (App.results t) = List.length l
    /\ App.successful t = count_key "sentiment_score" (App.results t)
    /\ App.failed t = count_key "error" (App.results t)
    /\ (App.successful t + App.failed t = List.length l)%nat.
Proof.
  intros Hj Hd Hl Hn.
  eexists _, _. split; [apply (batch_accepted _ _ _ _ _ _ d l w Hj Hd Hl Hn)|].
  destruct (batch_loop_spec analyze describe ms l 0
              {| App.results := []; App.successful := 0; App.failed := 0 |} w)
    as (new & H1 & H2 & H3 & H4 & H5 & _).
  cbn [App.results App.successful App.failed app] in *.
  rewrite H1, H3, H4. repeat split; try assumption; lia.
Qed.

Lemma X20_batch_counts_witness :
  exists t w',
    App.batch_analyze (sample_client slow_endpoint 3) sample_describe sample_ms
      (JFloat (dec 25 2)) sample_stamp sample_batch start
    = ((App.batch_body sample_texts t (JFloat (dec 25 2)) sample_stamp, 200), w')
    /\ List.length (App.results t) = List.length sample_texts
    /\ App.successful t = count_key "sentiment_score" (App.results t)
    /\ App.failed t = count_key "error" (App.results t)
    /\ (App.successful t + App.failed t = List.length sample_texts)%nat.
Proof.
  apply (X20_batch_counts (sample_client slow_endpoint 3) sample_describe sample_ms
           (JFloat (dec 25 2)) sample_stamp sample_batch
           [(str "texts", JArray sample_texts)] sample_texts start);
    [reflexivity|reflexivity|reflexivity|cbn; lia].
Defined.

(** X21. Each entry of the results of a batch stands at the rank of its
    item and carries an [id]: that of the item when the item is a dict with
    an [id], the rank of the item, written in decimal, otherwise. *)
Theorem X21_batch_entries
  (analyze : App.analysis) (describe : exn -> text) (ms : pyfloat -> json)
  (total_ms : json) (stamp : text) (request : App.http_request)
  (d : list (text * json)) (l : list json) (w : world) :
  App.is_json request = true ->
  App.get_json request = Ok (JObject d) ->
  Json.lookup d (str "texts") = Some (JArray l) ->
  (1 <= List.length l <= 50)%nat ->
  exists t w',
    App.batch_analyze analyze describe ms total_ms stamp request w
    = ((App.batch_body l t total_ms stamp, 200), w')
    /\ forall k item,
         nth_error l k = Some item ->
         exists e,
           nth_error (App.results t) k = Some e
           /\ Json.lookup e (str "id")
              = Some (match item with
                      | JObject f =>
                          match Json.lookup f (str "id") with
                          | Some v => v
                          | None => JString (Str.of_Z (Z.of_nat k))
                          end
                      | _ => JString (Str.of_Z (Z.of_nat k))
                      end).
Proof.
  intros Hj Hd Hl Hn.
  eexists _, _. split; [apply (batch_accepted _ _ _ _ _ _ d l w Hj Hd Hl Hn)|].
  destruct (batch_loop_spec analyze describe ms l 0
              {| App.results := []; App.successful := 0; App.failed := 0 |} w)
    as (new & H1 & _ & _ & _ & _ & H6).
  cbn [App.results app] in H1. rewrite H1.
  intros k item Hk. destruct (H6 k item Hk) as (e & He & Hid).
  exists e. split; [exact He|]. rewrite Hid. reflexivity.
Qed.

Lemma X21_batch_entries_witness :
  exists t w',
    App.batch_analyze (sample_client slow_endpoint 3) sample_describe sample_ms
      (JFloat (dec 25 2)) sample_stamp sample_batch start
    = ((App.batch_body sample_texts t (JFloat (dec 25 2)) sample_stamp, 200), w')
    /\ forall k item,
         nth_error sample_texts k = Some item ->
         exists e,
           nth_error (App.results t) k = Some e
           /\ Json.lookup e (str "id")
              = Some (match item with
                      | JObject f =>
                          match Json.lookup f (str "id") with
                          | Some v => v
                          | None => JString (Str.of_Z (Z.of_nat k))
                          end
                      | _ => JString (Str.of_Z (Z.of_nat k))
                      end).
Proof.
  apply (X21_batch_entries (sample_client slow_endpoint 3) sample_describe sample_ms
           (JFloat (dec 25 2)) sample_stamp sample_batch
           [(str "texts", JArray sample_texts)] sample_texts start);
    [reflexivity|reflexivity|reflexivity|cbn; lia].
Defined.

(** X22. A response of [/api/batch] other than 200 is a 400 or a 500 that
    was decided before the loop: no item was analysed. A 200 is given only
    to a dict whose [texts] is a list of 1 to 50 items; an analysis that
    fails never turns the response of a batch into an error. *)
Theorem X22_batch_refusals
  (analyze : App.analysis) (describe : exn -> text) (ms : pyfloat -> json)
  (total_ms : json) (stamp : text) (request : App.http_request)
  (w w' : world) (body : json) (status : Z) :
  App.batch_analyze analyze describe ms total_ms stamp request w = ((body, status), w') ->
  (w' = w /\ (status = 400 \/ status = 500))
  \/ (status = 200
      /\ exists d l,
           App.get_json request = Ok (JObject d)
           /\ Json.lookup d (str "texts") = Some (JArray l)
           /\ (1 <= List.length l <= 50)%nat).
Proof.
  unfold App.batch_analyze, App.batch_try, bind_io, lift, ret.
  destruct (App.is_json request); cbn [negb];
    [|intros [= <- <- <-]; left; auto].
  destruct (App.get_json request) as [data|e] eqn:Hd;
    [|intros [= <- <- <-]; left; auto].
  destruct (Py.truthy data); cbn [negb]; [|intros [= <- <- <-]; left; auto].
  destruct (Py.contains (str "texts") data) as [[|]|e]; cbn [negb];
    [|intros [= <- <- <-]; left; auto|intros [= <- <- <-]; left; auto].
  destruct (Py.getitem data (str "texts")) as [texts|e] eqn:Hg;
    [|intros [= <- <- <-]; left; auto].
  apply getitem_ok in Hg. destruct Hg as (d & -> & Hl).
  destruct texts as [| | | | |l|]; try (intros [= <- <- <-]; left; auto).
  destruct (Nat.eqb (List.length l) 0) eqn:E0; [intros [= <- <- <-]; left; auto|].
  destruct (50 <? Z.of_nat (List.length l)) eqn:E1; [intros [= <- <- <-]; left; auto|].
  destruct (App.batch_loop _ _ _ _ _ _ _) as [t w1].
  intros [= <- <- <-]. right. split; [reflexivity|]. exists d, l.
  apply Nat.eqb_neq in E0. apply Z.ltb_ge in E1.
  split; [reflexivity|]. split; [exact Hl|]. lia.
Qed.

Lemma X22_batch_refusals_witness :
  let request := json_request (JObject [(str "texts", JString (str "one text"))]) in
  (start = start /\ (400 = 400 \/ 400 = 500))
  \/ (400 = 200
      /\ exists d l,
           App.get_json request = Ok (JObject d)
           /\ Json.lookup d (str "texts") = Some (JArray l)
           /\ (1 <= List.length l <= 50)%nat).
Proof.
  intros request.
  apply (X22_batch_refusals (sample_client slow_endpoint 3) sample_describe sample_ms
           (JFloat (dec 25 2)) sample_stamp request start start
           (App.error_body "texts must be an array") 400).
  reflexivity.
Defined.

(** X23. A dict that is not empty fares in a batch as it does alone: sent
    as the body of [/api/analyze] or as an item of [/api/batch], it leads
    to the same calls of the analysis, it is counted as successful exactly
    when the single response is a 200, and a refusal of the single handler
    (a 400 with an error) is the error of the entry of the batch. *)
Theorem X23_item_as_single
  (analyze : App.analysis) (describe : exn -> text) (ms : pyfloat -> json)
  (time_ms : json) (stamp : text) (d : list (text * json)) (i : nat) (w : world) :
  d <> [] ->
  let single :=
    App.analyze_sentiment analyze describe time_ms stamp (json_request (JObject d)) w in
  let item := App.batch_item analyze describe ms i (JObject d) w in
  snd single = snd item
  /\ (snd (fst single) = 200 <-> snd (fst item) = true)
  /\ forall m,
       fst single = (JObject [(str "error", JString m)], 400) ->
       fst item = (App.error_entry (App.item_id (JObject d) i) m, false).
Proof.
  intros Hd. destruct d as [|kv d']; [contradiction|]. clear Hd.
  set (d := kv :: d').
  unfold App.analyze_sentiment, App.analyze_try, App.batch_item, App.item_try,
    json_request, bind_io, lift, ret.
  cbn [App.is_json App.get_json negb Py.truthy Py.contains Py.getitem Py.get].
  change (match d with [] => false | _ :: _ => true end) with true. cbn [negb].
  destruct (Json.lookup d (str "text")) as [raw|]; cbn [negb fst snd].
  2:{ split; [reflexivity|]. split; [split; discriminate|].
      intros m [= <-]. reflexivity. }
  destruct (App.strip_of raw) as [t|e]; cbn [fst snd].
  2:{ split; [reflexivity|]. split; [destruct e; split; discriminate|].
      destruct e; intros m; discriminate. }
  destruct (Str.eqb t []); cbn [fst snd].
  { split; [reflexivity|]. split; [split; discriminate|].
    intros m [= <-]. reflexivity. }
  destruct (10000 <? Z.of_nat (App.len t)); cbn [fst snd].
  { split; [reflexivity|]. split; [split; discriminate|].
    intros m [= <-]. reflexivity. }
  destruct (analyze t _ _ w) as [[r|e] w1]; cbn [fst snd].
  - split; [reflexivity|]. split; [split; reflexivity|]. intros m; discriminate.
  - split; [reflexivity|]. split; [destruct e; split; discriminate|].
    destruct e; intros m; discriminate.
Qed.

Lemma X23_item_as_single_witness :
  let d := [(str "text", JString (str "   ")); (str "id", JInt 12)] in
  let single :=
    App.analyze_sentiment (sample_client slow_endpoint 3) sample_describe
      (JFloat (dec 12 2)) sample_stamp (json_request (JObject d)) start in
  let item :=
    App.batch_item (sample_client slow_endpoint 3) sample_describe sample_ms 4
      (JObject d) start in
  snd single = snd item
  /\ (snd (fst single) = 200 <-> snd (fst item) = true)
  /\ forall m,
       fst single = (JObject [(str "error", JString m)], 400) ->
       fst item = (App.error_entry (App.item_id (JObject d) 4) m, false).
Proof.
  intros d.
  apply (X23_item_as_single (sample_client slow_endpoint 3) sample_describe sample_ms
           (JFloat (dec 12 2)) sample_stamp d 4 start).
  discriminate.
Defined.

(** The handler of [/api/analyze] on a dict whose [text] passes the
    checks: the response is that of the outcome of the analysis. *)
Lemma analyze_accepted
  (analyze : App.analysis) (describe : exn -> text) (time_ms : json) (stamp : text)
  (d : list (text * json)) (s : text) (w : world) :
  Json.lookup d (str "text") = Some (JString s) ->
  valid_text (Str.strip s) ->
  App.analyze_sentiment analyze describe time_ms stamp (json_request (JObject d)) w
  = match analyze (Str.strip s) (language_of d) (context_of d) w with
    | (Ok r, w1) => ((success_body r time_ms stamp, 200), w1)
    | (Raise e, w1) => (App.analyze_except describe e, w1)
    end.
Proof.
  intros Hl [He Hn].
  unfold App.analyze_sentiment, App.analyze_try, json_request, bind_io, lift, ret.
  cbn [App.is_json App.get_json negb Py.truthy Py.contains Py.getitem Py.get].
  assert (Ht : match d with [] => false | _ :: _ => true end = true).
  { destruct d; [discriminate|reflexivity]. }
  rewrite Ht, Hl. cbn [negb App.strip_of].
  rewrite (str_eqb_neq _ _ He).
  replace (10000 <? Z.of_nat (App.len (Str.strip s))) with false
    by (symmetry; apply Z.ltb_ge; exact Hn).
  fold (language_of d). fold (context_of d).
  destruct (analyze (Str.strip s) (language_of d) (context_of d) w) as [[r|e] w1];
    reflexivity.
Qed.

(** X24. From the request to the upstream service and back: when the
    handler of [/api/analyze] runs the client with a budget of [n >= 1]
    calls on a body whose text passes the checks, and every call fails in
    a way that the client retries, the response is the 500
    [Sentiment analysis failed] whose details are the message of the
    client, with [n] and the message of the last failure; [n] calls were
    made, with the pauses of the backoff between them. *)
Theorem X24_upstream_down
  (analyze : App.analysis) (describe : exn -> text) (time_ms : json) (stamp : text)
  (endpoint : text -> nat -> result Response) (n : nat) (elapsed : pyfloat)
  (msgs : nat -> text) (d : list (text * json)) (s : text)
  (rq : SentimentAnalysisRequest) :
  client_of analyze endpoint (Z.of_nat n) elapsed ->
  (1 <= n)%nat ->
  Json.lookup d (str "text") = Some (JString s) ->
  valid_text (Str.strip s) ->
  typed_request (Str.strip s) (language_of d) (context_of d) = Some rq ->
  (forall i, (i < n)%nat -> retryable (endpoint (_create_sentiment_prompt rq) i) (msgs i)) ->
  App.analyze_sentiment analyze describe time_ms stamp (json_request (JObject d)) start
  = ((App.failure_body "Sentiment analysis failed"
        (failed_after (Z.of_nat n) (msgs (n - 1)%nat)), 500),
     {| posts := n; log := backoff_log n |}).
Proof.
  intros Hc Hn Hl Hv Hq Hf.
  rewrite (analyze_accepted _ _ _ _ d s start Hl Hv), (Hc _ _ _ _ Hq).
  unfold Analysis.analyze_sentiment, bind_io.
  rewrite (make_api_request_exhausted _ n msgs Hn Hf). reflexivity.
Qed.

Lemma X24_upstream_down_witness :
  App.analyze_sentiment (sample_client (fun _ => always_500) (Z.of_nat 3)) sample_describe
    (JFloat (dec 12 2)) sample_stamp sample_request start
  = ((App.failure_body "Sentiment analysis failed"
        (failed_after (Z.of_nat 3) (str "API returned status 500: overloaded")), 500),
     {| posts := 3; log := backoff_log 3 |}).
Proof.
  apply (X24_upstream_down (sample_client (fun _ => always_500) (Z.of_nat 3))
           sample_describe (JFloat (dec 12 2)) sample_stamp (fun _ => always_500) 3
           (dec 12 (-1)) (fun _ => str "API returned status 500: overloaded")
           [(str "text", JString (str "  so far so good "))] (str "  so far so good ")
           {| request_text := str "so far so good"; language := str "auto";
              context := None; channel_type := str "web" |}).
  - intros t lang ctx rq H. unfold sample_client. rewrite H. reflexivity.
  - lia.
  - reflexivity.
  - split; [discriminate|vm_compute; discriminate].
  - reflexivity.
  - intros i _. right. right. left.
    exists {| status_code := 500; headers := []; body := str "overloaded" |}.
    repeat split; try discriminate.
Defined.

(** A 200 of [/api/analyze] comes from a result of the analysis of a text
    that passed the checks. *)
Lemma analyze_ok_shape
  (analyze : App.analysis) (describe : exn -> text) (time_ms : json) (stamp : text)
  (d : list (text * json)) (w w' : world) (body : json) :
  App.analyze_sentiment analyze describe time_ms stamp (json_request (JObject d)) w
  = ((body, 200), w') ->
  exists s,
    Json.lookup d (str "text") = Some (JString s)
    /\ valid_text (Str.strip s)
    /\ match analyze (Str.strip s) (language_of d) (context_of d) w with
       | (Ok r, w1) => w' = w1 /\ body = success_body r time_ms stamp
       | (Raise _, _) => False
       end.
Proof.
  unfold App.analyze_sentiment, App.analyze_try, json_request, bind_io, lift, ret.
  cbn [App.is_json App.get_json negb Py.contains Py.getitem Py.get].
  destruct (Py.truthy (JObject d)); cbn [negb]; [|discriminate].
  destruct (Json.lookup d (str "text")) as [raw|]; cbn [negb]; [|discriminate].
  destruct raw as [| | | |s| |]; cbn [App.strip_of];
    try (cbn [App.analyze_except]; discriminate).
  destruct (Str.eqb (Str.strip s) []) eqn:He; [discriminate|].
  destruct (10000 <? Z.of_nat (App.len (Str.strip s))) eqn:Hn; [discriminate|].
  fold (language_of d). fold (context_of d).
  intros H. exists s. split; [reflexivity|].
  split; [split; [apply eqb_nil_false; exact He|apply Z.ltb_ge; exact Hn]|].
  destruct (analyze (Str.strip s) (language_of d) (context_of d) w) as [[r|e] w1].
  - injection H as <- <-. auto.
  - destruct e; discriminate.
Qed.

(** X25. A 200 of [/api/analyze] that the client gave on a body whose
    language is a [str] (or absent) and whose context is a [str] or [None]
    (or absent) carries the result of the client on the stripped text: its
    score is from 1 to 5, and between 1 and [max_retries] calls were
    made. *)
Theorem X25_success_end_to_end
  (analyze : App.analysis) (describe : exn -> text) (time_ms : json) (stamp : text)
  (endpoint : text -> nat -> result Response) (max_retries : Z) (elapsed : pyfloat)
  (d : list (text * json)) (s : text) (rq : SentimentAnalysisRequest)
  (body : json) (w' : world) :
  client_of analyze endpoint max_retries elapsed ->
  Json.lookup d (str "text") = Some (JString s) ->
  typed_request (Str.strip s) (language_of d) (context_of d) = Some rq ->
  App.analyze_sentiment analyze describe time_ms stamp (json_request (JObject d)) start
  = ((body, 200), w') ->
  exists r,
    Analysis.analyze_sentiment endpoint max_retries elapsed rq start = (Ok r, w')
    /\ request_text rq = Str.strip s
    /\ body = success_body r time_ms stamp
    /\ 1 <= sentiment_score r <= 5
    /\ (1 <= posts w' <= Z.to_nat max_retries)%nat.
Proof.
  intros Hc Hl Hq H.
  destruct (analyze_ok_shape analyze describe time_ms stamp d start w' body H)
    as (s' & Hl' & Hv & Ho).
  rewrite Hl in Hl'. injection Hl' as <-.
  rewrite (Hc _ _ _ _ Hq) in Ho.
  destruct (Analysis.analyze_sentiment endpoint max_retries elapsed rq start)
    as [[r|e] w1] eqn:Ha; [|contradiction].
  destruct Ho as (-> & Hb). exists r.
  split; [reflexivity|].
  split; [unfold typed_request in Hq;
          destruct (language_of d), (context_of d); try discriminate;
          injection Hq as <-; reflexivity|].
  split; [exact Hb|].
  destruct (analysis_result _ _ _ _ _ _ Ha) as (Hs & _ & Hp). split; assumption.
Qed.

Lemma X25_success_end_to_end_witness :
  exists r,
    Analysis.analyze_sentiment slow_endpoint 3 (dec 12 (-1))
      {| request_text := str "so far so good"; language := str "auto";
         context := None; channel_type := str "web" |} start
    = (Ok r, {| posts := 2; log := [Post; Sleep 2; Post] |})
    /\ str "so far so good" = Str.strip (str "  so far so good ")
    /\ success_body
         {| sentiment_score := 5; sentiment_label := JString (str "Very Positive");
            confidence := dec 95 (-2);
            explanation := JString (str "Sentiment analysis completed");
            language_detected := JString (str "en");
            processing_time := dec 12 (-1) |} (JFloat (dec 12 2)) sample_stamp
       = success_body r (JFloat (dec 12 2)) sample_stamp
    /\ 1 <= sentiment_score r <= 5
    /\ (1 <= 2 <= Z.to_nat 3)%nat.
Proof.
  apply (X25_success_end_to_end (sample_client slow_endpoint 3) sample_describe
           (JFloat (dec 12 2)) sample_stamp slow_endpoint 3 (dec 12 (-1))
           [(str "text", JString (str "  so far so good "))] (str "  so far so good ")
           {| request_text := str "so far so good"; language := str "auto";
              context := None; channel_type := str "web" |}
           (success_body
              {| sentiment_score := 5; sentiment_label := JString (str "Very Positive");
                 confidence := dec 95 (-2);
                 explanation := JString (str "Sentiment analysis completed");
                 language_detected := JString (str "en");
                 processing_time := dec 12 (-1) |} (JFloat (dec 12 2)) sample_stamp)
           {| posts := 2; log := [Post; Sleep 2; Post] |}).
  - intros t lang ctx rq H. unfold sample_client. rewrite H. reflexivity.
  - reflexivity.
  - reflexivity.
  - vm_compute. reflexivity.
Defined.

(** ** The configuration of the process *)

Lemma init_key (env : Config.environ) (token : text) (c : Config.t) :
  Config.init env token = Config.Loaded c ->
  Config.api_key (Config.gemini c) <> [].
Proof.
  unfold Config.init, Config.and_then.
  destruct (Config._load_slack_config env) as [s|]; [|discriminate].
  pose proof (load_gemini_cases env) as Hg.
  destruct (Config._load_gemini_config env) as [g|]; [|discriminate].
  destruct (Config._load_server_config env) as [v|]; [|discriminate].
  destruct (Config._load_database_config env) as [d|]; [|discriminate].
  destruct (Config._load_security_config env token) as [k|]; [|discriminate].
  destruct (Config._load_feature_config env) as [f|]; [|discriminate].
  intros H. inversion H; subst. destruct Hg as [Hne _]. exact Hne.
Qed.

Lemma construct_loaded setup env token c :
  construct setup env token = Config.Loaded c ->
  Config.init env token = Config.Loaded c /\ setup env = Ok tt.
Proof.
  unfold construct, Config.and_then.
  destruct (Config.init env token) as [c0|]; [|discriminate].
  destruct (setup env) as [[]|e]; [|discriminate].
  intros [= <-]. split; reflexivity.
Qed.

Lemma config_calls_from setup (calls : list config_call) :
  forall (c0 : cache) (c : Config.t),
    fold_left (config_step setup) calls c0 = Some c ->
    c0 = Some c
    \/ exists call,
         In call calls
         /\ Config.init (call_env call) (call_token call) = Config.Loaded c
         /\ setup (call_env call) = Ok tt.
Proof.
  induction calls as [|call rest IH]; intros c0 c; cbn [fold_left].
  - intros H. left. exact H.
  - intros H. destruct (IH _ _ H) as [Hs|(x & Hin & Hx)].
    + destruct call as [env token|env token]; cbn [config_step] in Hs.
      * unfold get_config in Hs. destruct c0 as [c1|].
        -- left. exact Hs.
        -- destruct (construct setup env token) as [c1|f] eqn:Hc; [|discriminate].
           cbn [snd] in Hs. injection Hs as ->.
           right. exists (Get env token). split; [left; reflexivity|].
           exact (construct_loaded _ _ _ _ Hc).
      * unfold reload_config in Hs.
        destruct (construct setup env token) as [c1|f] eqn:Hc; cbn [snd] in Hs.
        -- injection Hs as ->.
           right. exists (Reload env token). split; [left; reflexivity|].
           exact (construct_loaded _ _ _ _ Hc).
        -- left. exact Hs.
    + right. exists x. split; [right; exact Hin|exact Hx].
Qed.

(** X26. After any calls of [get_config] and [reload_config] from an
    empty [_config], a configuration that [_config] holds was loaded from
    the environment of one of the calls, with the logging set up, and its
    API key is not empty. From then on [get_config] returns it without
    reading the environment, and a [reload_config] that fails leaves it in
    place. *)
Theorem X26_config_cache (setup : Config.environ -> result unit)
  (calls : list config_call) (c : Config.t) :
  config_calls setup calls = Some c ->
  (exists call,
     In call calls
     /\ Config.init (call_env call) (call_token call) = Config.Loaded c
     /\ setup (call_env call) = Ok tt)
  /\ Config.api_key (Config.gemini c) <> []
  /\ (forall env token,
        get_config setup env token (Some c) = (Config.Loaded c, Some c))
  /\ (forall env token f,
        construct setup env token = Config.Failed f ->
        reload_config setup env token (Some c) = (Config.Failed f, Some c)).
Proof.
  intros H. destruct (config_calls_from setup calls None c H) as [H0|(x & Hin & Hi & Hs)];
    [discriminate|].
  split; [exists x; auto|].
  split; [exact (init_key _ _ _ Hi)|].
  split; [reflexivity|].
  intros env token f Hf. unfold reload_config. rewrite Hf. reflexivity.
Qed.

Lemma X26_config_cache_witness :
  (exists call,
     In call sample_calls
     /\ Config.init (call_env call) (call_token call) = Config.Loaded sample_config
     /\ (fun _ : Config.environ => Ok tt) (call_env call) = Ok tt)
  /\ Config.api_key (Config.gemini sample_config) <> []
  /\ (forall env token,
        get_config (fun _ => Ok tt) env token (Some sample_config)
        = (Config.Loaded sample_config, Some sample_config))
  /\ (forall env token f,
        construct (fun _ => Ok tt) env token = Config.Failed f ->
        reload_config (fun _ => Ok tt) env token (Some sample_config)
        = (Config.Failed f, Some sample_config)).
Proof.
  apply (X26_config_cache (fun _ => Ok tt) sample_calls sample_config).
  vm_compute. reflexivity.
Defined.
